(** * SageMaker workshop notebooks: a shallow embedding of their glue code

    The notebooks of this repository contain a handful of small scripts:
    sharding a dataset into TFRecord files, building a container image name,
    scoring batch prediction files, and clearing an S3 prefix.  This file
    embeds those scripts as Rocq functions and proves the properties the
    specification states about them.

    Conventions.
    - Python exceptions are the constructors of [exn]; code that may raise
      returns a [result].
    - Code that mutates state (the local file system, the counters of the
      scoring loop) runs in the state-and-exception monad [io].
    - Library calls (numpy, protobuf, boto3, scikit-learn) are modelled by
      the behaviour their documentation and sources give them; each such
      definition says so. *)

From Stdlib Require Import ZArith QArith Qround Lqa String Ascii List.
From Stdlib Require Floats.
From stdpp Require Import gmap strings list pretty.

Local Open Scope string_scope.
Local Open Scope nat_scope.
Local Open Scope list_scope.

(** ** Exceptions and the state-and-exception monad *)

Inductive exn : Type :=
  | ValueError
  | IndexError
  | KeyError
  | TypeError
  | JSONDecodeError
  | OSError
  | ZeroDivisionError
  | OverflowError.

Inductive result (A : Type) : Type :=
  | Ok (a : A)
  | Raise (e : exn).
Arguments Ok {A} a.
Arguments Raise {A} e.

Definition is_ok {A} (r : result A) : bool :=
  match r with Ok _ => true | Raise _ => false end.

Definition rbind {A B} (r : result A) (k : A → result B) : result B :=
  match r with Ok a => k a | Raise e => Raise e end.

(** A Python statement sequence over a mutable store [S]: the store survives
    an exception (what was written before the raise stays written). *)
Definition io (S A : Type) : Type := S → result A * S.

Definition io_ret {S A} (a : A) : io S A := λ σ, (Ok a, σ).
Definition io_lift {S A} (r : result A) : io S A := λ σ, (r, σ).
Definition io_bind {S A B} (m : io S A) (k : A → io S B) : io S B :=
  λ σ, match m σ with
       | (Ok a, σ') => k a σ'
       | (Raise e, σ') => (Raise e, σ')
       end.
Definition io_modify {S} (f : S → S) : io S unit := λ σ, (Ok tt, f σ).

Declare Scope io_scope.
Delimit Scope io_scope with io.
Notation "x ←! m ; k" := (io_bind m (λ x, k))
  (at level 100, m at next level, right associativity) : io_scope.
Notation "m ;! k" := (io_bind m (λ _, k))
  (at level 100, right associativity) : io_scope.

(** [for v in l: body v] *)
Fixpoint for_each {S A} (l : list A) (body : A → io S unit) : io S unit :=
  match l with
  | [] => io_ret tt
  | v :: l' => io_bind (body v) (λ _, for_each l' body)
  end.

(** [range(n)] for an [int] n: empty when n <= 0. *)
Definition range (n : Z) : list nat := seq 0 (Z.to_nat n).

(** [l[i]] for a non-negative index. *)
Definition getitem {A} (l : list A) (i : nat) : result A :=
  match l !! i with Some a => Ok a | None => Raise IndexError end.

(** [s.startswith(p)] and [s.endswith(p)] as propositions. *)
Definition starts_with (s p : string) : Prop := ∃ rest, s = p +:+ rest.
Definition ends_with (s p : string) : Prop := ∃ front, s = front +:+ p.

(** ** Writing a dataset to TFRecord shards (hello-pipe-mode.ipynb) *)

Module PipeMode.

(** *** [numpy.array_split]

    Modelled from numpy's [array_split(ary, indices_or_sections)] for an
    integer number of sections, along axis 0: with [Neach, extras =
    divmod(Ntotal, Nsections)] the section sizes are [extras] times
    [Neach + 1] followed by [Nsections - extras] times [Neach]; the division
    points are their cumulative sums and section [i] is
    [ary[div_points[i] : div_points[i+1]]].  A number of sections that is not
    positive raises [ValueError]. *)

Fixpoint cumsum (acc : nat) (l : list nat) : list nat :=
  match l with
  | [] => []
  | a :: l' => (acc + a) :: cumsum (acc + a) l'
  end.

(** [l[lo:hi]] for [0 <= lo], [0 <= hi]. *)
Definition slice {A} (l : list A) (lo hi : nat) : list A :=
  take (hi - lo) (drop lo l).

Definition section_sizes (Ntotal Nsections : nat) : list nat :=
  let Neach_section := Ntotal / Nsections in
  let extras := Ntotal mod Nsections in
  replicate extras (Neach_section + 1) ++
  replicate (Nsections - extras) Neach_section.

Definition array_split {A} (ary : list A) (indices_or_sections : Z)
  : result (list (list A)) :=
  if (indices_or_sections <=? 0)%Z then Raise ValueError
  else
    let Ntotal := length ary in
    let Nsections := Z.to_nat indices_or_sections in
    let div_points := cumsum 0 ([0] ++ section_sizes Ntotal Nsections) in
    Ok (map (λ i, slice ary (nth i div_points 0) (nth (S i) div_points 0))
            (seq 0 Nsections)).

(** *** protobuf's [Example]

    Modelled from protobuf: a [float_list] keeps 32-bit floats, so a value
    put into it is rounded from binary64 to binary32 (to nearest, ties to
    even; beyond the binary32 range it becomes an infinity) and reads back
    as that binary32 value; an [int64_list] takes the integers of 64 bits
    and raises [ValueError] for any other. *)

Definition float32 (v : PrimFloat.float) : PrimFloat.float :=
  match FloatOps.Prim2SF v with
  | SpecFloat.S754_finite s m e =>
      FloatOps.SF2Prim (SpecFloat.binary_round 24 128 s m e)
  | _ => v
  end.

Definition int64 (v : Z) : bool :=
  (- 2 ^ 63 <=? v)%Z && (v <? 2 ^ 63)%Z.

(** [tf.train.Feature]: the list kinds the notebook fills. *)
Inductive Feature : Type :=
  | float_list (value : list PrimFloat.float)
  | int64_list (value : list Z).

(** [float_list.value.extend(xi)] and [int64_list.value.append(v)]. *)
Definition extend (value xi : list PrimFloat.float) : list PrimFloat.float :=
  value ++ map float32 xi.

Definition append (value : list Z) (v : Z) : result (list Z) :=
  if int64 v then Ok (value ++ [v]) else Raise ValueError.

Section TFRecords.
(** The element type of the label array with Python's [int()] on it (which
    may raise), and protobuf's serialisation of an [Example] with the
    parser that reads it back, are those of the libraries.  The samples are
    rows of binary64 floats. *)
Context {label bytes : Type}.
Variable int : label → result Z.

(** [tf.train.Example] is its [features.feature], a map from key to
    feature: [gmap string Feature]. *)
Variable SerializeToString : gmap string Feature → bytes.
Variable ParseFromString : bytes → option (gmap string Feature).

(** The local file system, as far as the record files go: the records of
    each file, in the order written. *)
Definition files : Type := gmap string (list bytes).

(** [tf.python_io.TFRecordWriter(out_file)]: opening creates or truncates
    the file; [write] appends one record. *)
Definition TFRecordWriter (out_file : string) : io files unit :=
  io_modify (λ fs : gmap string (list bytes), <[out_file := []]> fs).

Definition write (out_file : string) (record : bytes) : io files unit :=
  io_modify (λ fs : gmap string (list bytes),
               <[out_file := default [] (fs !! out_file) ++ [record]]> fs).

(** The [Example] built for sample [i]: the features are extended by
    [x[i]], then [int(y[i])] is appended to the label. *)
Definition make_example (xi : list PrimFloat.float) (yi : label)
  : result (gmap string Feature) :=
  let features := extend [] xi in
  rbind (int yi) (λ v,
  rbind (append [] v) (λ label_value,
  Ok (<["label" := int64_list label_value]>
        (<["features" := float_list features]> ∅)))).

Definition convert_to_tfr (x : list (list PrimFloat.float)) (y : list label)
    (out_file : string) : io files unit :=
  (TFRecordWriter out_file ;!
   let num_samples := length x in
   for_each (seq 0 num_samples) (λ i,
     xi ←! io_lift (getitem x i) ;
     yi ←! io_lift (getitem y i) ;
     example ←! io_lift (make_example xi yi) ;
     write out_file (SerializeToString example)))%io.

(** ['./data/{}/{}{}.tfrecords'.format(channel, channel, i)] *)
Definition shard_path (channel : string) (i : nat) : string :=
  "./data/" +:+ channel +:+ "/" +:+ channel +:+ pretty i +:+ ".tfrecords".

Definition save_to_n_files (x : list (list PrimFloat.float)) (y : list label)
    (n_files : Z) (channel : string) : io files unit :=
  (_split_x ←! io_lift (array_split x n_files) ;
   _split_y ←! io_lift (array_split y n_files) ;
   for_each (range n_files) (λ i,
     sx ←! io_lift (getitem _split_x i) ;
     sy ←! io_lift (getitem _split_y i) ;
     convert_to_tfr sx sy (shard_path channel i)))%io.

(** The labels as integers, when [int()] gives one of 64 bits for each. *)
Definition labels_of (y : list label) (labels : list Z) : Prop :=
  Forall2 (λ yi v, int yi = Ok v ∧ int64 v = true) y labels.

(** The record of a sample with its label, and the records of paired
    samples. *)
Definition example_of (xi : list PrimFloat.float) (v : Z)
  : gmap string Feature :=
  <["label" := int64_list [v]]> (<["features" := float_list (map float32 xi)]> ∅).

Definition records_of (x : list (list PrimFloat.float)) (labels : list Z)
  : list bytes :=
  zip_with (λ xi v, SerializeToString (example_of xi v)) x labels.

(** C2 as the specification words it: the file holds [len(x)] records and
    record [i] carries the feature vector [x[i]] itself under ['features']
    and [int(y[i])] under ['label']. *)
Definition carries_as_stated (x : list (list PrimFloat.float))
    (y : list label) (recs : list bytes) : Prop :=
  length recs = length x ∧
  ∀ i xi yi, x !! i = Some xi → y !! i = Some yi →
    ∃ (record : bytes) (example : gmap string Feature) (v : Z),
      recs !! i = Some record ∧ ParseFromString record = Some example ∧
      int yi = Ok v ∧
      example !! "features" = Some (float_list xi) ∧
      example !! "label" = Some (int64_list [v]).

End TFRecords.

End PipeMode.

(** ** Scoring the batch predictions (3_tf_sm_batch_ic.ipynb) *)

Module BatchScoring.

(** What [json.load] returns: [None], [bool], [int], [float], [str],
    [list], [dict].  An [int] is kept as it is; a [float] is kept as the
    exact rational it is (the non-finite floats that [json.load] gives for
    [NaN], [Infinity] and literals beyond the binary64 range are not
    represented); a [dict] keeps its pairs in document order. *)
#[warnings="-register-all"] Inductive json : Type :=
  | JNull
  | JBool (b : bool)
  | JInt (z : Z)
  | JNumber (q : Q)
  | JString (s : string)
  | JArray (items : list json)
  | JObject (pairs : list (string * json)).

(** A path of the local file system: a directory, or a file whose text
    parses as JSON or does not. *)
Inductive file : Type :=
  | Directory
  | Text (parsed : option json).

(** [s.split(sep)] for a one-character separator. *)
Fixpoint split (sep : ascii) (s : string) : list string :=
  match s with
  | EmptyString => [EmptyString]
  | String c s' =>
      if Ascii.eqb c sep then EmptyString :: split sep s'
      else match split sep s' with
           | [] => [String c EmptyString]
           | w :: ws => String c w :: ws
           end
  end.

(** [l.index(v)]: the first position of [v], [ValueError] when absent. *)
Fixpoint index (l : list string) (v : string) : result nat :=
  match l with
  | [] => Raise ValueError
  | a :: l' =>
      if String.eqb a v then Ok 0
      else rbind (index l' v) (λ i, Ok (S i))
  end.

(** [open(entry, 'r')] followed by [json.load(f)]. *)
Definition open (fs : gmap string file) (entry : string) : result file :=
  match fs !! entry with
  | Some (Text parsed) => Ok (Text parsed)
  | Some Directory | None => Raise OSError
  end.

Definition json_load (f : file) : result json :=
  match f with
  | Text (Some v) => Ok v
  | Text None => Raise JSONDecodeError
  | Directory => Raise OSError
  end.

(** [d[key]] for a string key: only a [dict] takes one; with a repeated
    key the last pair counts. *)
Fixpoint dict_get (pairs : list (string * json)) (key : string) : option json :=
  match pairs with
  | [] => None
  | (k, v) :: pairs' =>
      match dict_get pairs' key with
      | Some v' => Some v'
      | None => if String.eqb k key then Some v else None
      end
  end.

Definition subscript (v : json) (key : string) : result json :=
  match v with
  | JObject pairs =>
      match dict_get pairs key with
      | Some v' => Ok v'
      | None => Raise KeyError
      end
  | _ => Raise TypeError
  end.

(** [for item in v]: a list yields its items, a string its characters, a
    dict its keys; anything else is not iterable. *)
Definition iterate (v : json) : result (list json) :=
  match v with
  | JArray items => Ok items
  | JString s =>
      Ok (map (λ c, JString (String c EmptyString)) (list_ascii_of_string s))
  | JObject pairs => Ok (map JString (remove_dups (map fst pairs)))
  | _ => Raise TypeError
  end.

(** [float(z)] for an [int], as ['%.3f' % z] applies it: the binary64
    value next to [z] (ties to the even mantissa), which is an integer
    again; [OverflowError] when that is beyond the binary64 range. *)
Definition float_of_long (z : Z) : result Z :=
  let a := Z.abs z in
  let shift := (Z.log2 a + 1 - 53)%Z in
  if (shift <=? 0)%Z then Ok z
  else
    let m := Z.shiftr a shift in
    let rest := (a - Z.shiftl m shift)%Z in
    let half := Z.shiftl 1 (shift - 1) in
    let m' := match (rest ?= half)%Z with
              | Lt => m
              | Gt => (m + 1)%Z
              | Eq => if Z.even m then m else (m + 1)%Z
              end in
    let v := Z.shiftl m' shift in
    if (2 ^ 1024 <=? v)%Z then Raise OverflowError else Ok (Z.sgn z * v)%Z.

(** The float that ['%.3f' % item] formats: a [float] itself, an [int]
    converted, [True] and [False] as 1 and 0; other values are a
    [TypeError]. *)
Definition as_float (item : json) : result Q :=
  match item with
  | JNumber q => Ok q
  | JInt z => rbind (float_of_long z) (λ v, Ok (inject_Z v))
  | JBool b => Ok (if b then 1%Q else 0%Q)
  | _ => Raise TypeError
  end.

(** ['%.3f' % v]: the float rounded to three decimals, ties to even.  The
    value is kept as that decimal: [float(...)] of it is the binary64 value
    next to it, the results are only compared with each other, and on the
    three-decimal roundings of binary64 values that last conversion keeps
    the order and the equalities. *)
Definition round3 (q : Q) : Q :=
  let s := (q * 1000)%Q in
  let f := Qfloor s in
  let r := (s - inject_Z f)%Q in
  let n := match (r ?= 1 # 2)%Q with
           | Lt => f
           | Gt => (f + 1)%Z
           | Eq => if Z.even f then f else (f + 1)%Z
           end in
  (n # 1000)%Q.

(** [float('%.3f' % item)] *)
Definition format3 (item : json) : result Q :=
  rbind (as_float item) (λ v, Ok (round3 v)).

Fixpoint mapM {A B} (f : A → result B) (l : list A) : result (list B) :=
  match l with
  | [] => Ok []
  | a :: l' => rbind (f a) (λ b, rbind (mapM f l') (λ bs, Ok (b :: bs)))
  end.

(** [[float('%.3f'%(item)) for sublist in predictions for item in sublist]] *)
Definition flatten_round (predictions : json) : result (list Q) :=
  rbind (iterate predictions) (λ sublists,
  rbind (mapM (λ sublist, rbind (iterate sublist) (mapM format3)) sublists)
        (λ rows, Ok (concat rows))).

(** [np.argmax(np.array(results))]: the first position of the maximum;
    [ValueError] on an empty sequence. *)
Fixpoint argmax_from (best_i : nat) (best : Q) (i : nat) (l : list Q) : nat :=
  match l with
  | [] => best_i
  | v :: l' =>
      if Qle_bool v best then argmax_from best_i best (S i) l'
      else argmax_from i v (S i) l'
  end.

Definition argmax (l : list Q) : result nat :=
  match l with
  | [] => Raise ValueError
  | v :: l' => Ok (argmax_from 0 v 1 l')
  end.

(** The variables of the scoring cell, and what it printed. *)
Record scoring : Type := {
  total : nat;
  correct : nat;
  predicted : list nat;
  actual : list nat;
  printed : list exn
}.

Definition initial : scoring :=
  {| total := 0; correct := 0; predicted := []; actual := []; printed := [] |}.

Definition predicted_append (i : nat) (σ : scoring) : scoring :=
  {| total := total σ; correct := correct σ;
     predicted := predicted σ ++ [i]; actual := actual σ;
     printed := printed σ |}.
Definition actual_append (i : nat) (σ : scoring) : scoring :=
  {| total := total σ; correct := correct σ;
     predicted := predicted σ; actual := actual σ ++ [i];
     printed := printed σ |}.
Definition correct_incr (σ : scoring) : scoring :=
  {| total := total σ; correct := correct σ + 1;
     predicted := predicted σ; actual := actual σ;
     printed := printed σ |}.
Definition total_incr (σ : scoring) : scoring :=
  {| total := total σ + 1; correct := correct σ;
     predicted := predicted σ; actual := actual σ;
     printed := printed σ |}.
Definition print (e : exn) (σ : scoring) : scoring :=
  {| total := total σ; correct := correct σ;
     predicted := predicted σ; actual := actual σ;
     printed := printed σ ++ [e] |}.

(** [try: m except Exception as e: handler e]: every exception of [exn] is
    an [Exception]. *)
Definition try_except {S A} (m : io S A) (handler : exn → io S A) : io S A :=
  λ σ, match m σ with
       | (Ok a, σ') => (Ok a, σ')
       | (Raise e, σ') => handler e σ'
       end.

Section Scoring.
Variable class_name_list : list string.
Variable fs : gmap string file.

(** The statements under [try:] for one entry. *)
Definition try_body (entry : string) : io scoring unit :=
  (actual_label ←! io_lift (getitem (split "/" entry) 1) ;
   actual_index ←! io_lift (index class_name_list actual_label) ;
   f ←! io_lift (open fs entry) ;
   jstr ←! io_lift (json_load f) ;
   predictions ←! io_lift (subscript jstr "predictions") ;
   results ←! io_lift (flatten_round predictions) ;
   class_index ←! io_lift (argmax results) ;
   predicted_label ←! io_lift (getitem class_name_list class_index) ;
   io_modify (predicted_append class_index) ;!
   io_modify (actual_append actual_index) ;!
   let is_correct := String.eqb predicted_label actual_label || false in
   (if is_correct then io_modify correct_incr else io_ret tt) ;!
   io_modify total_incr)%io.

(** [for entry in glob.glob('batch_predictions/*/*'): try: ... except
    Exception as e: print(e); continue], over the paths the glob returned. *)
Definition scoring_loop (entries : list string) : io scoring unit :=
  for_each entries (λ entry,
    try_except (try_body entry) (λ e, io_modify (print e))).

(** [accuracy = correct / total]: true division of two [int]s, kept exact. *)
Definition accuracy (σ : scoring) : result Q :=
  if total σ =? 0 then Raise ZeroDivisionError
  else Ok (inject_Z (Z.of_nat (correct σ)) / inject_Z (Z.of_nat (total σ)))%Q.

(** The two cells in sequence, from fresh counters. *)
Definition score (entries : list string) : result Q :=
  match scoring_loop entries initial with
  | (Ok _, σ) => accuracy σ
  | (Raise e, _) => Raise e
  end.

(** What the statements under [try:] compute before they touch a variable:
    the predicted index, the actual index and [is_correct]. *)
Definition outcome (entry : string) : result (nat * nat * bool) :=
  rbind (getitem (split "/" entry) 1) (λ actual_label,
  rbind (index class_name_list actual_label) (λ actual_index,
  rbind (open fs entry) (λ f,
  rbind (json_load f) (λ jstr,
  rbind (subscript jstr "predictions") (λ predictions,
  rbind (flatten_round predictions) (λ results,
  rbind (argmax results) (λ class_index,
  rbind (getitem class_name_list class_index) (λ predicted_label,
  Ok (class_index, actual_index,
      String.eqb predicted_label actual_label || false))))))))).

(** The assignments that follow, for a file that got that far. *)
Definition record_outcome (o : nat * nat * bool) (σ : scoring) : scoring :=
  let '(class_index, actual_index, is_correct) := o in
  total_incr
    ((if is_correct then correct_incr else id)
       (actual_append actual_index (predicted_append class_index σ))).

(** One turn of the loop, as a state change. *)
Definition turn (σ : scoring) (entry : string) : scoring :=
  match outcome entry with
  | Ok o => record_outcome o σ
  | Raise e => print e σ
  end.

(** Every error raised while processing an entry reaches the caller of the
    loop (the reading of the specification that the loop is checked
    against). *)
Definition propagates (entries : list string) : Prop :=
  ∀ entry e σ, entry ∈ entries →
    fst (try_body entry σ) = Raise e →
    ∃ e', fst (scoring_loop entries initial) = Raise e'.

(** Two states of the cell agree on everything but the printed output. *)
Definition same_variables (σ1 σ2 : scoring) : Prop :=
  total σ1 = total σ2 ∧ correct σ1 = correct σ2 ∧
  predicted σ1 = predicted σ2 ∧ actual σ1 = actual σ2.

(** The notions of the specification.  A file is processed when the
    statements under [try:] finish without raising. *)
Definition processed (entry : string) : bool :=
  is_ok (fst (try_body entry initial)).

(** The actual class: the subfolder the file lies in. *)
Definition actual_class (entry : string) : option string :=
  split "/" entry !! 1.

(** The file's flattened, 3-decimal-rounded probability list. *)
Definition probabilities (entry : string) : option (list Q) :=
  match rbind (open fs entry) (λ f,
        rbind (json_load f) (λ jstr,
        rbind (subscript jstr "predictions") flatten_round)) with
  | Ok l => Some l
  | Raise _ => None
  end.

(** The predicted class: the argmax of the probabilities, mapped through
    [class_name_list]. *)
Definition predicted_class (entry : string) : option string :=
  match probabilities entry with
  | Some l => match argmax l with
              | Ok i => class_name_list !! i
              | Raise _ => None
              end
  | None => None
  end.

Definition hit (entry : string) : bool :=
  processed entry &&
  bool_decide (predicted_class entry = actual_class entry).

End Scoring.

(** The class list of the notebook, and a prediction folder with one file
    that is not JSON and one well-formed prediction. *)
Definition class_name_list : list string := ["013.Bobolink"; "017.Cardinal"].

Definition malformed_out : string := "batch_predictions/013.Bobolink/a.jpg.out".
Definition cardinal_out : string := "batch_predictions/017.Cardinal/b.jpg.out".

Definition sample_predictions : gmap string file :=
  <[malformed_out := Text None]>
    (<[cardinal_out :=
         Text (Some (JObject
           [("predictions",
             JArray [JArray [JNumber (1 # 10); JNumber (9 # 10)]])]))]> ∅).

End BatchScoring.

(** ** The scoring as the specification words it

    C3 speaks of the predicted class of a file: the argmax over the file's
    flattened, three-decimal-rounded probability list, mapped through
    [class_name_list]; and of its actual class: the one named by the
    file's parent subfolder.  These definitions follow those words; they
    share with the loop only Python's iteration of a JSON value and its
    conversion of a number to a float. *)

Module ScoringSpec.
Import BatchScoring.




(** The flattened list: the items of the sublists, in order. *)
Definition flattened (predictions : json) (items : list json) : Prop :=
  ∃ (sublists : list json) (rows : list (list json)),
    iterate predictions = Ok sublists ∧
    Forall2 (λ sublist row, iterate sublist = Ok row) sublists rows ∧
    items = concat rows.

(** [r] is [v] rounded to three decimals: the multiple of 1/1000 next to
    [v], the even multiple when two are equally near. *)
Definition rounded_to_3_decimals (v r : Q) : Prop :=
  ∃ n : Z,
    r = (n # 1000)%Q ∧
    ((v * 1000 - inject_Z n < 1 # 2)%Q ∨
     ((v * 1000 - inject_Z n == 1 # 2)%Q ∧ Z.even n = true)) ∧
    ((inject_Z n - v * 1000 < 1 # 2)%Q ∨
     ((inject_Z n - v * 1000 == 1 # 2)%Q ∧ Z.even n = true)).

(** The argmax of a list: the position of its largest value, the first
    one when the largest value occurs more than once. *)
Definition first_maximum (l : list Q) (i : nat) : Prop :=
  ∃ m, l !! i = Some m ∧
       (∀ j v, l !! j = Some v → (v <= m)%Q) ∧
       (∀ j v, j < i → l !! j = Some v → (v < m)%Q).

(** The predicted class of a prediction document. *)
Definition predicted_class (class_name_list : list string) (doc : json)
    (name : string) : Prop :=
  ∃ (predictions : json) (items : list json) (probabilities rounded : list Q)
    (i : nat),
    subscript doc "predictions" = Ok predictions ∧
    flattened predictions items ∧
    Forall2 (λ item v, as_float item = Ok v) items probabilities ∧
    Forall2 rounded_to_3_decimals probabilities rounded ∧
    first_maximum rounded i ∧
    class_name_list !! i = Some name.


End ScoringSpec.

(** ** The container image of the batch model (3_tf_sm_batch_ic.ipynb) *)

Module BatchModel.

(** The first cell: account and repository by framework version. *)
Definition TF_ACCOUNT_NUM (TF_FRAMEWORK_VERSION : string) : string :=
  if String.eqb TF_FRAMEWORK_VERSION "1.12" then "520713654638"
  else "763104351884".

Definition TF_CONTAINER_NAME (TF_FRAMEWORK_VERSION : string) : string :=
  if String.eqb TF_FRAMEWORK_VERSION "1.12" then "sagemaker-tensorflow-serving"
  else "tensorflow-inference".

(** ['{}.dkr.ecr.{}.amazonaws.com/{}:{}-gpu'.format(a, b, c, d)] and its
    [-cpu] twin, on strings. *)
Definition format_gpu (a b c d : string) : string :=
  a +:+ ".dkr.ecr." +:+ b +:+ ".amazonaws.com/" +:+ c +:+ ":" +:+ d +:+ "-gpu".
Definition format_cpu (a b c d : string) : string :=
  a +:+ ".dkr.ecr." +:+ b +:+ ".amazonaws.com/" +:+ c +:+ ":" +:+ d +:+ "-cpu".

Definition batch_instance_type (USE_GPU_INSTANCE : bool) : string :=
  if USE_GPU_INSTANCE then "ml.p3.2xlarge" else "ml.c5.4xlarge".

Definition framework_image (TF_FRAMEWORK_VERSION : string)
    (USE_GPU_INSTANCE : bool) (region_name : string) : string :=
  if USE_GPU_INSTANCE then
    format_gpu (TF_ACCOUNT_NUM TF_FRAMEWORK_VERSION) region_name
               (TF_CONTAINER_NAME TF_FRAMEWORK_VERSION) TF_FRAMEWORK_VERSION
  else
    format_cpu (TF_ACCOUNT_NUM TF_FRAMEWORK_VERSION) region_name
               (TF_CONTAINER_NAME TF_FRAMEWORK_VERSION) TF_FRAMEWORK_VERSION.

End BatchModel.

(** ** Clearing the data prefix in S3 (hello-pipe-mode.ipynb) *)

Module S3.

Section Store.
(** The objects of all buckets, by bucket name and key. *)
Context {object : Type}.

(** [s3.Bucket(bucket).objects.filter(Prefix=p)]: modelled from boto3, the
    objects of that bucket whose key starts with [p]. *)
Definition objects_filter (s3 : gmap (string * string) object)
    (bucket Prefix : string) : list (string * string) :=
  List.filter (λ bk, String.eqb (fst bk) bucket && String.prefix Prefix (snd bk))
              (map fst (map_to_list s3)).

(** [collection.delete()]: delete every object of the collection. *)
Definition delete_objects (collection : list (string * string))
    (s3 : gmap (string * string) object) : gmap (string * string) object :=
  foldr delete s3 collection.

Definition data_prefix : string := "data/DEMO-hello-pipe-mode".

(** [s3_bucket.objects.filter(Prefix=data_prefix + '/').delete()], in the
    cell that uploads ("clear out any old data") and again in the last
    clean-up cell. *)
Definition clear_old_data (bucket : string)
    (s3 : gmap (string * string) object) : gmap (string * string) object :=
  delete_objects (objects_filter s3 bucket (data_prefix +:+ "/")) s3.

Definition remove_generated_data (bucket : string)
    (s3 : gmap (string * string) object) : gmap (string * string) object :=
  delete_objects (objects_filter s3 bucket (data_prefix +:+ "/")) s3.

End Store.

End S3.

(** ** The two-stage split of the synthetic dataset (hello-pipe-mode.ipynb) *)

Module DatasetSplit.
Import PrimFloat.

(** [math.ceil] of a binary64 float, through its sign, mantissa and
    exponent. *)
Definition ceil (f : PrimFloat.float) : Z :=
  match FloatOps.Prim2SF f with
  | SpecFloat.S754_finite false m e =>
      if (0 <=? e)%Z then (Z.pos m * 2 ^ e)%Z
      else
        let d := (2 ^ (- e))%Z in
        if (Z.pos m mod d =? 0)%Z then (Z.pos m / d)%Z
        else (Z.pos m / d + 1)%Z
  | SpecFloat.S754_finite true m e =>
      if (0 <=? e)%Z then (- (Z.pos m * 2 ^ e))%Z
      else (- (Z.pos m / 2 ^ (- e)))%Z
  | _ => 0%Z
  end.

(** [float(n)] for a sample count (exact below 2^53). *)
Definition float_of_int (n : Z) : PrimFloat.float :=
  PrimFloat.of_uint63 (Uint63.of_Z n).

(** The shapes [train_test_split(X, y, test_size=t)] returns, modelled
    from scikit-learn for a float [test_size] and no [train_size]: the test
    part has [ceil(test_size * n_samples)] rows and the train part the
    rest; the first two results are the train and the test part of [X], in
    that order.  A [test_size] outside (0, 1) or an empty train part is a
    [ValueError]. *)
Definition train_test_split (n_samples : Z) (test_size : PrimFloat.float)
  : result (Z * Z) :=
  if negb (PrimFloat.ltb 0%float test_size && PrimFloat.ltb test_size 1%float)
  then Raise ValueError
  else
    let n_test := ceil (PrimFloat.mul test_size (float_of_int n_samples)) in
    let n_train := (n_samples - n_test)%Z in
    if (n_train <=? 0)%Z then Raise ValueError else Ok (n_train, n_test).

#[warnings="-inexact-float"] Definition val_size : PrimFloat.float := 0.20%float.
#[warnings="-inexact-float"] Definition test_size : PrimFloat.float := 0.10%float.

(** The number of rows bound to each name when the cell has run. *)
Record shapes : Type := { X_train : Z; X_test : Z; X_val : Z }.

Definition split_dataset (NUM_SAMPLES : Z) : result shapes :=
  (* X_train, X_test, y_train, y_test =
       train_test_split(X1, Y1, test_size=(test_size + val_size), ...) *)
  rbind (train_test_split NUM_SAMPLES (PrimFloat.add test_size val_size))
    (λ '(X_train1, X_test1),
  (* X_test, X_val, y_test, y_val =
       train_test_split(X_test, y_test,
                        test_size=(test_size / (test_size + val_size)), ...) *)
  rbind (train_test_split X_test1
           (PrimFloat.div test_size (PrimFloat.add test_size val_size)))
    (λ '(X_test2, X_val2),
  Ok {| X_train := X_train1; X_test := X_test2; X_val := X_val2 |})).

(** The shares the specification states: 70% train, 20% [X_test], 10%
    [X_val]. *)
Definition shares_70_20_10 (NUM_SAMPLES : Z) (s : shapes) : Prop :=
  (10 * X_train s = 7 * NUM_SAMPLES)%Z ∧
  (10 * X_test s = 2 * NUM_SAMPLES)%Z ∧
  (10 * X_val s = 1 * NUM_SAMPLES)%Z.

End DatasetSplit.

(** ** The constants of the pipe-mode notebook (hello-pipe-mode.ipynb) *)

Module PipeNotebook.

(** The constants the [MODE] cell sets. *)
Record mode_constants : Type := {
  TRAIN_INSTANCE_COUNT : Z;
  NUM_SAMPLES : Z;
  NUM_FEATURES : Z;
  NUM_FILES : Z;
  NUM_EPOCHS : Z;
  BASE_JOB_NAME : string
}.

Definition mode_cell (MODE : string) : mode_constants :=
  if String.eqb MODE "fast-demo" then
    {| TRAIN_INSTANCE_COUNT := 1; NUM_SAMPLES := 10000; NUM_FEATURES := 50;
       NUM_FILES := 6; NUM_EPOCHS := 200;
       BASE_JOB_NAME := "tf-pipe-fast-demo" |}
  else if String.eqb MODE "one-slow-node" then
    {| TRAIN_INSTANCE_COUNT := 1; NUM_SAMPLES := 90000; NUM_FEATURES := 5000;
       NUM_FILES := 21; NUM_EPOCHS := 5000;
       BASE_JOB_NAME := "tf-pipe-one-slow-node" |}
  else
    {| TRAIN_INSTANCE_COUNT := 3; NUM_SAMPLES := 90000; NUM_FEATURES := 5000;
       NUM_FILES := 21; NUM_EPOCHS := 5000;
       BASE_JOB_NAME := "tf-pipe-speedy-cluster-" +:+ pretty 3%Z |}.

End PipeNotebook.

(** ** The order of the cells *)

Module Notebooks.


















End Notebooks.

(** * Further cells of the notebooks *)

(** ** The three channels written in one cell (hello-pipe-mode.ipynb) *)

Module Channels.

(** A name that holds no ['/']. *)
Definition no_slash (s : string) : Prop :=
  "/"%char ∉ list_ascii_of_string s.

Section Cell.
Context {label bytes : Type}.
Variable int : label → result Z.
Variable SerializeToString : gmap string PipeMode.Feature → bytes.

(** [save_to_n_files(X_train, y_train, NUM_FILES, 'train')], then the same
    for ['test'] and ['val']. *)
Definition save_channels
    (X_train : list (list PrimFloat.float)) (y_train : list label)
    (X_test : list (list PrimFloat.float)) (y_test : list label)
    (X_val : list (list PrimFloat.float)) (y_val : list label)
    (NUM_FILES : Z) : io (gmap string (list bytes)) unit :=
  (PipeMode.save_to_n_files int SerializeToString X_train y_train NUM_FILES "train" ;!
   PipeMode.save_to_n_files int SerializeToString X_test y_test NUM_FILES "test" ;!
   PipeMode.save_to_n_files int SerializeToString X_val y_val NUM_FILES "val")%io.

End Cell.

End Channels.

(** ** The lists handed to the confusion matrix (3_tf_sm_batch_ic.ipynb) *)

Module Evaluation.
Import BatchScoring.

(** The number of positions at which the predicted and the actual index
    agree. *)
Definition agreements (predicted actual : list nat) : nat :=
  length (List.filter (λ pa, fst pa =? snd pa) (zip predicted actual)).

(** The number a file states, before ['%.3f'] converts and rounds it. *)
Definition raw (item : json) : result Q :=
  match item with
  | JNumber q => Ok q
  | JInt z => Ok (inject_Z z)
  | JBool b => Ok (if b then 1%Q else 0%Q)
  | _ => Raise TypeError
  end.

(** An item that the conversion to a float leaves as it is: every item
    but an [int] beyond 2^53. *)
Definition exact_as_float (item : json) : Prop :=
  match item with
  | JInt z => (Z.abs z ≤ 2 ^ 53)%Z
  | _ => True
  end.

(** A prediction whose sublists hold such items only. *)
Definition exact_numbers (predictions : json) : Prop :=
  ∀ sublists, iterate predictions = Ok sublists →
    Forall (λ sublist, ∀ row, iterate sublist = Ok row →
                         Forall exact_as_float row) sublists.

Definition flatten_raw (predictions : json) : result (list Q) :=
  rbind (iterate predictions) (λ sublists,
  rbind (mapM (λ sublist, rbind (iterate sublist) (mapM raw)) sublists)
        (λ rows, Ok (concat rows))).

(** A rounded value and the value it came from. *)
Definition within_half_thousandth (rounded exact : Q) : Prop :=
  (exact - (1 # 2000) <= rounded)%Q ∧ (rounded <= exact + (1 # 2000))%Q.

(** The path [glob.glob('batch_predictions/*/*')] gives for a file of a
    class folder. *)
Definition prediction_path (folder file : string) : string :=
  "batch_predictions/" +:+ folder +:+ "/" +:+ file.

(** A prediction file that holds one row of floats:
    [{"predictions": [[p0, p1, ...]]}]. *)
Definition serving_output (probabilities : list Q) : file :=
  Text (Some (JObject
    [("predictions", JArray [JArray (map JNumber probabilities)])])).

(** The exception the [try] of the scoring loop catches for an entry. *)
Definition failure (class_name_list : list string) (fs : gmap string file)
    (entry : string) : option exn :=
  match fst (try_body class_name_list fs entry initial) with
  | Ok _ => None
  | Raise e => Some e
  end.

End Evaluation.

(** ** Uploading the data folder (hello-pipe-mode.ipynb) *)

Module Upload.

(** [pre] taken off the front of [s], when [s] starts with it. *)
Fixpoint strip_prefix (pre s : string) : option string :=
  match pre with
  | EmptyString => Some s
  | String a pre' =>
      match s with
      | EmptyString => None
      | String b s' => if Ascii.eqb a b then strip_prefix pre' s' else None
      end
  end.

Section Bucket.
Context {bytes : Type}.

(** [sagemaker_session.upload_data(path='data', key_prefix=key_prefix)],
    modelled from the SageMaker SDK: every file under the folder goes to the
    key [key_prefix + '/' + its path relative to the folder] of the bucket;
    the call returns ['s3://{bucket}/{key_prefix}'].  The local files are
    kept under the paths the notebook writes them to, ['./data/...']. *)
Definition upload_file (bucket key_prefix : string)
    (file : string * list bytes)
    (s3 : gmap (string * string) (list bytes))
  : gmap (string * string) (list bytes) :=
  match strip_prefix "./data/" (fst file) with
  | Some relative => <[(bucket, key_prefix +:+ "/" +:+ relative) := snd file]> s3
  | None => s3
  end.

Definition upload_data (local : gmap string (list bytes))
    (bucket key_prefix : string)
    (s3 : gmap (string * string) (list bytes))
  : gmap (string * string) (list bytes) :=
  foldr (upload_file bucket key_prefix) s3 (map_to_list local).

Definition upload_data_uri (bucket key_prefix : string) : string :=
  "s3://" +:+ bucket +:+ "/" +:+ key_prefix.

(** The cell: clear out any old data, then upload the data folder. *)
Definition upload_cell (local : gmap string (list bytes)) (bucket : string)
    (s3 : gmap (string * string) (list bytes))
  : gmap (string * string) (list bytes) :=
  upload_data local bucket S3.data_prefix (S3.clear_old_data bucket s3).

End Bucket.

End Upload.

(** ** Testing the endpoint (hello-pipe-mode.ipynb) *)

Module EndpointTest.
Import BatchScoring.

(** [v[i]] for a non-negative integer index: a list gives its item, a
    string its character; a dict has no such key; anything else cannot be
    subscripted. *)
Definition item (v : json) (i : nat) : result json :=
  match v with
  | JArray items => getitem items i
  | JString s =>
      getitem (map (λ c, JString (String c EmptyString))
                   (list_ascii_of_string s)) i
  | JObject _ => Raise KeyError
  | _ => Raise TypeError
  end.

(** [round(x)]: the nearest integer, ties to the even one; an [int] is
    itself and a [bool] counts as 0 or 1; anything else is a
    [TypeError]. *)
Definition round_half_even (q : Q) : Z :=
  let f := Qfloor q in
  match (q - inject_Z f ?= 1 # 2)%Q with
  | Lt => f
  | Gt => (f + 1)%Z
  | Eq => if Z.even f then f else (f + 1)%Z
  end.

Definition round (x : json) : result Z :=
  match x with
  | JNumber q => Ok (round_half_even q)
  | JInt z => Ok z
  | JBool b => Ok (if b then 1%Z else 0%Z)
  | _ => Raise TypeError
  end.

(** [num_accurate] and the PASS (true) and FAIL (false) lines printed. *)
Record testing : Type := { num_accurate : nat; lines : list bool }.

Definition start : testing := {| num_accurate := 0; lines := [] |}.
Definition pass (σ : testing) : testing :=
  {| num_accurate := num_accurate σ + 1; lines := lines σ ++ [true] |}.
Definition fail (σ : testing) : testing :=
  {| num_accurate := num_accurate σ; lines := lines σ ++ [false] |}.

Section Loop.
Context {float : Type}.
(** [predictor.predict]: the endpoint, answering with a JSON document or
    raising. *)
Variable predict : list float → result json.
Variable X_test : list (list float).
Variable y_test : list Z.

(** The statements of the loop body up to the comparison. *)
Definition compare_label (i : nat) : result bool :=
  rbind (getitem X_test i) (λ xi,
  rbind (predict xi) (λ result,
  rbind (subscript result "predictions") (λ predictions,
  rbind (item predictions 0) (λ row,
  rbind (item row 0) (λ predicted_prob,
  rbind (round predicted_prob) (λ predicted_label,
  rbind (getitem y_test i) (λ yi,
  Ok (Z.eqb yi predicted_label)))))))).

(** [for i in range(total_to_test): ...] *)
Definition prediction_loop (total_to_test : Z) : io testing unit :=
  for_each (range total_to_test) (λ i,
    (is_accurate ←! io_lift (compare_label i) ;
     if is_accurate then io_modify pass else io_modify fail)%io).

(** [num_accurate/total_to_test], as printed after the loop. *)
Definition Acc (total_to_test : Z) (σ : testing) : result Q :=
  if (total_to_test =? 0)%Z then Raise ZeroDivisionError
  else Ok (inject_Z (Z.of_nat (num_accurate σ)) / inject_Z total_to_test)%Q.

(** The endpoint answers every test sample with a probability at
    [['predictions'][0][0]]. *)
Definition answers_all : Prop :=
  ∀ xi, xi ∈ X_test →
    ∃ r rest q more,
      predict xi = Ok r ∧
      subscript r "predictions"
      = Ok (JArray (JArray (JNumber q :: more) :: rest)).

End Loop.

(** The constant of the notebook. *)
Definition total_to_test : Z := 100.

End EndpointTest.

(** ** The model artifacts of the batch model (3_tf_sm_batch_ic.ipynb) *)

Module Artifacts.

(** [s.index(sub)]: the first position at which [sub] occurs in [s],
    [ValueError] when it does not occur. *)
Fixpoint str_index (sub s : string) : result nat :=
  if String.prefix sub s then Ok 0
  else match s with
       | EmptyString => Raise ValueError
       | String _ s' => rbind (str_index sub s') (λ i, Ok (S i))
       end.

(** [s[0:n]] for [0 <= n]. *)
Fixpoint string_take (n : nat) (s : string) : string :=
  match n, s with
  | S n', String c s' => String c (string_take n' s')
  | _, _ => EmptyString
  end.

(** [s[0:stop]] for an [int] stop: a negative stop counts from the end. *)
Definition slice_to (s : string) (stop : Z) : string :=
  if (stop <? 0)%Z
  then string_take (Z.to_nat (Z.of_nat (String.length s) + stop)) s
  else string_take (Z.to_nat stop) s.

(** ['s3://{}/{}/output/model.tar.gz'.format(bucket, training_job_name)] *)
Definition model_artifacts (bucket training_job_name : string) : string :=
  "s3://" +:+ bucket +:+ "/" +:+ training_job_name +:+ "/output/model.tar.gz".

(** The GPU branch: the folder of the artifacts, without a slash at its
    end, and the [model_gpu.tar.gz] next to the model. *)
Definition model_artifacts_base (model_artifacts : string) : result string :=
  rbind (str_index "model.tar.gz" model_artifacts) (λ i,
  Ok (slice_to model_artifacts (Z.of_nat i - 1))).

Definition gpu_model_artifacts (bucket training_job_name : string)
  : result string :=
  rbind (model_artifacts_base (model_artifacts bucket training_job_name))
        (λ base, Ok (base +:+ "/model_gpu.tar.gz")).

End Artifacts.

(** ** Testing the endpoint on a dataframe (hosting part of
    3_tf_sm_batch_ic.ipynb) *)

Module HostingTest.
Import BatchScoring EndpointTest.

(** [l[i]] for an [int] index: a negative index counts from the end. *)
Definition getitem_int {A} (l : list A) (i : Z) : result A :=
  if (0 <=? i)%Z then getitem l (Z.to_nat i)
  else if (- Z.of_nat (length l) <=? i)%Z
       then getitem l (Z.to_nat (Z.of_nat (length l) + i))
       else Raise IndexError.

(** ['{:.2f}'.format(v)]: a float is formatted, an [int] is converted to a
    float first and a [bool] counts as 0 or 1; a string does not know the
    format code, other values take no format string. *)
Definition format_2f (v : json) : result Q :=
  match v with
  | JNumber q => Ok q
  | JInt z => rbind (float_of_long z) (λ w, Ok (inject_Z w))
  | JBool b => Ok (if b then 1%Q else 0%Q)
  | JString _ => Raise ValueError
  | _ => Raise TypeError
  end.

(** The two columns of the dataframe that the test reads; [class_id] is
    the value [int(...)] gives. *)
Record row : Type := { image_file_name : string; class_id : Z }.

(** An ERROR line: image index, predicted name, confidence, actual name. *)
Record error_line : Type := {
  image_index : nat;
  predicted_name : string;
  confidence : Q;
  actual_name : string
}.

(** The locals of [test_image_df] and the ERROR lines it printed. *)
Record image_test : Type := {
  num_errors : nat;
  preds : list nat;
  acts : list Z;
  output : list error_line
}.

Definition enter : image_test :=
  {| num_errors := 0; preds := []; acts := []; output := [] |}.

Definition acts_append (act : Z) (σ : image_test) : image_test :=
  {| num_errors := num_errors σ; preds := preds σ; acts := acts σ ++ [act];
     output := output σ |}.
Definition preds_append (pred : nat) (σ : image_test) : image_test :=
  {| num_errors := num_errors σ; preds := preds σ ++ [pred]; acts := acts σ;
     output := output σ |}.
Definition num_errors_incr (σ : image_test) : image_test :=
  {| num_errors := num_errors σ + 1; preds := preds σ; acts := acts σ;
     output := output σ |}.
Definition print_error (line : error_line) (σ : image_test) : image_test :=
  {| num_errors := num_errors σ; preds := preds σ; acts := acts σ;
     output := output σ ++ [line] |}.

(** The number of positions at which prediction and label differ. *)
Definition mismatches (preds : list nat) (acts : list Z) : nat :=
  length (List.filter (λ pa, negb (Z.of_nat (fst pa) =? snd pa)%Z)
                      (zip preds acts)).

Section Dataframe.
Context {bytes : Type}.
Variable class_name_list : list string.
Variable IMAGES_DIR : string.
(** [open(fn, 'rb')] and [img.read()]; [predictor.predict]; numpy's
    [argmax] on the decoded predictions. *)
Variable read : string → result bytes.
Variable predict : bytes → result json.
Variable argmax : json → result nat.

(** [predict_bird_from_file(fn, verbose=False)] *)
Definition predict_bird_from_file (fn : string) : result (nat * json) :=
  rbind (read fn) (λ x,
  rbind (predict x) (λ response,
  rbind (subscript response "predictions") (λ results,
  rbind (argmax results) (λ predicted_class_idx,
  rbind (getitem class_name_list predicted_class_idx) (λ predicted_class,
  rbind (item results 0) (λ first,
  rbind (item first predicted_class_idx) (λ confidence,
  Ok (predicted_class_idx, confidence)))))))).

(** The body of the loop of [test_image_df] for index [i]. *)
Definition test_image (df : list row) (i : nat) : io image_test unit :=
  (r ←! io_lift (getitem df i) ;
   let fname := image_file_name r in
   let act := (class_id r - 1)%Z in
   io_modify (acts_append act) ;!
   pc ←! io_lift (predict_bird_from_file (IMAGES_DIR +:+ "/" +:+ fname)) ;
   io_modify (preds_append (fst pc)) ;!
   if negb (Z.of_nat (fst pc) =? act)%Z then
     (io_modify num_errors_incr ;!
      predicted ←! io_lift (getitem class_name_list (fst pc)) ;
      actual ←! io_lift (getitem_int class_name_list act) ;
      conf ←! io_lift (format_2f (snd pc)) ;
      io_modify (print_error
        {| image_index := i; predicted_name := predicted;
           confidence := conf; actual_name := actual |}))
   else io_ret tt)%io.

(** [for i in range(df.shape[0]): ...] *)
Definition test_image_df (df : list row) : io image_test unit :=
  for_each (range (Z.of_nat (length df))) (test_image df).

(** [return num_errors, preds, acts], from fresh locals. *)
Definition returned (df : list row) : result (nat * list nat * list Z) :=
  match test_image_df df enter with
  | (Ok _, σ) => Ok (num_errors σ, preds σ, acts σ)
  | (Raise e, _) => Raise e
  end.

(** The cell that tests a dataframe and prints
    [1 - (num_errors/num_images)], [num_images - num_errors] and
    [num_images]; the first is computed in binary64. *)
Definition accuracy_cell (df : list row)
  : result (PrimFloat.float * Z * nat) :=
  let num_images := length df in
  rbind (returned df) (λ '(num_errors, _, _),
  if num_images =? 0 then Raise ZeroDivisionError
  else Ok (PrimFloat.sub PrimFloat.one
             (PrimFloat.div
                (DatasetSplit.float_of_int (Z.of_nat num_errors))
                (DatasetSplit.float_of_int (Z.of_nat num_images))),
           (Z.of_nat num_images - Z.of_nat num_errors)%Z,
           num_images)).

(** The endpoint answers for the image of a row with a number as
    confidence. *)
Definition answered (r : row) : Prop :=
  ∃ pred q,
    predict_bird_from_file (IMAGES_DIR +:+ "/" +:+ image_file_name r)
    = Ok (pred, JNumber q).

(** [class_id - 1] is an index Python accepts for [class_name_list]. *)
Definition labelled (r : row) : Prop :=
  (- Z.of_nat (length class_name_list) ≤ class_id r - 1
   < Z.of_nat (length class_name_list))%Z.

End Dataframe.

End HostingTest.

(** * Proofs *)

(** ** Strings as lists of characters *)

Module StringFacts.

Lemma list_ascii_app (s t : string) :
  list_ascii_of_string (s +:+ t) = list_ascii_of_string s ++ list_ascii_of_string t.
Proof. induction s as [|c s IH]; simpl; [done|]. f_equal. exact IH. Qed.

Lemma list_ascii_inj (s t : string) :
  list_ascii_of_string s = list_ascii_of_string t → s = t.
Proof.
  intros H. rewrite <- (string_of_list_ascii_of_string s),
    <- (string_of_list_ascii_of_string t). by rewrite H.
Qed.

Lemma app_inv_tail (s1 s2 t : string) : s1 +:+ t = s2 +:+ t → s1 = s2.
Proof.
  intros H. apply list_ascii_inj.
  apply (f_equal list_ascii_of_string) in H. rewrite !list_ascii_app in H.
  by apply (inj (λ l, l ++ list_ascii_of_string t)) in H.
Qed.

Lemma app_assoc (s1 s2 s3 : string) :
  (s1 +:+ s2) +:+ s3 = s1 +:+ (s2 +:+ s3).
Proof.
  induction s1 as [|c s1 IH]; [done|].
  change (String c ((s1 +:+ s2) +:+ s3) = String c (s1 +:+ (s2 +:+ s3))).
  by rewrite IH.
Qed.

Lemma app_inv_head (s t1 t2 : string) : s +:+ t1 = s +:+ t2 → t1 = t2.
Proof. apply (inj (String.app s)). Qed.

Lemma prefix_starts_with (p s : string) :
  String.prefix p s = true ↔ starts_with s p.
Proof.
  revert s. induction p as [|a p IH]; intros s.
  - split; [intros _; by exists s|]. by destruct s.
  - destruct s as [|b s]; cbn [String.prefix].
    + split; [done|]. by intros [rest [=]].
    + destruct (ascii_dec a b) as [->|Hne].
      * rewrite IH. split; intros [rest H]; exists rest.
        -- by rewrite H.
        -- by injection H.
      * split; [done|]. intros [rest H]. by injection H.
Qed.

End StringFacts.

(** ** [array_split] *)

Module PipeModeFacts.
Import PipeMode.

Lemma sum_section_sizes Ntotal Nsections :
  0 < Nsections → sum_list (section_sizes Ntotal Nsections) = Ntotal.
Proof.
  intros Hpos. unfold section_sizes.
  rewrite sum_list_with_app, !sum_list_replicate.
  pose proof (Nat.div_mod_eq Ntotal Nsections) as Hdm.
  pose proof (Nat.mod_upper_bound Ntotal Nsections ltac:(lia)) as Hlt.
  nia.
Qed.

Lemma length_section_sizes Ntotal Nsections :
  0 < Nsections → length (section_sizes Ntotal Nsections) = Nsections.
Proof.
  intros Hpos. unfold section_sizes.
  rewrite length_app, !length_replicate.
  pose proof (Nat.mod_upper_bound Ntotal Nsections ltac:(lia)). lia.
Qed.

Lemma section_sizes_even Ntotal Nsections s :
  0 < Nsections → s ∈ section_sizes Ntotal Nsections →
  s = Ntotal / Nsections ∨
  (s = (Ntotal + Nsections - 1) / Nsections ∧ s = Ntotal / Nsections + 1).
Proof.
  intros Hpos Hin. unfold section_sizes in Hin.
  apply elem_of_app in Hin as [Hin|Hin];
    apply elem_of_replicate in Hin as [-> Hne]; [right|by left].
  split; [|done].
  pose proof (Nat.div_mod_eq Ntotal Nsections) as Hdm.
  pose proof (Nat.mod_upper_bound Ntotal Nsections ltac:(lia)) as Hlt.
  set (q := Ntotal / Nsections) in *. set (r := Ntotal mod Nsections) in *.
  apply (Nat.div_unique _ _ _ (r - 1)); lia.
Qed.

(** The slices at the division points are the sections cut off in turn
    (stdpp's [reshape]). *)
Lemma slices_reshape {A} (ary : list A) sizes acc :
  map (λ i, slice ary (nth i (acc :: cumsum acc sizes) 0)
                      (nth (S i) (acc :: cumsum acc sizes) 0))
      (seq 0 (length sizes))
  = reshape sizes (drop acc ary).
Proof.
  revert acc. induction sizes as [|s sizes IH]; intros acc; [done|].
  cbn [length seq map reshape cumsum]. f_equal.
  - cbn. unfold slice. f_equal. lia.
  - rewrite <- seq_shift, map_map, drop_drop.
    rewrite <- (IH (acc + s)). apply map_ext. intros i. reflexivity.
Qed.

Lemma concat_reshape {A} sizes (l : list A) :
  concat (reshape sizes l) = take (sum_list sizes) l.
Proof.
  revert l. induction sizes as [|s sizes IH]; intros l; cbn; [by rewrite take_0|].
  rewrite IH. apply take_take_drop.
Qed.

Lemma sizes_reshape {A} sizes (l : list A) :
  sum_list sizes ≤ length l → map length (reshape sizes l) = sizes.
Proof.
  revert l. induction sizes as [|s sizes IH]; intros l Hle; cbn in *; [done|].
  rewrite length_take, IH by (rewrite length_drop; lia). f_equal. lia.
Qed.

Lemma array_split_reshape {A} (ary : list A) (n : Z) :
  (1 ≤ n)%Z →
  array_split ary n = Ok (reshape (section_sizes (length ary) (Z.to_nat n)) ary).
Proof.
  intros Hn. unfold array_split.
  destruct (Z.leb_spec n 0) as [?|_]; [lia|]. f_equal.
  cbn [app cumsum]. rewrite Nat.add_0_r.
  set (sizes := section_sizes (length ary) (Z.to_nat n)).
  replace (seq 0 (Z.to_nat n)) with (seq 0 (length sizes))
    by (unfold sizes; rewrite length_section_sizes; [done|lia]).
  by rewrite slices_reshape, drop_0.
Qed.

(** *** [convert_to_tfr] and [save_to_n_files] *)

Lemma Forall2_reshape {A B} (R : A → B → Prop) sizes : ∀ (l : list A) (k : list B),
  Forall2 R l k → Forall2 (Forall2 R) (reshape sizes l) (reshape sizes k).
Proof.
  induction sizes as [|s sizes IH]; intros l k H; cbn; [constructor|].
  constructor; [by apply Forall2_take|]. apply IH. by apply Forall2_drop.
Qed.

Lemma int64_bounds v : int64 v = true ↔ (- 2 ^ 63 ≤ v < 2 ^ 63)%Z.
Proof. unfold int64. rewrite andb_true_iff, Z.leb_le, Z.ltb_lt. done. Qed.

Section TFRecordFacts.
Context {label bytes : Type}.
Variable int : label → result Z.
Variable SerializeToString : gmap string Feature → bytes.
Variable ParseFromString : bytes → option (gmap string Feature).

Local Notation "'records_of'" := (PipeMode.records_of SerializeToString).
Local Notation "'labels_of'" := (PipeMode.labels_of int).
Local Notation "'convert_to_tfr'" :=
  (PipeMode.convert_to_tfr int SerializeToString).
Local Notation "'save_to_n_files'" :=
  (PipeMode.save_to_n_files int SerializeToString).

Lemma shard_path_inj channel : Inj (=) (=) (shard_path channel).
Proof.
  intros i j H. unfold shard_path in H.
  do 4 apply StringFacts.app_inv_head in H.
  apply StringFacts.app_inv_tail in H. by apply (inj pretty) in H.
Qed.

Lemma length_records_of x (labels : list Z) :
  length x = length labels → length (records_of x labels) = length x.
Proof.
  intros H. unfold PipeMode.records_of.
  rewrite length_zip_with. lia.
Qed.

Lemma lookup_records_of x (labels : list Z) i xi v :
  x !! i = Some xi → labels !! i = Some v →
  records_of x labels !! i = Some (SerializeToString (example_of xi v)).
Proof.
  intros Hx Hy. unfold PipeMode.records_of.
  rewrite lookup_zip_with, Hx. cbn. by rewrite Hy.
Qed.

Lemma records_of_app x1 x2 (l1 l2 : list Z) :
  length x1 = length l1 →
  records_of (x1 ++ x2) (l1 ++ l2) = records_of x1 l1 ++ records_of x2 l2.
Proof. intros H. unfold PipeMode.records_of. by apply zip_with_app. Qed.

Lemma make_example_Ok xi yi v :
  int yi = Ok v → int64 v = true →
  make_example int xi yi = Ok (example_of xi v).
Proof.
  intros Hint Hv. unfold make_example, append, extend.
  rewrite Hint. cbn [rbind]. by rewrite Hv.
Qed.

Lemma labels_of_length y labels : labels_of y labels → length y = length labels.
Proof. apply Forall2_length. Qed.

Lemma labels_of_lookup y labels i yi :
  labels_of y labels → y !! i = Some yi →
  ∃ v, labels !! i = Some v ∧ int yi = Ok v ∧ int64 v = true.
Proof.
  intros H Hy. destruct (Forall2_lookup_l _ _ _ _ _ H Hy) as (v & Hv & ? & ?).
  by exists v.
Qed.

(** The writing loop of [convert_to_tfr], started at sample [k] with the
    records [pre] already in the file, over samples whose labels are
    integers of 64 bits. *)
Lemma write_loop x y (labels : list Z) out_file n :
  ∀ k (σ : gmap string (list bytes)) pre,
  σ !! out_file = Some pre →
  k + n ≤ length x →
  (∀ i, k ≤ i < k + n →
     ∃ yi v, y !! i = Some yi ∧ labels !! i = Some v ∧
             int yi = Ok v ∧ int64 v = true) →
  for_each (seq k n) (λ i,
       xi ←! io_lift (getitem x i) ;
       yi ←! io_lift (getitem y i) ;
       example ←! io_lift (make_example int xi yi) ;
       write out_file (SerializeToString example))%io σ
  = (Ok tt, <[out_file := pre ++ records_of (take n (drop k x))
                                          (take n (drop k labels))]> σ).
Proof.
  induction n as [|n IH]; intros k σ pre Hpre Hx Hy.
  - cbn. unfold io_ret. rewrite app_nil_r, insert_id; done.
  - cbn [seq for_each].
    destruct (lookup_lt_is_Some_2 x k ltac:(lia)) as [xi Hxi].
    destruct (Hy k ltac:(lia)) as (yi & v & Hyi & Hv & Hint & H64).
    unfold io_bind at 1. unfold io_bind at 1, io_lift at 1, getitem at 1.
    rewrite Hxi. unfold io_bind at 1, io_lift at 1, getitem at 1. rewrite Hyi.
    unfold io_bind at 1, io_lift at 1.
    rewrite (make_example_Ok xi yi v Hint H64).
    unfold write at 1, io_modify at 1. rewrite Hpre. cbn [default].
    erewrite IH; [|apply lookup_insert_eq|lia|intros i Hi; apply Hy; lia].
    rewrite insert_insert_eq. do 2 f_equal.
    rewrite (drop_S x xi k Hxi), (drop_S labels v k Hv). cbn.
    by rewrite <- app_assoc.
Qed.

Lemma convert_to_tfr_run x y (labels : list Z) out_file
    (σ : gmap string (list bytes)) :
  length x ≤ length y → labels_of (take (length x) y) labels →
  convert_to_tfr x y out_file σ
  = (Ok tt, <[out_file := records_of x labels]> σ).
Proof.
  intros Hlen Hlabels. unfold PipeMode.convert_to_tfr.
  unfold io_bind at 1, TFRecordWriter, io_modify. cbn zeta.
  pose proof (labels_of_length _ _ Hlabels) as Hl.
  rewrite length_take in Hl.
  erewrite (write_loop x y labels out_file (length x) 0 _ []);
    [|apply lookup_insert_eq|lia|].
  - rewrite insert_insert_eq, !drop_0.
    by rewrite (take_ge x), (take_ge labels) by lia.
  - intros i Hi.
    destruct (lookup_lt_is_Some_2 y i ltac:(lia)) as [yi Hyi].
    destruct (labels_of_lookup _ _ i yi Hlabels) as (v & Hv & Hint & H64).
    { rewrite lookup_take_lt by lia. done. }
    by exists yi, v.
Qed.

(** C2, amended: for equal-length [x] and [y] whose labels [int()] turns
    into integers of 64 bits, [convert_to_tfr] leaves in [out_file] exactly
    [len(x)] records, in index order; record [i] parses back to the
    [Example] whose feature map has exactly the keys ['features'], holding
    [x[i]] rounded to 32-bit floats, and ['label'], holding the one-element
    integer list [int(y[i])].  No other file changes. *)
Theorem convert_to_tfr_records x y (labels : list Z) out_file
    (σ : gmap string (list bytes)) :
  (∀ example, ParseFromString (SerializeToString example) = Some example) →
  length x = length y → labels_of y labels →
  ∃ recs : list bytes,
    convert_to_tfr x y out_file σ = (Ok tt, <[out_file := recs]> σ) ∧
    length recs = length x ∧
    ∀ i xi v, x !! i = Some xi → labels !! i = Some v →
      ∃ (record : bytes) (example : gmap string Feature),
        recs !! i = Some record ∧
        ParseFromString record = Some example ∧
        example !! "features" = Some (float_list (map float32 xi)) ∧
        example !! "label" = Some (int64_list [v]) ∧
        dom example = {["features"; "label"]}.
Proof.
  intros Hparse Hlen Hlabels. exists (records_of x labels).
  pose proof (labels_of_length _ _ Hlabels) as Hl.
  split; [|split].
  - apply convert_to_tfr_run; [lia|]. by rewrite take_ge by lia.
  - apply length_records_of. lia.
  - intros i xi v Hx Hv. eexists _, (example_of xi v).
    split; [by apply lookup_records_of|]. split; [apply Hparse|].
    unfold example_of. split; [|split].
    + by rewrite lookup_insert_ne, lookup_insert_eq.
    + by rewrite lookup_insert_eq.
    + rewrite !dom_insert_L, dom_empty_L. set_solver.
Qed.

(** The per-shard loop of [save_to_n_files], started at shard [k]. *)
Lemma shard_loop (sx : list (list (list PrimFloat.float)))
    (sy : list (list label)) (sl : list (list Z)) channel m :
  ∀ k (σ : gmap string (list bytes)),
  k + m ≤ length sx → k + m ≤ length sy →
  (∀ i xi yi, sx !! i = Some xi → sy !! i = Some yi → length xi = length yi) →
  Forall2 labels_of sy sl →
  ∃ σ' : gmap string (list bytes),
    for_each (seq k m) (λ i,
       xi ←! io_lift (getitem sx i) ;
       yi ←! io_lift (getitem sy i) ;
       convert_to_tfr xi yi (shard_path channel i))%io σ = (Ok tt, σ') ∧
    (∀ i xi li, k ≤ i < k + m → sx !! i = Some xi → sl !! i = Some li →
       σ' !! shard_path channel i = Some (records_of xi li)) ∧
    (∀ p, (∀ i, k ≤ i < k + m → p ≠ shard_path channel i) → σ' !! p = σ !! p).
Proof.
  induction m as [|m IH]; intros k σ Hx Hy Hlen Hlabels.
  - exists σ. split; [done|]. split; [intros; lia|done].
  - destruct (lookup_lt_is_Some_2 sx k ltac:(lia)) as [xk Hxk].
    destruct (lookup_lt_is_Some_2 sy k ltac:(lia)) as [yk Hyk].
    destruct (Forall2_lookup_l _ _ _ _ _ Hlabels Hyk) as (lk & Hlk & Hyl).
    pose proof (Hlen k xk yk Hxk Hyk) as Hk.
    destruct (IH (S k) (<[shard_path channel k := records_of xk lk]> σ))
      as (σ' & Hrun & Hin & Hout); [lia|lia|done|done|].
    exists σ'. split; [|split].
    + cbn [seq for_each]. unfold io_bind at 1.
      unfold io_bind at 1, io_lift at 1, getitem at 1. rewrite Hxk.
      unfold io_bind at 1, io_lift at 1, getitem at 1. rewrite Hyk.
      rewrite (convert_to_tfr_run xk yk lk); [exact Hrun|lia|].
      by rewrite take_ge by lia.
    + intros i xi li Hi Hxi Hli. destruct (decide (i = k)) as [->|Hne].
      * rewrite Hout.
        -- rewrite lookup_insert_eq. congruence.
        -- intros j Hj Heq. apply shard_path_inj in Heq. lia.
      * apply Hin; [lia|done|done].
    + intros p Hp. rewrite Hout by (intros i Hi; apply Hp; lia).
      apply lookup_insert_ne. intros Heq. by apply (Hp k ltac:(lia)).
Qed.

Lemma records_of_concat (sx : list (list (list PrimFloat.float))) :
  ∀ (sl : list (list Z)),
  map length sx = map length sl →
  concat (zip_with records_of sx sl) = records_of (concat sx) (concat sl).
Proof.
  induction sx as [|x sx IH]; intros [|l sl] Hlen; try done.
  cbn in Hlen. injection Hlen as Hxy Hrest. cbn [concat zip_with].
  rewrite records_of_app by done. by rewrite IH.
Qed.

(** C1: for equal-length [x] and [y] with [N] samples and
    [1 <= n_files <= N], [save_to_n_files] splits [x] and [y] into exactly
    [n_files] contiguous shards whose in-order concatenations are [x] and
    [y]; shard [i] of [x] and shard [i] of [y] have the same length (the same
    index boundaries), so every sample is in the same shard as its own
    label; each shard has [floor(N/n_files)] or [ceil(N/n_files)] samples.
    When [int()] turns every label into an integer of 64 bits, the call
    returns, file [i] holds the samples of shard [i] paired with their own
    labels, the files read in order hold every pair of the dataset in
    order, and files other than the shards do not change. *)
Theorem save_to_n_files_shards x y (n_files : Z) channel
    (σ : gmap string (list bytes)) :
  length x = length y → (1 ≤ n_files ≤ Z.of_nat (length x))%Z →
  let N := length x in
  let n := Z.to_nat n_files in
  ∃ (sx : list (list (list PrimFloat.float))) (sy : list (list label)),
    array_split x n_files = Ok sx ∧ array_split y n_files = Ok sy ∧
    length sx = n ∧ length sy = n ∧
    concat sx = x ∧ concat sy = y ∧
    map length sx = map length sy ∧
    (∀ s, s ∈ sx → length s = N / n ∨ length s = (N + n - 1) / n) ∧
    (∀ labels, labels_of y labels →
       ∃ (sl : list (list Z)) (σ' : gmap string (list bytes)),
         array_split labels n_files = Ok sl ∧
         Forall2 labels_of sy sl ∧
         save_to_n_files x y n_files channel σ = (Ok tt, σ') ∧
         (∀ i xi li, sx !! i = Some xi → sl !! i = Some li →
            σ' !! shard_path channel i = Some (records_of xi li)) ∧
         concat (zip_with records_of sx sl) = records_of x labels ∧
         (∀ p, (∀ i, i < n → p ≠ shard_path channel i) → σ' !! p = σ !! p)).
Proof.
  intros Hlen [Hn _] N n.
  set (sizes := section_sizes N n).
  assert (0 < n) as Hpos by lia.
  assert (sum_list sizes = N) as Hsum by (by apply sum_section_sizes).
  assert (length sizes = n) as Hsizes by (by apply length_section_sizes).
  assert (map length (reshape sizes x) = sizes) as Hmx
    by (apply sizes_reshape; fold N; lia).
  assert (map length (reshape sizes y) = sizes) as Hmy
    by (apply sizes_reshape; rewrite <- Hlen; fold N; lia).
  assert (length (reshape sizes x) = n) as Hlx by (by rewrite length_reshape).
  assert (length (reshape sizes y) = n) as Hly by (by rewrite length_reshape).
  exists (reshape sizes x), (reshape sizes y).
  assert (array_split x n_files = Ok (reshape sizes x)) as Hax
    by (by apply array_split_reshape).
  assert (array_split y n_files = Ok (reshape sizes y)) as Hay
    by (rewrite array_split_reshape by done; unfold sizes, N; by rewrite Hlen).
  assert (concat (reshape sizes x) = x) as Hcx
    by (rewrite concat_reshape, take_ge; [done|fold N; lia]).
  assert (concat (reshape sizes y) = y) as Hcy
    by (rewrite concat_reshape, take_ge; [done|rewrite <- Hlen; fold N; lia]).
  split; [done|]. split; [done|]. split; [done|]. split; [done|].
  split; [done|]. split; [done|]. split; [congruence|]. split.
  - intros s Hs. apply list_elem_of_In, (in_map length) in Hs.
    rewrite Hmx in Hs. apply list_elem_of_In in Hs.
    destruct (section_sizes_even N n (length s) Hpos Hs) as [?|[? _]]; auto.
  - intros labels Hlabels.
    pose proof (labels_of_length _ _ Hlabels) as Hll.
    assert (map length (reshape sizes labels) = sizes) as Hml
      by (apply sizes_reshape; rewrite <- Hll, <- Hlen; fold N; lia).
    assert (Forall2 labels_of (reshape sizes y) (reshape sizes labels))
      as Hshards by (by apply Forall2_reshape).
    destruct (shard_loop (reshape sizes x) (reshape sizes y)
                (reshape sizes labels) channel n 0 σ)
      as (σ' & Hrun & Hin & Hout); [lia|lia| |done|].
    { intros i xi yi Hxi Hyi.
      assert (map length (reshape sizes x) !! i
              = map length (reshape sizes y) !! i) as Hi by congruence.
      rewrite !list_lookup_fmap, Hxi, Hyi in Hi. cbn in Hi. congruence. }
    exists (reshape sizes labels), σ'.
    split.
    { rewrite array_split_reshape by done. unfold sizes, N.
      by rewrite <- Hll, <- Hlen. }
    split; [done|]. split.
    { unfold PipeMode.save_to_n_files.
      unfold io_bind at 1, io_lift at 1. rewrite Hax.
      unfold io_bind at 1, io_lift at 1. rewrite Hay. exact Hrun. }
    split.
    { intros i xi li Hxi Hli. apply Hin; [|done|done].
      apply lookup_lt_Some in Hxi. lia. }
    split.
    { rewrite records_of_concat by congruence.
      rewrite Hcx, concat_reshape, take_ge; [done|].
      rewrite <- Hll, <- Hlen. fold N. lia. }
    intros p Hp. apply Hout. intros i Hi. apply Hp. lia.
Qed.

End TFRecordFacts.

(** The theorems at a dataset of five samples with one feature each,
    integer labels and a serialisation that the parser inverts. *)
Import PrimFloat.

Lemma small_labels :
  PipeMode.labels_of (λ yi : Z, Ok yi) [0%Z; 1%Z; 0%Z; 1%Z; 1%Z]
                     [0%Z; 1%Z; 0%Z; 1%Z; 1%Z].
Proof. repeat constructor. Qed.

Lemma convert_to_tfr_records_witness :
  (∀ example : gmap string Feature, Some example = Some example) ∧
  length [[1.5]; [2.5]; [3.5]; [4.5]; [5.5]]%float
  = length [0%Z; 1%Z; 0%Z; 1%Z; 1%Z] ∧
  PipeMode.labels_of (λ yi : Z, Ok yi) [0%Z; 1%Z; 0%Z; 1%Z; 1%Z]
                     [0%Z; 1%Z; 0%Z; 1%Z; 1%Z] ∧
  ∃ recs : list (gmap string Feature),
    convert_to_tfr (λ yi : Z, Ok yi) (λ example, example)
      [[1.5]; [2.5]; [3.5]; [4.5]; [5.5]]%float [0%Z; 1%Z; 0%Z; 1%Z; 1%Z]
      "./data/train/train0.tfrecords" ∅
    = (Ok tt, <["./data/train/train0.tfrecords" := recs]> ∅) ∧
    length recs = 5.
Proof.
  split; [done|]. split; [reflexivity|]. split; [exact small_labels|].
  destruct (convert_to_tfr_records (λ yi : Z, Ok yi) (λ example, example) Some
              [[1.5]; [2.5]; [3.5]; [4.5]; [5.5]]%float
              [0%Z; 1%Z; 0%Z; 1%Z; 1%Z] [0%Z; 1%Z; 0%Z; 1%Z; 1%Z]
              "./data/train/train0.tfrecords" ∅
              (λ example, eq_refl) eq_refl small_labels)
    as (recs & Hrun & Hlen & _).
  exists recs. exact (conj Hrun Hlen).
Defined.

(** C2 as stated fails on a feature that is not a 32-bit float: the record
    of the sample [[0.1]] carries 0.10000000149011612, the binary32 value
    next to 0.1.  It also fails on a label outside 64 bits: with the label
    2^63 the call raises [ValueError] and no record is written. *)
Lemma features_stored_as_float32 :
  (∃ recs : list (gmap string Feature),
     convert_to_tfr (λ yi : Z, Ok yi) (λ example, example)
       [[0x1.999999999999ap-4]]%float [0%Z]
       "./data/train/train0.tfrecords" ∅
     = (Ok tt, <["./data/train/train0.tfrecords" := recs]> ∅) ∧
     recs = [example_of [0x1.999999999999ap-4]%float 0] ∧
     float32 0x1.999999999999ap-4 = 0x1.99999ap-4%float ∧
     ¬ carries_as_stated (λ yi : Z, Ok yi) Some
         [[0x1.999999999999ap-4]]%float [0%Z] recs) ∧
  convert_to_tfr (λ yi : Z, Ok yi) (λ example, example)
    [[1.5]]%float [(2 ^ 63)%Z] "./data/train/train0.tfrecords" ∅
  = (Raise ValueError, <["./data/train/train0.tfrecords" := []]> ∅).
Proof.
  split; [|vm_compute; reflexivity].
  exists [example_of [0x1.999999999999ap-4]%float 0].
  split; [|split; [reflexivity|split]].
  - rewrite (convert_to_tfr_run (λ yi : Z, Ok yi) (λ example, example)
               _ _ [0%Z]); [reflexivity|done|repeat constructor].
  - vm_compute. reflexivity.
  - intros [_ H].
    destruct (H 0 _ _ eq_refl eq_refl) as (record & example & v & Hr & Hp & _ & Hf & _).
    cbn in Hr. injection Hr as <-. injection Hp as <-.
    unfold example_of in Hf.
    rewrite lookup_insert_ne, lookup_insert_eq in Hf by done.
    apply (f_equal (λ feature,
             match feature with
             | Some (float_list (value :: _)) => FloatOps.Prim2SF value
             | _ => SpecFloat.S754_nan
             end)) in Hf.
    vm_compute in Hf. discriminate Hf.
Qed.

Lemma save_to_n_files_shards_witness :
  length [[1.5]; [2.5]; [3.5]; [4.5]; [5.5]]%float
  = length [0%Z; 1%Z; 0%Z; 1%Z; 1%Z] ∧
  (1 ≤ 2 ≤ Z.of_nat (length [[1.5]; [2.5]; [3.5]; [4.5]; [5.5]]%float))%Z ∧
  ∃ (sx : list (list (list PrimFloat.float))) (sy : list (list Z))
    (σ' : gmap string (list (gmap string Feature))),
    array_split [[1.5]; [2.5]; [3.5]; [4.5]; [5.5]]%float 2 = Ok sx ∧
    array_split [0%Z; 1%Z; 0%Z; 1%Z; 1%Z] 2 = Ok sy ∧
    save_to_n_files (λ yi : Z, Ok yi) (λ example, example)
      [[1.5]; [2.5]; [3.5]; [4.5]; [5.5]]%float [0%Z; 1%Z; 0%Z; 1%Z; 1%Z]
      2 "train" ∅ = (Ok tt, σ') ∧
    concat sx = [[1.5]; [2.5]; [3.5]; [4.5]; [5.5]]%float ∧
    concat sy = [0%Z; 1%Z; 0%Z; 1%Z; 1%Z] ∧
    map length sx = map length sy.
Proof.
  split; [reflexivity|]. split; [cbn; lia|].
  destruct (save_to_n_files_shards (λ yi : Z, Ok yi) (λ example, example)
              [[1.5]; [2.5]; [3.5]; [4.5]; [5.5]]%float
              [0%Z; 1%Z; 0%Z; 1%Z; 1%Z]
              2 "train" ∅ eq_refl ltac:(cbn; lia))
    as (sx & sy & Hx & Hy & _ & _ & Hcx & Hcy & Hlen & _ & Hfiles).
  destruct (Hfiles [0%Z; 1%Z; 0%Z; 1%Z; 1%Z] small_labels)
    as (sl & σ' & _ & _ & Hrun & _).
  exists sx, sy, σ'.
  exact (conj Hx (conj Hy (conj Hrun (conj Hcx (conj Hcy Hlen))))).
Defined.

End PipeModeFacts.

(** ** The batch scoring loop *)

Module BatchScoringFacts.
Import BatchScoring.

(** *** Splitting a path *)

Lemma split_app_sep (sep : ascii) (a b : string) :
  sep ∉ list_ascii_of_string a →
  split sep (a +:+ String sep b) = a :: split sep b.
Proof.
  induction a as [|c a IH]; intros Hsep.
  - change (split sep (String sep b) = "" :: split sep b).
    cbn [split]. by rewrite Ascii.eqb_refl.
  - cbn in Hsep. apply not_elem_of_cons in Hsep as [Hc Ha].
    change (split sep (String c (a +:+ String sep b)) = String c a :: split sep b).
    cbn [split]. destruct (Ascii.eqb_spec c sep) as [->|_]; [done|].
    by rewrite (IH Ha).
Qed.


(** *** Rounding to three decimals *)




(** *** The argmax *)




(** *** The flattened, rounded list *)






Section ScoringFacts.
Variable class_name_list : list string.
Variable fs : gmap string file.

Local Notation "'try_body'" := (BatchScoring.try_body class_name_list fs).
Local Notation "'outcome'" := (BatchScoring.outcome class_name_list fs).
Local Notation "'turn'" := (BatchScoring.turn class_name_list fs).
Local Notation "'scoring_loop'" := (BatchScoring.scoring_loop class_name_list fs).
Local Notation "'processed'" := (BatchScoring.processed class_name_list fs).
Local Notation "'hit'" := (BatchScoring.hit class_name_list fs).
Local Notation "'score'" := (BatchScoring.score class_name_list fs).

(** The statements under [try:] raise before any assignment, or run all
    assignments. *)
Lemma try_body_run entry σ :
  try_body entry σ =
  match outcome entry with
  | Ok o => (Ok tt, record_outcome o σ)
  | Raise e => (Raise e, σ)
  end.
Proof.
  unfold BatchScoring.try_body, BatchScoring.outcome.
  unfold io_bind, io_lift, rbind.
  repeat match goal with
         | |- context [match ?r with Ok _ => _ | Raise _ => _ end] =>
             is_var r || (destruct r as [?|?] eqn:?; try reflexivity)
         end.
  unfold record_outcome, io_modify, io_ret.
  by destruct (String.eqb _ _ || false).
Qed.

Lemma scoring_loop_run entries : ∀ σ,
  scoring_loop entries σ = (Ok tt, foldl turn σ entries).
Proof.
  induction entries as [|entry entries IH]; intros σ; [done|].
  unfold BatchScoring.scoring_loop. cbn [for_each foldl].
  unfold io_bind at 1, try_except at 1.
  rewrite try_body_run. unfold BatchScoring.turn at 2.
  destruct (outcome entry) as [o|e]; cbn; apply IH.
Qed.

Lemma processed_outcome entry : processed entry = is_ok (outcome entry).
Proof.
  unfold BatchScoring.processed.
  rewrite try_body_run. by destruct (outcome entry).
Qed.

Lemma getitem_Ok {A} (l : list A) i a : getitem l i = Ok a → l !! i = Some a.
Proof. unfold getitem. destruct (l !! i); congruence. Qed.

Lemma hit_outcome entry ci ai b :
  outcome entry = Ok (ci, ai, b) → hit entry = b.
Proof.
  intros Ho. unfold BatchScoring.hit.
  rewrite processed_outcome, Ho. cbn [is_ok andb].
  unfold BatchScoring.outcome, rbind in Ho.
  unfold predicted_class, probabilities, actual_class, rbind.
  repeat match type of Ho with
         | match ?r with Ok _ => _ | Raise _ => _ end = _ =>
             destruct r as [?|?] eqn:?; [|discriminate Ho]
         end.
  injection Ho as <- <- <-.
  repeat match goal with
         | H : getitem _ _ = Ok _ |- _ => apply getitem_Ok in H
         end.
  repeat match goal with
         | H : _ = Ok _ |- _ => rewrite H; clear H
         | H : _ = Some _ |- _ => rewrite H; clear H
         end.
  rewrite orb_false_r.
  match goal with
  | |- context [String.eqb ?p ?q] => destruct (String.eqb_spec p q) as [->|Hne]
  end.
  - by apply bool_decide_eq_true.
  - apply bool_decide_eq_false. congruence.
Qed.

Lemma loop_counts entries : ∀ σ,
  let σ' := foldl turn σ entries in
  total σ' = total σ + length (List.filter processed entries) ∧
  correct σ' = correct σ + length (List.filter hit entries) ∧
  length (predicted σ')
    = length (predicted σ) + length (List.filter processed entries) ∧
  length (actual σ')
    = length (actual σ) + length (List.filter processed entries) ∧
  length (printed σ')
    = length (printed σ)
      + length (List.filter (λ e, negb (processed e)) entries).
Proof.
  induction entries as [|entry entries IH]; intros σ; cbn zeta.
  - cbn. lia.
  - cbn [foldl List.filter].
    specialize (IH (turn σ entry)). cbn zeta in IH.
    destruct IH as (Ht & Hc & Hp & Ha & Hpr).
    rewrite Ht, Hc, Hp, Ha, Hpr. clear Ht Hc Hp Ha Hpr.
    rewrite processed_outcome. unfold BatchScoring.turn.
    destruct (outcome entry) as [[[ci ai] b]|e] eqn:Ho; cbn [is_ok negb].
    + rewrite (hit_outcome entry ci ai b Ho).
      destruct b; cbn; rewrite ?length_app; cbn; lia.
    + assert (hit entry = false) as ->.
      { unfold BatchScoring.hit. by rewrite processed_outcome, Ho. }
      cbn; rewrite ?length_app; cbn; lia.
Qed.


Lemma filter_nil_iff {A} (f : A → bool) (l : list A) :
  length (List.filter f l) = 0 ↔ Forall (λ a, f a = false) l.
Proof.
  induction l as [|a l IH]; cbn; [by split; [constructor|]|].
  destruct (f a) eqn:Hf; cbn.
  - split; [lia|]. intros [? _]%Forall_cons. congruence.
  - rewrite IH. split; [by constructor|]. by intros [_ ?]%Forall_cons.
Qed.

Lemma score_run entries :
  score entries = accuracy (foldl turn initial entries).
Proof. unfold BatchScoring.score. by rewrite scoring_loop_run. Qed.






(** C9: [correct / total] is not guarded: the accuracy cell raises
    [ZeroDivisionError] exactly when no prediction file was processed
    successfully, which covers the empty folder and the folder whose
    files all fail; with at least one file processed the division
    returns. *)
Theorem accuracy_zero_division entries :
  (BatchScoring.score class_name_list fs entries = Raise ZeroDivisionError ↔
   Forall (λ entry, processed entry = false) entries) ∧
  (Exists (λ entry, processed entry = true) entries ↔
   ∃ a, BatchScoring.score class_name_list fs entries = Ok a).
Proof.
  destruct (loop_counts entries initial) as (Ht & _). cbn in Ht.
  rewrite score_run. unfold accuracy. rewrite <- filter_nil_iff, <- Ht.
  destruct (Nat.eqb_spec (total (foldl turn initial entries)) 0) as [H0|Hne].
  - split; [done|]. split; [|by intros [? ?]].
    intros Hex. exfalso. rewrite Ht in H0.
    apply filter_nil_iff in H0. apply Exists_exists in Hex as (e & He & Hp).
    rewrite Forall_forall in H0. specialize (H0 e He). congruence.
  - split; [by split|]. split; [by eexists|]. intros _.
    apply Exists_exists. rewrite Ht in Hne.
    destruct (List.filter processed entries) as [|e l] eqn:Hf; [done|].
    assert (In e (List.filter processed entries)) as Hin
      by (rewrite Hf; by left).
    apply filter_In in Hin as [Hin Hp]. exists e. split; [|done].
    by apply list_elem_of_In.
Qed.

Lemma same_variables_turn σ1 σ2 entry :
  same_variables σ1 σ2 → same_variables (turn σ1 entry) (turn σ2 entry).
Proof.
  intros (Ht & Hc & Hp & Ha). unfold BatchScoring.turn.
  destruct (outcome entry) as [[[ci ai] b]|e]; [destruct b|];
    repeat split; cbn; congruence.
Qed.

Lemma loop_skips_failures entries : ∀ σ1 σ2,
  same_variables σ1 σ2 →
  same_variables (foldl turn σ1 entries)
                 (foldl turn σ2 (List.filter processed entries)) ∧
  printed (foldl turn σ2 (List.filter processed entries)) = printed σ2.
Proof.
  induction entries as [|entry entries IH]; intros σ1 σ2 Hsame; [done|].
  cbn [foldl List.filter]. rewrite processed_outcome.
  destruct (outcome entry) as [[[ci ai] b]|e] eqn:Ho; cbn [is_ok foldl].
  - destruct (IH (turn σ1 entry) (turn σ2 entry)) as [H1 H2];
      [by apply same_variables_turn|].
    split; [done|]. rewrite H2. unfold BatchScoring.turn. rewrite Ho.
    by destruct b.
  - apply IH. unfold BatchScoring.turn. rewrite Ho. exact Hsame.
Qed.

(** C4, as the code has it: the scoring loop catches every exception raised
    while a prediction file is processed, prints it and goes on to the next
    file.  The loop itself never raises; a failing file changes no variable
    of the cell and adds one line of output, so the loop ends with the
    variables it would have had on the processed files alone.  The division
    of the next cell is outside the handler and its [ZeroDivisionError]
    reaches the caller. *)
Theorem scoring_loop_swallows entries (σ : scoring) :
  (∀ entry e σ0,
     fst (BatchScoring.try_body class_name_list fs entry σ0) = Raise e →
     try_except (BatchScoring.try_body class_name_list fs entry)
                (λ e, io_modify (print e)) σ0 = (Ok tt, print e σ0)) ∧
  ∃ σ' σp : scoring,
    BatchScoring.scoring_loop class_name_list fs entries σ = (Ok tt, σ') ∧
    BatchScoring.scoring_loop class_name_list fs
      (List.filter processed entries) σ = (Ok tt, σp) ∧
    same_variables σ' σp ∧
    printed σp = printed σ ∧
    length (printed σ')
      = length (printed σ)
        + length (List.filter (λ entry, negb (processed entry)) entries) ∧
    (total σ' = 0 → accuracy σ' = Raise ZeroDivisionError).
Proof.
  split.
  - intros entry e σ0. unfold try_except. rewrite try_body_run.
    destruct (outcome entry); cbn; [done|]. by intros [= ->].
  - exists (foldl turn σ entries),
           (foldl turn σ (List.filter processed entries)).
    rewrite !scoring_loop_run.
    destruct (loop_skips_failures entries σ σ) as [Hs Hp]; [done|].
    destruct (loop_counts entries σ) as (_ & _ & _ & _ & Hpr).
    repeat split; try done; try apply Hs.
    intros H0. unfold accuracy. by rewrite H0.
Qed.

End ScoringFacts.

(** C4 as stated fails: the file that is not JSON raises inside the loop,
    and the loop returns normally all the same. *)
Lemma malformed_file_swallowed :
  ¬ propagates class_name_list sample_predictions [malformed_out; cardinal_out].
Proof.
  intros H.
  destruct (H malformed_out JSONDecodeError initial) as [e He].
  - by left.
  - vm_compute. reflexivity.
  - vm_compute in He. discriminate He.
Qed.




End BatchScoringFacts.

(** ** The container image name *)

Module BatchModelFacts.
Import BatchModel.

Lemma ends_with_inv (s front p q : string) :
  String.length p = String.length q → s +:+ p = front +:+ q → p = q.
Proof.
  intros Hlen H. apply StringFacts.list_ascii_inj.
  apply (f_equal list_ascii_of_string) in H.
  rewrite !StringFacts.list_ascii_app in H.
  apply app_inj_2 in H as [_ H]; [done|].
  rewrite <- (string_of_list_ascii_of_string p),
    <- (string_of_list_ascii_of_string q) in Hlen.
  revert Hlen. generalize (list_ascii_of_string p) (list_ascii_of_string q).
  intros l1. induction l1 as [|c l1 IH]; intros [|d l2]; cbn; try done.
  intros [= Hl]. f_equal. by apply IH.
Qed.

Lemma ends_with_app (s t p : string) : ends_with t p → ends_with (s +:+ t) p.
Proof.
  intros [front ->]. exists (s +:+ front). symmetry. apply StringFacts.app_assoc.
Qed.

Lemma ends_with_unique (s p q : string) :
  String.length p = String.length q → ends_with s p → ends_with s q → p = q.
Proof.
  intros Hlen [f1 ->] [f2 H]. by apply (ends_with_inv f1 f2 p q).
Qed.

Lemma image_ends_with (a b c d suffix : string) :
  ends_with (a +:+ ".dkr.ecr." +:+ b +:+ ".amazonaws.com/" +:+ c +:+ ":"
               +:+ d +:+ suffix) suffix.
Proof. do 7 apply ends_with_app. by exists "". Qed.

(** C7: the image name is a function of the framework version, the GPU
    flag and the region.  It is
    [account.dkr.ecr.region.amazonaws.com/repository:tag], where account and
    repository are ['520713654638'] and ['sagemaker-tensorflow-serving']
    exactly when the version is ['1.12'] and ['763104351884'] and
    ['tensorflow-inference'] otherwise, the tag begins with the version, and
    the tag (and so the image name) ends in ['-gpu'] exactly when
    [USE_GPU_INSTANCE] is true and in ['-cpu'] exactly when it is false. *)
Theorem framework_image_spec (TF_FRAMEWORK_VERSION : string)
    (USE_GPU_INSTANCE : bool) (region_name : string) :
  ∃ account repository tag : string,
    framework_image TF_FRAMEWORK_VERSION USE_GPU_INSTANCE region_name
    = account +:+ ".dkr.ecr." +:+ region_name +:+ ".amazonaws.com/"
      +:+ repository +:+ ":" +:+ tag ∧
    ((account = "520713654638" ∧ repository = "sagemaker-tensorflow-serving")
     ↔ TF_FRAMEWORK_VERSION = "1.12") ∧
    ((account = "763104351884" ∧ repository = "tensorflow-inference")
     ↔ TF_FRAMEWORK_VERSION ≠ "1.12") ∧
    starts_with tag TF_FRAMEWORK_VERSION ∧
    (ends_with tag "-gpu" ↔ USE_GPU_INSTANCE = true) ∧
    (ends_with tag "-cpu" ↔ USE_GPU_INSTANCE = false) ∧
    (ends_with (framework_image TF_FRAMEWORK_VERSION USE_GPU_INSTANCE
                  region_name) "-gpu" ↔ USE_GPU_INSTANCE = true).
Proof.
  exists (TF_ACCOUNT_NUM TF_FRAMEWORK_VERSION),
         (TF_CONTAINER_NAME TF_FRAMEWORK_VERSION),
         (TF_FRAMEWORK_VERSION +:+ (if USE_GPU_INSTANCE then "-gpu" else "-cpu")).
  split; [destruct USE_GPU_INSTANCE; reflexivity|].
  unfold TF_ACCOUNT_NUM, TF_CONTAINER_NAME.
  split; [|split]; [| |split; [eexists; reflexivity|]].
  - destruct (String.eqb_spec TF_FRAMEWORK_VERSION "1.12") as [Heq|Hne].
    + split; [intros _; exact Heq|intros _; split; reflexivity].
    + split; [intros [[=] _]|intros Heq; destruct (Hne Heq)].
  - destruct (String.eqb_spec TF_FRAMEWORK_VERSION "1.12") as [Heq|Hne].
    + split; [intros [[=] _]|intros Hne; destruct (Hne Heq)].
    + split; [intros _; exact Hne|intros _; split; reflexivity].
  - assert ("-cpu" ≠ "-gpu") as Hcg by discriminate.
    destruct USE_GPU_INSTANCE.
    + split; [|split].
      * split; [reflexivity|]. intros _. eexists; reflexivity.
      * split; [|discriminate]. intros Hc. destruct Hcg.
        apply (ends_with_unique (TF_FRAMEWORK_VERSION +:+ "-gpu"));
          [reflexivity|exact Hc|eexists; reflexivity].
      * split; [reflexivity|]. intros _. apply image_ends_with.
    + split; [|split].
      * split; [|discriminate]. intros Hg. destruct Hcg.
        apply (ends_with_unique (TF_FRAMEWORK_VERSION +:+ "-cpu"));
          [reflexivity|eexists; reflexivity|exact Hg].
      * split; [reflexivity|]. intros _. eexists; reflexivity.
      * split; [|discriminate]. intros Hg. destruct Hcg.
        eapply ends_with_unique; [|apply image_ends_with|exact Hg].
        reflexivity.
Qed.

End BatchModelFacts.

(** ** Clearing the S3 prefix *)

Module S3Facts.
Import S3.

Section StoreFacts.
Context {object : Type}.

Lemma elem_of_objects_filter (s3 : gmap (string * string) object)
    bucket Prefix b k :
  (b, k) ∈ objects_filter s3 bucket Prefix ↔
  is_Some (s3 !! (b, k)) ∧ b = bucket ∧ starts_with k Prefix.
Proof.
  unfold objects_filter. rewrite list_elem_of_In, filter_In, in_map_iff.
  cbn [fst snd]. rewrite andb_true_iff, String.eqb_eq.
  rewrite StringFacts.prefix_starts_with. split.
  - intros [[[bk x] [Hfst Hin]] ?]. cbn in Hfst. subst bk.
    apply list_elem_of_In, elem_of_map_to_list in Hin. split; [by eexists|done].
  - intros [[x Hx] ?]. split; [|done]. exists ((b, k), x). split; [done|].
    by apply list_elem_of_In, elem_of_map_to_list.
Qed.

Lemma delete_prefix_lookup (s3 : gmap (string * string) object)
    bucket Prefix b k :
  (b = bucket ∧ starts_with k Prefix →
   delete_objects (objects_filter s3 bucket Prefix) s3 !! (b, k) = None) ∧
  (¬ (b = bucket ∧ starts_with k Prefix) →
   delete_objects (objects_filter s3 bucket Prefix) s3 !! (b, k)
   = s3 !! (b, k)).
Proof.
  unfold delete_objects. split.
  - intros Hmatch. destruct (s3 !! (b, k)) as [x|] eqn:Hx.
    + apply lookup_foldr_delete, elem_of_objects_filter. by split; [eexists|].
    + destruct (decide ((b, k) ∈ objects_filter s3 bucket Prefix)).
      * by apply lookup_foldr_delete.
      * by rewrite lookup_foldr_delete_not_elem_of.
  - intros Hno. apply lookup_foldr_delete_not_elem_of.
    rewrite elem_of_objects_filter. tauto.
Qed.

(** C10: the clearing before the upload and the removal in the last
    clean-up cell delete exactly the objects of the session's default bucket
    whose key begins with ['data/DEMO-hello-pipe-mode/']: afterwards no such
    object exists, and every object under another key of that bucket, and
    every object of another bucket, is as it was. *)
Theorem cleanup_deletes_only_prefix (s3 : gmap (string * string) object)
    (default_bucket b k : string) :
  let touched := b = default_bucket ∧ starts_with k "data/DEMO-hello-pipe-mode/" in
  (touched → clear_old_data default_bucket s3 !! (b, k) = None) ∧
  (¬ touched → clear_old_data default_bucket s3 !! (b, k) = s3 !! (b, k)) ∧
  (touched → remove_generated_data default_bucket s3 !! (b, k) = None) ∧
  (¬ touched →
   remove_generated_data default_bucket s3 !! (b, k) = s3 !! (b, k)).
Proof.
  cbn zeta. unfold clear_old_data, remove_generated_data.
  change (data_prefix +:+ "/") with "data/DEMO-hello-pipe-mode/".
  pose proof (delete_prefix_lookup s3 default_bucket
                "data/DEMO-hello-pipe-mode/" b k) as [H1 H2].
  done.
Qed.

End StoreFacts.

End S3Facts.

(** ** The order of the cells *)

Module NotebooksFacts.
Import Notebooks.






End NotebooksFacts.

(** ** The two-stage split *)

Module DatasetSplitFacts.
Import DatasetSplit PrimFloat.

(** C6 at the fast demo: the cell attempts the 70/20/10 split ("Give 70% to
    train") and misses it by one sample.  [test_size + val_size] is
    0.30000000000000004 in binary64, above 0.3, so the first split holds
    out [ceil(3000.0000000000005) = 3001] of the 10000 samples and leaves
    6999 to the training set; the second split binds 2000 rows to [X_test]
    and 1001 to [X_val].  The reversal the claim states is there: the name
    [X_test] gets the larger part. *)
#[warnings="-inexact-float"] Theorem split_10000_not_70_20_10 :
  PipeNotebook.NUM_SAMPLES (PipeNotebook.mode_cell "fast-demo") = 10000%Z ∧
  PrimFloat.ltb 0.3%float (PrimFloat.add test_size val_size) = true ∧
  train_test_split 10000 (PrimFloat.add test_size val_size)
  = Ok (6999, 3001)%Z ∧
  split_dataset 10000
  = Ok {| X_train := 6999; X_test := 2000; X_val := 1001 |} ∧
  ¬ shares_70_20_10 10000 {| X_train := 6999; X_test := 2000; X_val := 1001 |} ∧
  shares_70_20_10 10000 {| X_train := 7000; X_test := 2000; X_val := 1000 |}.
Proof.
  split; [reflexivity|]. split; [vm_compute; reflexivity|].
  split; [vm_compute; reflexivity|]. split; [vm_compute; reflexivity|].
  split; [|vm_compute; done].
  intros [H _]. vm_compute in H. discriminate H.
Qed.

End DatasetSplitFacts.


(** * Further properties *)

(** ** Shards: errors, edge cases and the three channels *)

Module PipeModeMore.
Import PipeMode Channels.

Lemma for_each_app {S A} (l1 l2 : list A) (body : A → io S unit) (σ : S) :
  for_each (l1 ++ l2) body σ =
  match for_each l1 body σ with
  | (Ok _, σ') => for_each l2 body σ'
  | (Raise e, σ') => (Raise e, σ')
  end.
Proof.
  revert σ. induction l1 as [|a l1 IH]; intros σ; [done|].
  cbn [app for_each]. unfold io_bind.
  destruct (body a σ) as [[[]|e] σ1]; [apply IH|done].
Qed.

Lemma lookup_reshape {A} (sizes : list nat) : ∀ (l : list A) i s,
  sizes !! i = Some s →
  reshape sizes l !! i = Some (take s (drop (sum_list (take i sizes)) l)).
Proof.
  induction sizes as [|s0 sizes IH]; intros l i s Hi; [done|].
  destruct i as [|i]; cbn in *.
  - injection Hi as ->. by rewrite drop_0.
  - rewrite (IH _ _ _ Hi), drop_drop. done.
Qed.

Lemma app_sep_inj {A} (c : A) (l l' r r' : list A) :
  c ∉ l → c ∉ l' → l ++ c :: r = l' ++ c :: r' → l = l' ∧ r = r'.
Proof.
  revert l'. induction l as [|a l IH]; intros [|a' l'] Hl Hl' H; cbn in H.
  - by injection H.
  - injection H as <- _. destruct Hl'. by left.
  - injection H as -> _. destruct Hl. by left.
  - injection H as -> H.
    apply not_elem_of_cons in Hl as [_ Hl], Hl' as [_ Hl'].
    by destruct (IH l' Hl Hl' H) as [-> ->].
Qed.

(** The path of a shard names its channel and its number. *)
Lemma shard_path_channel_inj c1 c2 i j :
  no_slash c1 → no_slash c2 →
  shard_path c1 i = shard_path c2 j → c1 = c2 ∧ i = j.
Proof.
  intros H1 H2 H. unfold shard_path in H.
  apply StringFacts.app_inv_head in H.
  apply (f_equal list_ascii_of_string) in H.
  rewrite !(StringFacts.list_ascii_app _ ("/" +:+ _)) in H.
  change (list_ascii_of_string ("/" +:+ ?s))
    with ("/"%char :: list_ascii_of_string s) in H.
  apply app_sep_inj in H as [Hc Hrest]; [|done..].
  apply StringFacts.list_ascii_inj in Hc as ->. split; [done|].
  apply StringFacts.list_ascii_inj in Hrest.
  apply StringFacts.app_inv_head, StringFacts.app_inv_tail in Hrest.
  by apply (inj pretty) in Hrest.
Qed.

Lemma section_sizes_small Ntotal Nsections :
  Ntotal < Nsections →
  section_sizes Ntotal Nsections
  = replicate Ntotal 1 ++ replicate (Nsections - Ntotal) 0.
Proof.
  intros Hlt. unfold section_sizes.
  by rewrite Nat.div_small, Nat.mod_small by lia.
Qed.

(** X18: [array_split] returns an empty shard exactly when there are more
    shards than samples: for [n >= 1] every shard is non-empty if and only
    if [n <= len(x)]. *)
Theorem array_split_no_empty_shard {A} (x : list A) (n : Z) :
  (1 ≤ n)%Z →
  ∃ shards, array_split x n = Ok shards ∧
    (Forall (λ shard, shard ≠ []) shards ↔ (n ≤ Z.of_nat (length x))%Z).
Proof.
  intros Hn. rewrite PipeModeFacts.array_split_reshape by done.
  eexists. split; [done|].
  set (sizes := section_sizes (length x) (Z.to_nat n)).
  assert (0 < Z.to_nat n) as Hpos by lia.
  assert (map length (reshape sizes x) = sizes) as Hsizes.
  { apply PipeModeFacts.sizes_reshape. unfold sizes.
    rewrite PipeModeFacts.sum_section_sizes; [done|lia]. }
  assert (Forall (λ shard : list A, shard ≠ []) (reshape sizes x)
          ↔ Forall (λ s, s ≠ 0) sizes) as ->.
  { rewrite <- Hsizes at 2. rewrite Forall_fmap. apply Forall_iff.
    intros shard. cbn. destruct shard; cbn; split; intros; congruence. }
  split.
  - intros Hall. destruct (Z.le_gt_cases n (Z.of_nat (length x))) as [|Hgt];
      [done|]. exfalso. unfold sizes in Hall.
    rewrite section_sizes_small in Hall by lia.
    apply Forall_app in Hall as [_ Hall].
    destruct (Z.to_nat n - length x) as [|k] eqn:Hk; [lia|].
    cbn in Hall. by apply Forall_cons in Hall as [? _].
  - intros Hle. apply Forall_forall. intros s Hs.
    assert (1 ≤ length x `div` Z.to_nat n)
      by (apply Nat.div_le_lower_bound; lia).
    destruct (PipeModeFacts.section_sizes_even _ _ s Hpos Hs) as [->|[_ ->]];
      lia.
Qed.

Section ShardFacts.
Context {label bytes : Type}.
Variable int : label → result Z.
Variable SerializeToString : gmap string Feature → bytes.

Local Notation "'records_of'" := (PipeMode.records_of SerializeToString).
Local Notation "'labels_of'" := (PipeMode.labels_of int).
Local Notation "'convert_to_tfr'" :=
  (PipeMode.convert_to_tfr int SerializeToString).
Local Notation "'save_to_n_files'" :=
  (PipeMode.save_to_n_files int SerializeToString).

(** X1: a number of files that is not positive is refused before anything
    is written: [array_split] raises [ValueError] and the file system is
    as it was. *)
Theorem save_to_n_files_nonpositive x y (n_files : Z) channel
    (σ : gmap string (list bytes)) :
  (n_files ≤ 0)%Z →
  save_to_n_files x y n_files channel σ = (Raise ValueError, σ).
Proof.
  intros Hn. unfold PipeMode.save_to_n_files, io_bind, io_lift, array_split.
  by destruct (Z.leb_spec n_files 0) as [_|?]; [|lia].
Qed.

(** X2: when the label array is shorter than the sample array and its
    labels are integers of 64 bits, the writer stops with [IndexError] at
    the first sample without a label, and the file keeps the records
    written so far: one per label. *)
Theorem convert_to_tfr_short_labels x y (labels : list Z) out_file
    (σ : gmap string (list bytes)) :
  length y < length x → labels_of y labels →
  convert_to_tfr x y out_file σ
  = (Raise IndexError,
     <[out_file := records_of (take (length y) x) labels]> σ).
Proof.
  intros Hlen Hlabels. unfold PipeMode.convert_to_tfr.
  pose proof (PipeModeFacts.labels_of_length int _ _ Hlabels) as Hl.
  unfold io_bind at 1, TFRecordWriter, io_modify. cbn zeta.
  replace (length x) with (length y + (length x - length y)) at 1 by lia.
  rewrite seq_app, for_each_app.
  erewrite (PipeModeFacts.write_loop int SerializeToString x y labels out_file
              (length y) 0 _ []); [|apply lookup_insert_eq|lia|].
  - rewrite insert_insert_eq, !drop_0. rewrite (take_ge labels) by lia.
    cbn [app].
    destruct (length x - length y) as [|m] eqn:Hm; [lia|].
    cbn [seq for_each]. unfold io_bind at 1.
    destruct (lookup_lt_is_Some_2 x (0 + length y) ltac:(lia)) as [xi Hxi].
    unfold io_bind at 1, io_lift at 1, getitem at 1. rewrite Hxi.
    unfold io_bind at 1, io_lift at 1, getitem at 1.
    by rewrite (lookup_ge_None_2 y (0 + length y)) by lia.
  - intros i Hi.
    destruct (lookup_lt_is_Some_2 y i ltac:(lia)) as [yi Hyi].
    destruct (PipeModeFacts.labels_of_lookup int _ _ i yi Hlabels Hyi)
      as (v & Hv & Hint & H64).
    by exists yi, v.
Qed.

(** X3: the writer does not check that the arrays have the same length:
    labels beyond the last sample are dropped without an error and without
    being converted, and the file is the one written for the labels cut to
    [len(x)]. *)
Theorem convert_to_tfr_surplus_labels x y (labels : list Z) out_file
    (σ : gmap string (list bytes)) :
  length x ≤ length y → labels_of (take (length x) y) labels →
  convert_to_tfr x y out_file σ
  = convert_to_tfr x (take (length x) y) out_file σ ∧
  convert_to_tfr x y out_file σ
  = (Ok tt, <[out_file := records_of x labels]> σ).
Proof.
  intros Hlen Hlabels.
  rewrite (PipeModeFacts.convert_to_tfr_run int SerializeToString x y labels)
    by done.
  rewrite (PipeModeFacts.convert_to_tfr_run int SerializeToString x
             (take (length x) y) labels); [done|rewrite length_take; lia|].
  by rewrite take_take, Nat.min_id.
Qed.

(** The writing loop changes [out_file] only, by appending to it, whether
    it ends or raises. *)
Lemma write_loop_appends x y out_file n :
  ∀ k (σ : gmap string (list bytes)) pre,
  σ !! out_file = Some pre →
  ∃ r recs,
    for_each (seq k n) (λ i,
       xi ←! io_lift (getitem x i) ;
       yi ←! io_lift (getitem y i) ;
       example ←! io_lift (make_example int xi yi) ;
       write out_file (SerializeToString example))%io σ
    = (r, <[out_file := pre ++ recs]> σ).
Proof.
  induction n as [|n IH]; intros k σ pre Hpre.
  - exists (Ok tt), []. cbn. unfold io_ret. by rewrite app_nil_r, insert_id.
  - assert (σ = <[out_file := pre ++ []]> σ) as Hsame
      by (by rewrite app_nil_r, insert_id).
    cbn [seq for_each]. unfold io_bind at 1.
    unfold io_bind at 1, io_lift at 1.
    destruct (getitem x k) as [xi|e]; [|by exists (Raise e), []; rewrite <- Hsame].
    unfold io_bind at 1, io_lift at 1.
    destruct (getitem y k) as [yi|e]; [|by exists (Raise e), []; rewrite <- Hsame].
    unfold io_bind at 1, io_lift at 1.
    destruct (make_example int xi yi) as [example|e];
      [|by exists (Raise e), []; rewrite <- Hsame].
    unfold write at 1, io_modify at 1. rewrite Hpre. cbn [default].
    change (id pre) with pre.
    destruct (IH (S k)
                (<[out_file := pre ++ [SerializeToString example]]> σ)
                (pre ++ [SerializeToString example]))
      as (r & recs & ->); [apply lookup_insert_eq|].
    exists r, (SerializeToString example :: recs).
    by rewrite insert_insert_eq, <- app_assoc.
Qed.

Lemma convert_to_tfr_loop x y out_file (σ : gmap string (list bytes)) :
  convert_to_tfr x y out_file σ
  = for_each (seq 0 (length x)) (λ i,
       xi ←! io_lift (getitem x i) ;
       yi ←! io_lift (getitem y i) ;
       example ←! io_lift (make_example int xi yi) ;
       write out_file (SerializeToString example))%io (<[out_file := []]> σ).
Proof. reflexivity. Qed.

(** X4: opening the writer truncates: whatever [out_file] held before, the
    call behaves as on a file system without it, in its result (also when
    it raises) and in the files it leaves; [out_file] is the only file it
    changes, and what it holds afterwards was written by this call. *)
Theorem convert_to_tfr_overwrites x y out_file old
    (σ : gmap string (list bytes)) :
  convert_to_tfr x y out_file (<[out_file := old]> σ)
  = convert_to_tfr x y out_file σ ∧
  ∃ r recs, convert_to_tfr x y out_file σ = (r, <[out_file := recs]> σ).
Proof.
  rewrite !convert_to_tfr_loop, insert_insert_eq. split; [done|].
  destruct (write_loop_appends x y out_file (length x) 0
              (<[out_file := []]> σ) []) as (r & recs & ->);
    [apply lookup_insert_eq|].
  exists r, recs. by rewrite insert_insert_eq.
Qed.

(** What [save_to_n_files] leaves behind, shard by shard: shard [i] has the
    [i]-th section size and starts where the earlier sections end. *)
Lemma save_to_n_files_run x y (labels : list Z) (n_files : Z) channel
    (σ : gmap string (list bytes)) :
  length x = length y → labels_of y labels → (1 ≤ n_files)%Z →
  let sizes := section_sizes (length x) (Z.to_nat n_files) in
  ∃ σ' : gmap string (list bytes),
    save_to_n_files x y n_files channel σ = (Ok tt, σ') ∧
    (∀ i s, sizes !! i = Some s →
       σ' !! shard_path channel i
       = Some (records_of (take s (drop (sum_list (take i sizes)) x))
                          (take s (drop (sum_list (take i sizes)) labels)))) ∧
    (∀ p, (∀ i, i < Z.to_nat n_files → p ≠ shard_path channel i) →
       σ' !! p = σ !! p).
Proof.
  intros Hlen Hlabels Hn sizes.
  assert (0 < Z.to_nat n_files) as Hpos by lia.
  assert (length sizes = Z.to_nat n_files) as Hsizes
    by (by apply PipeModeFacts.length_section_sizes).
  assert (sum_list sizes = length x) as Hsum
    by (by apply PipeModeFacts.sum_section_sizes).
  destruct (PipeModeFacts.shard_loop int SerializeToString
              (reshape sizes x) (reshape sizes y) (reshape sizes labels)
              channel (Z.to_nat n_files) 0 σ) as (σ' & Hrun & Hin & Hout).
  { rewrite length_reshape. lia. }
  { rewrite length_reshape. lia. }
  { intros i xi yi Hxi Hyi.
    destruct (sizes !! i) as [s|] eqn:Hs.
    - rewrite (lookup_reshape _ _ _ _ Hs) in Hxi.
      rewrite (lookup_reshape _ _ _ _ Hs) in Hyi.
      injection Hxi as <-. injection Hyi as <-.
      assert (sum_list (take i sizes) + s ≤ sum_list sizes) as Hle.
      { assert (sum_list sizes
                = sum_list (take i sizes) + sum_list (drop i sizes)) as ->
          by (by rewrite <- sum_list_with_app, take_drop).
        rewrite (drop_S _ _ _ Hs). cbn. lia. }
      rewrite !length_take, !length_drop. lia.
    - apply lookup_lt_Some in Hxi. rewrite length_reshape in Hxi.
      apply lookup_ge_None in Hs. lia. }
  { by apply PipeModeFacts.Forall2_reshape. }
  exists σ'. split; [|split].
  - unfold PipeMode.save_to_n_files.
    unfold io_bind at 1, io_lift at 1.
    rewrite PipeModeFacts.array_split_reshape by done.
    unfold io_bind at 1, io_lift at 1.
    rewrite PipeModeFacts.array_split_reshape by done.
    rewrite <- Hlen. exact Hrun.
  - intros i s Hs. apply Hin.
    + apply lookup_lt_Some in Hs. lia.
    + by apply lookup_reshape.
    + by apply lookup_reshape.
  - intros p Hp. apply Hout. intros i Hi. apply Hp. lia.
Qed.

(** X5: with more files than samples, and labels that are integers of 64
    bits, nothing fails: the first [N] files hold one sample each, with its
    own label, and the remaining [n_files - N] files are created empty. *)
Theorem save_to_n_files_more_files_than_samples x y (labels : list Z)
    (n_files : Z) channel (σ : gmap string (list bytes)) :
  length x = length y → labels_of y labels →
  (Z.of_nat (length x) < n_files)%Z →
  ∃ σ' : gmap string (list bytes),
    save_to_n_files x y n_files channel σ = (Ok tt, σ') ∧
    (∀ i xi v, x !! i = Some xi → labels !! i = Some v →
       σ' !! shard_path channel i = Some (records_of [xi] [v])) ∧
    (∀ i, length x ≤ i < Z.to_nat n_files →
       σ' !! shard_path channel i = Some []).
Proof.
  intros Hlen Hlabels Hn.
  destruct (save_to_n_files_run x y labels n_files channel σ Hlen Hlabels
              ltac:(lia)) as (σ' & Hrun & Hin & _).
  rewrite section_sizes_small in Hin by lia.
  exists σ'. split; [done|]. split.
  - intros i xi v Hxi Hv.
    assert (i < length x) as Hi by (by eapply lookup_lt_Some).
    rewrite (Hin i 1).
    + rewrite take_app_le, take_replicate, Nat.min_l, sum_list_replicate
        by (rewrite ?length_replicate; lia).
      rewrite Nat.mul_1_r, (drop_S x xi i Hxi), (drop_S labels v i Hv). done.
    + rewrite lookup_app_l by (rewrite length_replicate; lia).
      by apply lookup_replicate_2.
  - intros i Hi. rewrite (Hin i 0); [done|].
    rewrite lookup_app_r by (rewrite length_replicate; lia).
    apply lookup_replicate_2. rewrite length_replicate. lia.
Qed.

(** X6: when the labels of the three sets are integers of 64 bits, the
    three calls of the cell succeed and do not disturb each other: after
    ['train'], ['test'] and ['val'] have been written, every shard file of a
    channel holds what the call for that channel alone writes. *)
Theorem save_channels_keep_apart X_train y_train X_test y_test X_val y_val
    (l_train l_test l_val : list Z)
    (NUM_FILES : Z) (σ : gmap string (list bytes)) :
  length X_train = length y_train → length X_test = length y_test →
  length X_val = length y_val →
  labels_of y_train l_train → labels_of y_test l_test →
  labels_of y_val l_val → (1 ≤ NUM_FILES)%Z →
  ∃ σ' : gmap string (list bytes),
    save_channels int SerializeToString
      X_train y_train X_test y_test X_val y_val NUM_FILES σ = (Ok tt, σ') ∧
    ∀ i, i < Z.to_nat NUM_FILES →
      σ' !! shard_path "train" i
      = snd (save_to_n_files X_train y_train NUM_FILES "train" σ)
          !! shard_path "train" i ∧
      σ' !! shard_path "test" i
      = snd (save_to_n_files X_test y_test NUM_FILES "test" σ)
          !! shard_path "test" i ∧
      σ' !! shard_path "val" i
      = snd (save_to_n_files X_val y_val NUM_FILES "val" σ)
          !! shard_path "val" i.
Proof.
  intros H1 H2 H3 L1 L2 L3 Hn.
  assert (no_slash "train" ∧ no_slash "test" ∧ no_slash "val")
    as (Ntrain & Ntest & Nval).
  { unfold no_slash. cbn. repeat split;
      rewrite !not_elem_of_cons; repeat split; try discriminate;
      apply not_elem_of_nil. }
  assert (∀ c1 c2 i p, c1 ≠ c2 → no_slash c1 → no_slash c2 →
            (∀ j, j < Z.to_nat NUM_FILES → p = shard_path c1 i →
                  p ≠ shard_path c2 j)) as Hapart.
  { intros c1 c2 i p Hne N1 N2 j _ -> Heq.
    by destruct (shard_path_channel_inj c1 c2 i j N1 N2 Heq). }
  destruct (save_to_n_files_run X_train y_train l_train NUM_FILES "train" σ
              H1 L1 Hn) as (σ1 & R1 & In1 & Out1).
  destruct (save_to_n_files_run X_test y_test l_test NUM_FILES "test" σ1
              H2 L2 Hn) as (σ2 & R2 & In2 & Out2).
  destruct (save_to_n_files_run X_val y_val l_val NUM_FILES "val" σ2
              H3 L3 Hn) as (σ3 & R3 & In3 & Out3).
  destruct (save_to_n_files_run X_test y_test l_test NUM_FILES "test" σ
              H2 L2 Hn) as (τ2 & T2 & Jn2 & _).
  destruct (save_to_n_files_run X_val y_val l_val NUM_FILES "val" σ
              H3 L3 Hn) as (τ3 & T3 & Jn3 & _).
  exists σ3. split.
  - unfold save_channels, io_bind. by rewrite R1, R2, R3.
  - intros i Hi. rewrite R1, T2, T3. cbn [snd].
    assert (∀ N, is_Some (section_sizes N (Z.to_nat NUM_FILES) !! i)) as Hs.
    { intros N. apply lookup_lt_is_Some.
      rewrite PipeModeFacts.length_section_sizes; lia. }
    split; [|split].
    + rewrite Out3, Out2; [done| |].
      * intros j Hj. by apply (Hapart "train" "test" i).
      * intros j Hj. by apply (Hapart "train" "val" i).
    + rewrite Out3.
      * destruct (Hs (length X_test)) as [s Hsz].
        etrans; [exact (In2 i s Hsz)|symmetry; exact (Jn2 i s Hsz)].
      * intros j Hj. by apply (Hapart "test" "val" i).
    + destruct (Hs (length X_val)) as [s Hsz].
      etrans; [exact (In3 i s Hsz)|symmetry; exact (Jn3 i s Hsz)].
Qed.

End ShardFacts.

(** The theorems at small arrays of one-feature samples with integer
    labels and the identity as serialisation. *)
Import PrimFloat.

Lemma array_split_no_empty_shard_witness :
  (1 ≤ 2)%Z ∧
  ∃ shards, array_split [1%Z; 2%Z; 3%Z] 2 = Ok shards ∧
            Forall (λ shard, shard ≠ []) shards.
Proof.
  split; [lia|].
  destruct (array_split_no_empty_shard [1%Z; 2%Z; 3%Z] 2 ltac:(lia))
    as (shards & Hs & Hiff).
  exists shards. exact (conj Hs (proj2 Hiff ltac:(cbn; lia))).
Defined.

Lemma save_to_n_files_nonpositive_witness :
  (0 ≤ 0)%Z ∧
  save_to_n_files (λ yi : Z, Ok yi) (λ example : gmap string Feature, example)
    [[1.5]; [2.5]]%float [0%Z; 1%Z] 0 "train" ∅
  = (Raise ValueError, ∅).
Proof.
  split; [lia|].
  exact (save_to_n_files_nonpositive (λ yi : Z, Ok yi)
           (λ example : gmap string Feature, example)
           [[1.5]; [2.5]]%float [0%Z; 1%Z] 0 "train" ∅ ltac:(lia)).
Defined.

Lemma one_label : PipeMode.labels_of (λ yi : Z, Ok yi) [0%Z] [0%Z].
Proof. repeat constructor. Qed.

Lemma two_labels : PipeMode.labels_of (λ yi : Z, Ok yi) [0%Z; 1%Z] [0%Z; 1%Z].
Proof. repeat constructor. Qed.

Lemma three_labels :
  PipeMode.labels_of (λ yi : Z, Ok yi) [0%Z; 1%Z; 1%Z] [0%Z; 1%Z; 1%Z].
Proof. repeat constructor. Qed.

Lemma convert_to_tfr_short_labels_witness :
  length [0%Z] < length [[1.5]; [2.5]; [3.5]]%float ∧
  PipeMode.labels_of (λ yi : Z, Ok yi) [0%Z] [0%Z] ∧
  convert_to_tfr (λ yi : Z, Ok yi) (λ example : gmap string Feature, example)
    [[1.5]; [2.5]; [3.5]]%float [0%Z] "./data/train/train0.tfrecords" ∅
  = (Raise IndexError,
     <["./data/train/train0.tfrecords" :=
         records_of (λ example : gmap string Feature, example)
           (take (length [0%Z]) [[1.5]; [2.5]; [3.5]]%float) [0%Z]]> ∅).
Proof.
  split; [cbn; lia|]. split; [exact one_label|].
  exact (convert_to_tfr_short_labels (λ yi : Z, Ok yi)
           (λ example : gmap string Feature, example)
           [[1.5]; [2.5]; [3.5]]%float [0%Z] [0%Z]
           "./data/train/train0.tfrecords" ∅ ltac:(cbn; lia) one_label).
Defined.

Lemma convert_to_tfr_surplus_labels_witness :
  length [[1.5]]%float ≤ length [0%Z; 1%Z] ∧
  PipeMode.labels_of (λ yi : Z, Ok yi)
    (take (length [[1.5]]%float) [0%Z; 1%Z]) [0%Z] ∧
  convert_to_tfr (λ yi : Z, Ok yi) (λ example : gmap string Feature, example)
    [[1.5]]%float [0%Z; 1%Z] "./data/train/train0.tfrecords" ∅
  = (Ok tt,
     <["./data/train/train0.tfrecords" :=
         records_of (λ example : gmap string Feature, example)
           [[1.5]]%float [0%Z]]> ∅).
Proof.
  split; [cbn; lia|]. split; [exact one_label|].
  exact (proj2 (convert_to_tfr_surplus_labels (λ yi : Z, Ok yi)
                  (λ example : gmap string Feature, example)
                  [[1.5]]%float [0%Z; 1%Z] [0%Z]
                  "./data/train/train0.tfrecords" ∅
                  ltac:(cbn; lia) one_label)).
Defined.

Lemma save_to_n_files_more_files_than_samples_witness :
  length [[1.5]; [2.5]]%float = length [0%Z; 1%Z] ∧
  PipeMode.labels_of (λ yi : Z, Ok yi) [0%Z; 1%Z] [0%Z; 1%Z] ∧
  (Z.of_nat (length [[1.5]; [2.5]]%float) < 3)%Z ∧
  ∃ σ' : gmap string (list (gmap string Feature)),
    save_to_n_files (λ yi : Z, Ok yi) (λ example, example)
      [[1.5]; [2.5]]%float [0%Z; 1%Z] 3 "train" ∅ = (Ok tt, σ') ∧
    σ' !! shard_path "train" 2 = Some [].
Proof.
  split; [reflexivity|]. split; [exact two_labels|]. split; [cbn; lia|].
  destruct (save_to_n_files_more_files_than_samples (λ yi : Z, Ok yi)
              (λ example : gmap string Feature, example)
              [[1.5]; [2.5]]%float [0%Z; 1%Z] [0%Z; 1%Z] 3 "train" ∅
              eq_refl two_labels ltac:(cbn; lia))
    as (σ' & Hrun & _ & Hempty).
  exists σ'. exact (conj Hrun (Hempty 2 ltac:(cbn; lia))).
Defined.

Lemma save_channels_keep_apart_witness :
  length [[1.5]; [2.5]; [3.5]]%float = length [0%Z; 1%Z; 1%Z] ∧
  length [[4.5]; [5.5]]%float = length [0%Z; 1%Z] ∧
  length [[6.5]; [7.5]]%float = length [0%Z; 1%Z] ∧
  PipeMode.labels_of (λ yi : Z, Ok yi) [0%Z; 1%Z; 1%Z] [0%Z; 1%Z; 1%Z] ∧
  PipeMode.labels_of (λ yi : Z, Ok yi) [0%Z; 1%Z] [0%Z; 1%Z] ∧
  (1 ≤ 2)%Z ∧
  ∃ σ' : gmap string (list (gmap string Feature)),
    save_channels (λ yi : Z, Ok yi) (λ example, example)
      [[1.5]; [2.5]; [3.5]]%float [0%Z; 1%Z; 1%Z]
      [[4.5]; [5.5]]%float [0%Z; 1%Z]
      [[6.5]; [7.5]]%float [0%Z; 1%Z] 2 ∅ = (Ok tt, σ').
Proof.
  split; [reflexivity|]. split; [reflexivity|]. split; [reflexivity|].
  split; [exact three_labels|]. split; [exact two_labels|]. split; [lia|].
  destruct (save_channels_keep_apart (λ yi : Z, Ok yi)
              (λ example : gmap string Feature, example)
              [[1.5]; [2.5]; [3.5]]%float [0%Z; 1%Z; 1%Z]
              [[4.5]; [5.5]]%float [0%Z; 1%Z]
              [[6.5]; [7.5]]%float [0%Z; 1%Z]
              [0%Z; 1%Z; 1%Z] [0%Z; 1%Z] [0%Z; 1%Z] 2 ∅
              eq_refl eq_refl eq_refl three_labels two_labels two_labels
              ltac:(lia))
    as (σ' & Hrun & _).
  exists σ'. exact Hrun.
Defined.

End PipeModeMore.

(** ** The scoring loop: its lists, its order, its rounding *)

Module BatchScoringMore.
Import BatchScoring Evaluation.

Lemma index_Ok (l : list string) v i :
  index l v = Ok i → l !! i = Some v ∧ ∀ j, j < i → l !! j ≠ Some v.
Proof.
  revert i. induction l as [|a l IH]; intros i; cbn; [done|].
  destruct (String.eqb_spec a v) as [->|Hne].
  - intros [= <-]. split; [done|]. intros j Hj. lia.
  - destruct (index l v) as [k|] eqn:Hk; cbn; [|done].
    intros [= <-]. destruct (IH k eq_refl) as [Hl Hfirst]. split; [done|].
    intros [|j] Hj; cbn; [congruence|]. apply Hfirst. lia.
Qed.

Lemma filter_length_Permutation {A} (f : A → bool) (l l' : list A) :
  l ≡ₚ l' → length (List.filter f l) = length (List.filter f l').
Proof.
  induction 1 as [|a l l' _ IH|a b l|l l' l'' _ IH1 _ IH2]; cbn.
  - done.
  - destruct (f a); cbn; by rewrite IH.
  - by destruct (f a), (f b).
  - by rewrite IH1.
Qed.

Section LoopFacts.
Variable class_name_list : list string.
Variable fs : gmap string file.

Local Notation "'outcome'" := (BatchScoring.outcome class_name_list fs).
Local Notation "'turn'" := (BatchScoring.turn class_name_list fs).
Local Notation "'processed'" := (BatchScoring.processed class_name_list fs).
Local Notation "'hit'" := (BatchScoring.hit class_name_list fs).

(** What a processed file contributes. *)
Lemma outcome_Ok entry ci ai b :
  outcome entry = Ok (ci, ai, b) →
  ∃ label predicted_label,
    actual_class entry = Some label ∧
    class_name_list !! ai = Some label ∧
    (∀ j, j < ai → class_name_list !! j ≠ Some label) ∧
    class_name_list !! ci = Some predicted_label ∧
    b = String.eqb predicted_label label.
Proof.
  intros Ho. unfold BatchScoring.outcome, rbind in Ho.
  repeat match type of Ho with
         | match ?r with Ok _ => _ | Raise _ => _ end = _ =>
             destruct r as [?|?] eqn:?; [|discriminate Ho]
         end.
  injection Ho as <- <- <-.
  repeat match goal with
         | H : getitem _ _ = Ok _ |- _ =>
             apply BatchScoringFacts.getitem_Ok in H
         | H : index _ _ = Ok _ |- _ => apply index_Ok in H as [? ?]
         end.
  do 2 eexists. unfold actual_class. rewrite orb_false_r. eauto 10.
Qed.

(** The invariant of the loop on the two lists. *)
Lemma loop_lists entries : ∀ σ,
  length (predicted σ) = total σ → length (actual σ) = total σ →
  Forall (λ i, i < length class_name_list) (predicted σ) →
  Forall (λ i, i < length class_name_list) (actual σ) →
  let σ' := foldl turn σ entries in
  length (predicted σ') = total σ' ∧ length (actual σ') = total σ' ∧
  Forall (λ i, i < length class_name_list) (predicted σ') ∧
  Forall (λ i, i < length class_name_list) (actual σ').
Proof.
  induction entries as [|entry entries IH]; intros σ Hp Ha Fp Fa; [done|].
  cbn [foldl]. apply IH; unfold BatchScoring.turn;
    destruct (outcome entry) as [[[ci ai] b]|e] eqn:Ho; try done;
    destruct (outcome_Ok entry ci ai b Ho)
      as (label & pl & _ & Hai & _ & Hci & _);
    apply lookup_lt_Some in Hai, Hci;
    destruct b; cbn; rewrite ?length_app, ?Forall_app, ?Forall_singleton;
    cbn; auto with lia.
Qed.

(** X7: when the loop ends, [predicted] and [actual] have one entry per
    processed file ([total] entries each), and every entry is a valid index
    into [class_name_list]: the two lists always fit the confusion matrix
    over [range(len(class_name_list))]. *)
Theorem scoring_lists_fit entries :
  let σ := snd (BatchScoring.scoring_loop class_name_list fs entries initial) in
  length (predicted σ) = total σ ∧ length (actual σ) = total σ ∧
  Forall (λ i, i < length class_name_list) (predicted σ) ∧
  Forall (λ i, i < length class_name_list) (actual σ).
Proof.
  cbn zeta. rewrite BatchScoringFacts.scoring_loop_run. cbn [snd].
  by apply loop_lists.
Qed.

Lemma agreements_snoc predicted actual ci ai :
  length predicted = length actual →
  agreements (predicted ++ [ci]) (actual ++ [ai])
  = agreements predicted actual + (if ci =? ai then 1 else 0).
Proof.
  intros Hlen. unfold agreements.
  rewrite zip_with_app by done. rewrite List.filter_app, length_app. cbn.
  by destruct (ci =? ai).
Qed.

Lemma loop_agreements entries : NoDup class_name_list → ∀ σ,
  length (predicted σ) = length (actual σ) →
  agreements (predicted σ) (actual σ) = correct σ →
  let σ' := foldl turn σ entries in
  length (predicted σ') = length (actual σ') ∧
  agreements (predicted σ') (actual σ') = correct σ'.
Proof.
  intros Hnodup.
  induction entries as [|entry entries IH]; intros σ Hlen Hagree; [done|].
  cbn [foldl].
  assert (length (predicted (turn σ entry)) = length (actual (turn σ entry)) ∧
          agreements (predicted (turn σ entry)) (actual (turn σ entry))
          = correct (turn σ entry)) as [H1 H2]; [|by apply IH].
  unfold BatchScoring.turn.
  destruct (outcome entry) as [[[ci ai] b]|e] eqn:Ho; [|done].
  destruct (outcome_Ok entry ci ai b Ho)
    as (label & pl & _ & Hai & _ & Hci & ->).
  assert ((ci =? ai) = String.eqb pl label) as Heq.
  { destruct (String.eqb_spec pl label) as [E|Hne].
    - apply Nat.eqb_eq. rewrite E in Hci.
      exact (NoDup_lookup _ _ _ _ Hnodup Hci Hai).
    - apply Nat.eqb_neq. intros E. rewrite E in Hci. congruence. }
  unfold record_outcome. split.
  - destruct (String.eqb pl label); cbn; rewrite !length_app; cbn; lia.
  - destruct (String.eqb pl label);
      unfold total_incr, correct_incr, actual_append, predicted_append, id;
      cbn [predicted actual correct];
      rewrite agreements_snoc, Heq by done; lia.
Qed.

(** X8: when [class_name_list] has no repeated name, [correct] is the number
    of positions at which [predicted] and [actual] hold the same index:
    the count printed with the accuracy is the number of samples the lists
    put on the diagonal. *)
Theorem correct_counts_agreements entries :
  NoDup class_name_list →
  let σ := snd (BatchScoring.scoring_loop class_name_list fs entries initial) in
  agreements (predicted σ) (actual σ) = correct σ.
Proof.
  intros Hnodup. cbn zeta.
  rewrite BatchScoringFacts.scoring_loop_run. cbn [snd].
  by apply loop_agreements.
Qed.

(** X9: the order in which [glob] lists the files does not matter: any
    reordering of the entries gives the same [total], the same [correct] and
    the same accuracy (or the same [ZeroDivisionError]). *)
Theorem score_order_irrelevant entries entries' :
  entries ≡ₚ entries' →
  let σ := snd (BatchScoring.scoring_loop class_name_list fs entries initial) in
  let σ' := snd (BatchScoring.scoring_loop class_name_list fs entries' initial) in
  total σ = total σ' ∧ correct σ = correct σ' ∧
  BatchScoring.score class_name_list fs entries
  = BatchScoring.score class_name_list fs entries'.
Proof.
  intros Hperm. cbn zeta.
  rewrite !BatchScoringFacts.score_run, !BatchScoringFacts.scoring_loop_run.
  cbn [snd].
  destruct (BatchScoringFacts.loop_counts class_name_list fs entries initial)
    as (Ht & Hc & _).
  destruct (BatchScoringFacts.loop_counts class_name_list fs entries' initial)
    as (Ht' & Hc' & _).
  rewrite (filter_length_Permutation processed _ _ Hperm) in Ht.
  rewrite (filter_length_Permutation hit _ _ Hperm) in Hc.
  rewrite <- Ht' in Ht. rewrite <- Hc' in Hc.
  split; [done|]. split; [done|].
  unfold accuracy. by rewrite Ht, Hc.
Qed.

End LoopFacts.

(** X10: for every path the glob can return,
    [batch_predictions/<folder>/<file>] with no ['/'] in the folder name,
    the actual class read by [entry.split('/')[1]] is the folder. *)
Theorem actual_class_parent_folder (folder file : string) :
  Channels.no_slash folder →
  actual_class ("batch_predictions/" +:+ folder +:+ "/" +:+ file)
  = Some folder.
Proof.
  intros Hfolder. unfold actual_class.
  change ("batch_predictions/" +:+ folder +:+ "/" +:+ file)
    with ("batch_predictions" +:+ String "/" (folder +:+ String "/" file)).
  rewrite BatchScoringFacts.split_app_sep.
  - by rewrite BatchScoringFacts.split_app_sep.
  - cbn. rewrite !not_elem_of_cons. repeat split; try discriminate.
    apply not_elem_of_nil.
Qed.

(** *** Rounding to three decimals and the argmax *)

Lemma Qmake_thousandths (n : Z) : (n # 1000 == inject_Z n * (1 # 1000))%Q.
Proof. unfold Qeq, inject_Z, Qmult. cbn. lia. Qed.

Lemma round3_close (q : Q) : within_half_thousandth (round3 q) q.
Proof.
  unfold within_half_thousandth, round3.
  pose proof (Qfloor_le (q * 1000)) as Hlo.
  pose proof (Qlt_floor (q * 1000)) as Hhi.
  rewrite inject_Z_plus in Hhi.
  set (f := Qfloor (q * 1000)) in *.
  destruct (Qcompare_spec (q * 1000 - inject_Z f) (1 # 2)) as [He|Hl|Hg].
  - destruct (Z.even f); rewrite Qmake_thousandths, ?inject_Z_plus;
      change (inject_Z 1) with 1%Q in *; split; lra.
  - rewrite Qmake_thousandths.
    change (inject_Z 1) with 1%Q in *. split; lra.
  - rewrite Qmake_thousandths, inject_Z_plus.
    change (inject_Z 1) with 1%Q in *. split; lra.
Qed.

Lemma argmax_from_max (l : list Q) : ∀ (pre : list Q) bi b,
  pre !! bi = Some b →
  (∀ j v, pre !! j = Some v → (v <= b)%Q) →
  ∃ m, (pre ++ l) !! argmax_from bi b (length pre) l = Some m ∧
       ∀ j v, (pre ++ l) !! j = Some v → (v <= m)%Q.
Proof.
  induction l as [|v l IH]; intros pre bi b Hbi Hmax.
  - rewrite app_nil_r. cbn. eauto.
  - cbn [argmax_from]. rewrite (cons_middle v pre l), app_assoc.
    replace (S (length pre)) with (length (pre ++ [v]))
      by (rewrite length_app; cbn; lia).
    destruct (Qle_bool v b) eqn:Hvb.
    + apply Qle_bool_iff in Hvb. apply IH.
      * by apply lookup_app_l_Some.
      * intros j w Hj. apply lookup_app_Some in Hj as [Hj|[_ Hj]].
        -- by eapply Hmax.
        -- apply list_lookup_singleton_Some in Hj as [_ <-]. done.
    + assert (b < v)%Q as Hlt.
      { apply Qnot_le_lt. intros Hle. apply Qle_bool_iff in Hle. congruence. }
      apply IH.
      * rewrite lookup_app_r by lia. by rewrite Nat.sub_diag.
      * intros j w Hj. apply lookup_app_Some in Hj as [Hj|[_ Hj]].
        -- specialize (Hmax j w Hj). lra.
        -- apply list_lookup_singleton_Some in Hj as [_ <-]. lra.
Qed.

Lemma argmax_max (l : list Q) i :
  argmax l = Ok i →
  ∃ m, l !! i = Some m ∧ ∀ j v, l !! j = Some v → (v <= m)%Q.
Proof.
  destruct l as [|v l]; [done|]. intros [= <-].
  apply (argmax_from_max l [v] 0 v); [done|].
  intros [|j] w Hj; cbn in Hj; [|done]. injection Hj as <-. lra.
Qed.

Lemma float_of_long_small (z : Z) :
  (Z.abs z ≤ 2 ^ 53)%Z → float_of_long z = Ok z.
Proof.
  intros Hz. destruct (Z.eq_dec (Z.abs z) (2 ^ 53)%Z) as [Heq|Hne].
  - assert (z = 2 ^ 53 ∨ z = - 2 ^ 53)%Z as [->| ->] by lia;
      vm_compute; reflexivity.
  - unfold float_of_long.
    destruct (Z.leb_spec (Z.log2 (Z.abs z) + 1 - 53) 0) as [_|Hshift]; [done|].
    exfalso. destruct (Z.eq_dec (Z.abs z) 0%Z) as [H0|H0].
    + rewrite H0 in Hshift. cbn in Hshift. lia.
    + assert (Z.log2 (Z.abs z) < 53)%Z; [|lia].
      apply Z.log2_lt_pow2; lia.
Qed.

Lemma as_float_raw item v :
  exact_as_float item → as_float item = Ok v → raw item = Ok v.
Proof.
  destruct item; cbn; try done.
  intros Hz. by rewrite (float_of_long_small _ Hz).
Qed.

Lemma format3_raw item r :
  exact_as_float item →
  format3 item = Ok r → ∃ w, raw item = Ok w ∧ within_half_thousandth r w.
Proof.
  intros Hexact. unfold format3.
  destruct (as_float item) as [v|] eqn:Hv; cbn [rbind]; [|done].
  intros [= <-]. exists v. split; [by apply as_float_raw|apply round3_close].
Qed.

Lemma mapM_format3_raw (l : list json) : ∀ rs,
  Forall exact_as_float l →
  mapM format3 l = Ok rs →
  ∃ ws, mapM raw l = Ok ws ∧ Forall2 within_half_thousandth rs ws.
Proof.
  induction l as [|item l IH]; intros rs Hexact; cbn [mapM].
  - intros [= <-]. by exists [].
  - apply Forall_cons in Hexact as [Hitem Hl].
    destruct (format3 item) as [r|] eqn:Hr; cbn [rbind]; [|done].
    destruct (mapM format3 l) as [rs'|] eqn:Hrs; cbn [rbind]; [|done].
    intros [= <-]. destruct (format3_raw item r Hitem Hr) as (w & -> & Hw).
    destruct (IH rs' Hl eq_refl) as (ws & -> & Hws). cbn [rbind].
    exists (w :: ws). split; [done|]. by constructor.
Qed.

Lemma rows_format3_raw (sublists : list json) : ∀ rows,
  Forall (λ sublist, ∀ row, iterate sublist = Ok row →
                       Forall exact_as_float row) sublists →
  mapM (λ sublist, rbind (iterate sublist) (mapM format3)) sublists = Ok rows →
  ∃ wrows,
    mapM (λ sublist, rbind (iterate sublist) (mapM raw)) sublists = Ok wrows ∧
    Forall2 (Forall2 within_half_thousandth) rows wrows.
Proof.
  induction sublists as [|sub sublists IH]; intros rows Hexact; cbn [mapM].
  - intros [= <-]. by exists [].
  - apply Forall_cons in Hexact as [Hsub Hrest].
    destruct (iterate sub) as [items|] eqn:Hitems; cbn [rbind]; [|done].
    destruct (mapM format3 items) as [rs|] eqn:Hrs; cbn [rbind]; [|done].
    destruct (mapM _ sublists) as [rows'|] eqn:Hrows; cbn [rbind]; [|done].
    intros [= <-].
    destruct (mapM_format3_raw items rs (Hsub items eq_refl) Hrs)
      as (ws & -> & Hws).
    destruct (IH rows' Hrest eq_refl) as (wrows & -> & Hwrows). cbn [rbind].
    exists (ws :: wrows). split; [done|]. by constructor.
Qed.

Lemma Forall2_concat {A B} (P : A → B → Prop) (xs : list (list A)) :
  ∀ ys, Forall2 (Forall2 P) xs ys → Forall2 P (concat xs) (concat ys).
Proof.
  induction xs as [|x xs IH]; intros ys H; inversion H; subst; cbn.
  - constructor.
  - apply Forall2_app; [done|]. by apply IH.
Qed.

Lemma flatten_round_raw predictions rs :
  exact_numbers predictions →
  flatten_round predictions = Ok rs →
  ∃ raws, flatten_raw predictions = Ok raws ∧
          Forall2 within_half_thousandth rs raws.
Proof.
  intros Hexact. unfold flatten_round, flatten_raw.
  destruct (iterate predictions) as [sublists|] eqn:Hp; cbn [rbind]; [|done].
  destruct (mapM (λ sublist, rbind (iterate sublist) (mapM format3)) sublists)
    as [rows|] eqn:Hrows; cbn [rbind]; [|done].
  intros [= <-].
  destruct (rows_format3_raw sublists rows (Hexact sublists Hp) Hrows)
    as (wrows & -> & Hw).
  cbn [rbind]. eexists. split; [done|]. by apply Forall2_concat.
Qed.

(** X11: rounding the numbers to three decimals before the argmax can
    change the winner only among near ties: when the file holds floats, and
    no integer beyond 2^53, the number it states for the predicted index is
    within 0.001 of the largest number in it. *)
Theorem rounded_argmax_near_best predictions rs ci :
  exact_numbers predictions →
  flatten_round predictions = Ok rs → argmax rs = Ok ci →
  ∃ raws top,
    flatten_raw predictions = Ok raws ∧ length raws = length rs ∧
    raws !! ci = Some top ∧
    ∀ j v, raws !! j = Some v → (v <= top + (1 # 1000))%Q.
Proof.
  intros Hexact Hrs Hci.
  destruct (flatten_round_raw predictions rs Hexact Hrs)
    as (raws & Hraws & Hclose).
  destruct (argmax_max rs ci Hci) as (m & Hm & Hmax).
  destruct (Forall2_lookup_l _ _ _ _ _ Hclose Hm) as (top & Htop & [Ht1 Ht2]).
  exists raws, top. split; [done|]. split; [|split; [done|]].
  - symmetry. by eapply Forall2_length.
  - intros j v Hv.
    destruct (Forall2_lookup_r _ _ _ _ _ Hclose Hv) as (r & Hr & [Hr1 Hr2]).
    specialize (Hmax j r Hr). lra.
Qed.

(** *** Which files are scored *)

Lemma split_prediction_path (folder file : string) :
  Channels.no_slash folder →
  split "/" (prediction_path folder file)
  = "batch_predictions" :: folder :: split "/" file.
Proof.
  intros Hfolder. unfold prediction_path.
  change ("batch_predictions/" +:+ folder +:+ "/" +:+ file)
    with ("batch_predictions" +:+ String "/" (folder +:+ String "/" file)).
  rewrite BatchScoringFacts.split_app_sep.
  - by rewrite BatchScoringFacts.split_app_sep.
  - cbn. rewrite !not_elem_of_cons. repeat split; try discriminate.
    apply not_elem_of_nil.
Qed.

Lemma index_elem (l : list string) v : v ∈ l → ∃ i, index l v = Ok i.
Proof.
  induction l as [|a l IH]; intros Hv; [by apply elem_of_nil in Hv|].
  cbn [index]. destruct (String.eqb_spec a v) as [_|Hne]; [by eexists|].
  apply elem_of_cons in Hv as [->|Hv]; [done|].
  destruct (IH Hv) as [i ->]. by eexists.
Qed.

Lemma index_not_elem (l : list string) v : v ∉ l → index l v = Raise ValueError.
Proof.
  induction l as [|a l IH]; intros Hv; [done|].
  apply not_elem_of_cons in Hv as [Hne Hv].
  cbn [index]. destruct (String.eqb_spec a v) as [->|_]; [done|].
  by rewrite (IH Hv).
Qed.

Lemma mapM_format3_numbers (qs : list Q) :
  mapM format3 (map JNumber qs) = Ok (map round3 qs).
Proof.
  induction qs as [|q qs IH]; [done|].
  cbn [map mapM format3 rbind]. by rewrite IH.
Qed.

Lemma flatten_round_serving (qs : list Q) :
  flatten_round (JArray [JArray (map JNumber qs)]) = Ok (map round3 qs).
Proof.
  unfold flatten_round. cbn [iterate rbind mapM].
  rewrite mapM_format3_numbers. cbn [rbind concat]. by rewrite app_nil_r.
Qed.

(** X19: a file that holds one row of floats between 0 and 1, for an image
    of a known class folder, is always scored: with at least one
    probability and no more probabilities than class names, the [try]
    finishes, the predicted class is the name at the argmax of the rounded
    probabilities, and the file counts as correct exactly when that name is
    its folder. *)
Theorem serving_output_is_scored (class_name_list : list string)
    (fs : gmap string file) (folder file : string) (probabilities : list Q) :
  Channels.no_slash folder →
  folder ∈ class_name_list →
  0 < length probabilities ≤ length class_name_list →
  Forall (λ p, (0 <= p)%Q ∧ (p <= 1)%Q) probabilities →
  fs !! prediction_path folder file = Some (serving_output probabilities) →
  ∃ class_index,
    argmax (map round3 probabilities) = Ok class_index ∧
    processed class_name_list fs (prediction_path folder file) = true ∧
    predicted_class class_name_list fs (prediction_path folder file)
      = class_name_list !! class_index ∧
    hit class_name_list fs (prediction_path folder file)
      = bool_decide (class_name_list !! class_index = Some folder).
Proof.
  intros Hfolder Hin [Hne Hle] _ Hfs.
  set (entry := prediction_path folder file) in *.
  destruct (index_elem _ _ Hin) as [ai Hai].
  destruct (argmax (map round3 probabilities)) as [ci|e] eqn:Hci; cycle 1.
  { destruct probabilities; [cbn in Hne; lia|done]. }
  destruct (argmax_max _ _ Hci) as (m & Hm & _).
  apply lookup_lt_Some in Hm. rewrite length_map in Hm.
  destruct (lookup_lt_is_Some_2 class_name_list ci ltac:(lia)) as [pl Hpl].
  assert (BatchScoring.outcome class_name_list fs entry
          = Ok (ci, ai, String.eqb pl folder || false)) as Ho.
  { unfold BatchScoring.outcome, entry.
    rewrite (split_prediction_path _ _ Hfolder).
    change (getitem ("batch_predictions" :: folder :: split "/" file) 1)
      with (Ok (A:=string) folder).
    cbn [rbind]. rewrite Hai. cbn [rbind].
    unfold open. fold entry. rewrite Hfs. unfold serving_output.
    cbn [rbind json_load].
    change (subscript _ "predictions")
      with (Ok (JArray [JArray (map JNumber probabilities)])).
    cbn [rbind]. rewrite flatten_round_serving. cbn [rbind].
    rewrite Hci. cbn [rbind]. unfold getitem. rewrite Hpl. done. }
  exists ci. split; [done|]. split; [|split].
  - by rewrite BatchScoringFacts.processed_outcome, Ho.
  - unfold predicted_class, BatchScoring.probabilities, open. rewrite Hfs.
    unfold serving_output. cbn [rbind json_load].
    change (subscript _ "predictions")
      with (Ok (JArray [JArray (map JNumber probabilities)])).
    cbn [rbind]. rewrite flatten_round_serving. by rewrite Hci.
  - rewrite (BatchScoringFacts.hit_outcome _ _ _ _ _ _ Ho).
    rewrite orb_false_r. rewrite Hpl.
    destruct (String.eqb_spec pl folder) as [->|Hneq].
    + by rewrite bool_decide_eq_true_2.
    + rewrite bool_decide_eq_false_2; [done|congruence].
Qed.

(** X20: the class is looked up before the file is opened: a file in a
    folder that is not a class name is skipped with [ValueError] whatever
    it contains, and changes no counter. *)
Theorem unknown_folder_is_skipped (class_name_list : list string)
    (fs : gmap string file) (folder file : string) (σ : scoring) :
  Channels.no_slash folder →
  folder ∉ class_name_list →
  failure class_name_list fs (prediction_path folder file) = Some ValueError ∧
  turn class_name_list fs σ (prediction_path folder file) = print ValueError σ.
Proof.
  intros Hfolder Hnotin.
  assert (BatchScoring.outcome class_name_list fs (prediction_path folder file)
          = Raise ValueError) as Ho.
  { unfold BatchScoring.outcome.
    rewrite (split_prediction_path _ _ Hfolder).
    change (getitem ("batch_predictions" :: folder :: split "/" file) 1)
      with (Ok (A:=string) folder).
    cbn [rbind]. by rewrite (index_not_elem _ _ Hnotin). }
  split.
  - unfold failure. by rewrite BatchScoringFacts.try_body_run, Ho.
  - unfold BatchScoring.turn. by rewrite Ho.
Qed.

(** X21: the loop prints one line per skipped file, in the order of the
    glob, and each line is the exception that file raised. *)
Theorem failures_printed_in_order (class_name_list : list string)
    (fs : gmap string file) (entries : list string) :
  printed (snd (scoring_loop class_name_list fs entries initial))
  = omap (failure class_name_list fs) entries.
Proof.
  rewrite BatchScoringFacts.scoring_loop_run. cbn [snd].
  change (omap (failure class_name_list fs) entries)
    with (printed initial ++ omap (failure class_name_list fs) entries).
  generalize initial.
  induction entries as [|entry entries IH]; intros σ.
  - cbn. by rewrite app_nil_r.
  - cbn [foldl]. rewrite IH. cbn [omap list_omap].
    unfold failure at 2, BatchScoring.turn.
    rewrite BatchScoringFacts.try_body_run.
    destruct (BatchScoring.outcome class_name_list fs entry)
      as [[[ci ai] b]|e]; cbn [fst].
    + f_equal. unfold record_outcome. by destruct b.
    + unfold print. cbn [printed]. by rewrite <- app_assoc.
Qed.

(** The theorems at the class list of the notebook and the sample
    prediction folder. *)
Lemma class_name_list_NoDup : NoDup class_name_list.
Proof.
  unfold class_name_list. apply NoDup_cons. split.
  - rewrite list_elem_of_singleton. discriminate.
  - apply NoDup_singleton.
Qed.

Lemma no_slash_check (s : string) :
  forallb (λ c, negb (Ascii.eqb c "/")) (list_ascii_of_string s) = true →
  Channels.no_slash s.
Proof.
  unfold Channels.no_slash. induction (list_ascii_of_string s) as [|c l IH];
    cbn; intros H.
  - apply not_elem_of_nil.
  - apply andb_true_iff in H as [Hc Hl]. apply not_elem_of_cons. split.
    + intros <-. by rewrite Ascii.eqb_refl in Hc.
    + by apply IH.
Qed.

Lemma cardinal_is_class : "017.Cardinal" ∈ class_name_list.
Proof. unfold class_name_list. by repeat constructor. Qed.

Lemma unknown_is_no_class : "999.Unknown" ∉ class_name_list.
Proof.
  unfold class_name_list. rewrite !not_elem_of_cons.
  repeat split; try discriminate. apply not_elem_of_nil.
Qed.

Lemma correct_counts_agreements_witness :
  NoDup class_name_list ∧
  let σ := snd (scoring_loop class_name_list sample_predictions
                  [malformed_out; cardinal_out] initial) in
  agreements (predicted σ) (actual σ) = correct σ.
Proof.
  exact (conj class_name_list_NoDup
    (correct_counts_agreements class_name_list sample_predictions
       [malformed_out; cardinal_out] class_name_list_NoDup)).
Defined.

Lemma score_order_irrelevant_witness :
  [malformed_out; cardinal_out] ≡ₚ [cardinal_out; malformed_out] ∧
  score class_name_list sample_predictions [malformed_out; cardinal_out]
  = score class_name_list sample_predictions [cardinal_out; malformed_out].
Proof.
  exact (conj (perm_swap _ _ _)
    (proj2 (proj2 (score_order_irrelevant class_name_list sample_predictions
       [malformed_out; cardinal_out] [cardinal_out; malformed_out]
       (perm_swap _ _ _))))).
Defined.

Lemma actual_class_parent_folder_witness :
  Channels.no_slash "017.Cardinal" ∧
  actual_class ("batch_predictions/" +:+ "017.Cardinal" +:+ "/" +:+ "b.jpg.out")
  = Some "017.Cardinal".
Proof.
  exact (conj (no_slash_check "017.Cardinal" eq_refl)
    (actual_class_parent_folder "017.Cardinal" "b.jpg.out"
       (no_slash_check "017.Cardinal" eq_refl))).
Defined.

Lemma sample_row_exact :
  exact_numbers (JArray [JArray [JNumber (1 # 10); JNumber (9 # 10)]]).
Proof.
  intros sublists [= <-]. repeat constructor.
  intros row [= <-]. by repeat constructor.
Qed.

Lemma sample_row_probabilities :
  Forall (λ p, (0 <= p)%Q ∧ (p <= 1)%Q) [1 # 10; 9 # 10]%Q.
Proof. repeat constructor; discriminate. Qed.

Lemma rounded_argmax_near_best_witness :
  exact_numbers (JArray [JArray [JNumber (1 # 10); JNumber (9 # 10)]]) ∧
  flatten_round (JArray [JArray [JNumber (1 # 10); JNumber (9 # 10)]])
  = Ok [100 # 1000; 900 # 1000]%Q ∧
  argmax [100 # 1000; 900 # 1000]%Q = Ok 1 ∧
  ∃ raws top,
    flatten_raw (JArray [JArray [JNumber (1 # 10); JNumber (9 # 10)]])
    = Ok raws ∧ raws !! 1 = Some top.
Proof.
  split; [exact sample_row_exact|]. split; [reflexivity|].
  split; [reflexivity|].
  destruct (rounded_argmax_near_best
              (JArray [JArray [JNumber (1 # 10); JNumber (9 # 10)]])
              [100 # 1000; 900 # 1000]%Q 1 sample_row_exact eq_refl eq_refl)
    as (raws & top & Hraws & _ & Htop & _).
  exists raws, top. exact (conj Hraws Htop).
Defined.

Lemma serving_output_is_scored_witness :
  Channels.no_slash "017.Cardinal" ∧
  "017.Cardinal" ∈ class_name_list ∧
  0 < length [1 # 10; 9 # 10]%Q ≤ length class_name_list ∧
  Forall (λ p, (0 <= p)%Q ∧ (p <= 1)%Q) [1 # 10; 9 # 10]%Q ∧
  processed class_name_list
    (<[prediction_path "017.Cardinal" "b.jpg.out" :=
         serving_output [1 # 10; 9 # 10]%Q]> ∅)
    (prediction_path "017.Cardinal" "b.jpg.out") = true.
Proof.
  split; [exact (no_slash_check "017.Cardinal" eq_refl)|].
  split; [exact cardinal_is_class|]. split; [cbn; lia|].
  split; [exact sample_row_probabilities|].
  destruct (serving_output_is_scored class_name_list
              (<[prediction_path "017.Cardinal" "b.jpg.out" :=
                   serving_output [1 # 10; 9 # 10]%Q]> ∅)
              "017.Cardinal" "b.jpg.out" [1 # 10; 9 # 10]%Q
              (no_slash_check "017.Cardinal" eq_refl) cardinal_is_class
              ltac:(cbn; lia) sample_row_probabilities
              (lookup_insert_eq _ _ _))
    as (ci & _ & Hprocessed & _).
  exact Hprocessed.
Defined.

Lemma unknown_folder_is_skipped_witness :
  Channels.no_slash "999.Unknown" ∧
  ("999.Unknown" ∉ class_name_list) ∧
  failure class_name_list sample_predictions
    (prediction_path "999.Unknown" "c.jpg.out") = Some ValueError.
Proof.
  exact (conj (no_slash_check "999.Unknown" eq_refl)
    (conj unknown_is_no_class
      (proj1 (unknown_folder_is_skipped class_name_list sample_predictions
         "999.Unknown" "c.jpg.out" initial
         (no_slash_check "999.Unknown" eq_refl) unknown_is_no_class)))).
Defined.

End BatchScoringMore.

(** ** Upload and clean-up of the data prefix *)

Module UploadFacts.
Import S3 Upload.

Lemma strip_prefix_Some (pre s r : string) :
  strip_prefix pre s = Some r ↔ s = pre +:+ r.
Proof.
  revert s. induction pre as [|a pre IH]; intros s; cbn [strip_prefix].
  - split; [by intros [= ->]|by intros ->].
  - destruct s as [|b s].
    + split; [done|]. intros H. discriminate H.
    + destruct (Ascii.eqb_spec a b) as [->|Hne].
      * rewrite IH. split; [by intros ->|]. intros H. by injection H.
      * split; [done|]. intros H. injection H as -> _. done.
Qed.

Section BucketFacts.
Context {bytes : Type}.

Lemma upload_frame (bucket key_prefix : string)
    (l : list (string * list bytes))
    (s3 : gmap (string * string) (list bytes)) (b k : string) :
  (∀ relative, (b, k) ≠ (bucket, key_prefix +:+ "/" +:+ relative)) →
  foldr (upload_file bucket key_prefix) s3 l !! (b, k) = s3 !! (b, k).
Proof.
  intros Hother. induction l as [|[p c] l IH]; [done|].
  cbn [foldr]. unfold upload_file at 1. cbn [fst snd].
  destruct (strip_prefix "./data/" p) as [relative|]; [|done].
  rewrite lookup_insert_ne; [done|]. intros H. by apply (Hother relative).
Qed.

Lemma upload_found (bucket key_prefix : string)
    (l : list (string * list bytes))
    (s3 : gmap (string * string) (list bytes)) (relative : string)
    (c : list bytes) :
  NoDup (l.*1) → ("./data/" +:+ relative, c) ∈ l →
  foldr (upload_file bucket key_prefix) s3 l
    !! (bucket, key_prefix +:+ "/" +:+ relative) = Some c.
Proof.
  induction l as [|[p c0] l IH]; intros Hnodup Hin.
  - by apply elem_of_nil in Hin.
  - cbn in Hnodup. apply NoDup_cons in Hnodup as [Hp Hnodup].
    cbn [foldr]. unfold upload_file at 1. cbn [fst snd].
    destruct (strip_prefix "./data/" p) as [rel0|] eqn:Hrel.
    + apply strip_prefix_Some in Hrel.
      destruct (decide (rel0 = relative)) as [->|Hne].
      * rewrite lookup_insert_eq. f_equal.
        apply elem_of_cons in Hin as [[= _ ->]|Hin]; [done|].
        destruct Hp. subst p. by apply (list_elem_of_fmap_2 fst) in Hin.
      * rewrite lookup_insert_ne.
        -- apply IH; [done|].
           apply elem_of_cons in Hin as [[= Heq _]|Hin]; [|done].
           rewrite Hrel in Heq. apply StringFacts.app_inv_head in Heq.
           congruence.
        -- intros [= H]. by do 2 apply StringFacts.app_inv_head in H.
    + apply IH; [done|].
      apply elem_of_cons in Hin as [[= Heq _]|Hin]; [|done].
      symmetry in Heq. apply strip_prefix_Some in Heq. congruence.
Qed.

Lemma upload_missing (bucket key_prefix : string)
    (l : list (string * list bytes))
    (s3 : gmap (string * string) (list bytes)) (relative : string) :
  (∀ c, ("./data/" +:+ relative, c) ∉ l) →
  foldr (upload_file bucket key_prefix) s3 l
    !! (bucket, key_prefix +:+ "/" +:+ relative)
  = s3 !! (bucket, key_prefix +:+ "/" +:+ relative).
Proof.
  induction l as [|[p c0] l IH]; intros Hnot; [done|].
  cbn [foldr]. unfold upload_file at 1. cbn [fst snd].
  assert (∀ c, ("./data/" +:+ relative, c) ∉ l) as Hnot'.
  { intros c Hin. apply (Hnot c). by right. }
  destruct (strip_prefix "./data/" p) as [rel0|] eqn:Hrel; [|by apply IH].
  apply strip_prefix_Some in Hrel. rewrite lookup_insert_ne; [by apply IH|].
  intros [= H]. do 2 apply StringFacts.app_inv_head in H. subst.
  apply (Hnot c0). by left.
Qed.

(** X12: after the cell that clears and uploads, the objects under the data
    prefix of the bucket are exactly the local files of the data folder,
    each under [data/DEMO-hello-pipe-mode/<relative path>]: no object of an
    earlier run survives under the prefix. *)
Theorem upload_cell_mirrors_folder (local : gmap string (list bytes))
    (bucket : string) (s3 : gmap (string * string) (list bytes))
    (relative : string) :
  upload_cell local bucket s3
    !! (bucket, "data/DEMO-hello-pipe-mode/" +:+ relative)
  = local !! ("./data/" +:+ relative).
Proof.
  unfold upload_cell, upload_data.
  change ("data/DEMO-hello-pipe-mode/" +:+ relative)
    with (data_prefix +:+ "/" +:+ relative).
  destruct (local !! ("./data/" +:+ relative)) as [c|] eqn:Hc.
  - apply upload_found; [apply NoDup_fst_map_to_list|].
    by apply elem_of_map_to_list.
  - rewrite upload_missing.
    + apply (S3Facts.delete_prefix_lookup s3 bucket (data_prefix +:+ "/")).
      split; [done|]. by exists relative.
    + intros c Hin. apply elem_of_map_to_list in Hin. congruence.
Qed.

(** X13: clearing, uploading and the removal of the last cell together
    leave the bucket as the clearing alone leaves it: the clean-up removes
    everything the notebook uploaded and nothing else. *)
Theorem cleanup_undoes_upload (local : gmap string (list bytes))
    (bucket : string) (s3 : gmap (string * string) (list bytes)) :
  remove_generated_data bucket (upload_cell local bucket s3)
  = clear_old_data bucket s3.
Proof.
  apply map_eq. intros [b k]. unfold remove_generated_data.
  destruct (S3Facts.delete_prefix_lookup (upload_cell local bucket s3)
              bucket (data_prefix +:+ "/") b k) as [Hin Hout].
  destruct (S3Facts.delete_prefix_lookup s3 bucket (data_prefix +:+ "/") b k)
    as [Hin0 _].
  destruct (decide (b = bucket)) as [->|Hb].
  - destruct (String.prefix (data_prefix +:+ "/") k) eqn:Hk.
    + apply StringFacts.prefix_starts_with in Hk.
      rewrite Hin by done. symmetry. by apply Hin0.
    + assert (¬ starts_with k (data_prefix +:+ "/")) as Hno.
      { intros H. apply StringFacts.prefix_starts_with in H. congruence. }
      rewrite Hout by tauto. unfold upload_cell, upload_data.
      apply upload_frame. intros relative [= ->]. apply Hno.
      exists relative. symmetry. apply StringFacts.app_assoc.
  - rewrite Hout by tauto. unfold upload_cell, upload_data.
    apply upload_frame. intros relative [= ? _]. done.
Qed.

End BucketFacts.

End UploadFacts.

(** ** Testing the endpoint *)

Module EndpointTestFacts.
Import BatchScoring EndpointTest.

(** X16: on a probability, [round] is a threshold at one half that is not
    reached by one half itself: a value in [0, 1] gets the label 1 exactly
    when it is larger than 1/2, and 1/2 gets the label 0 (ties go to the
    even integer). *)
Theorem round_is_strict_threshold (q : Q) :
  (0 <= q)%Q → (q <= 1)%Q →
  round (JNumber q) = Ok (if Qle_bool q (1 # 2) then 0%Z else 1%Z).
Proof.
  intros H0 H1. cbn [round]. f_equal. unfold round_half_even.
  pose proof (Qfloor_le q) as Hlo. pose proof (Qlt_floor q) as Hhi.
  set (f := Qfloor q) in *.
  assert (f = 0%Z ∨ f = 1%Z) as [Hf|Hf].
  { assert (0 < f + 1)%Z
      by (rewrite Zlt_Qlt; change (inject_Z 0) with 0%Q; lra).
    assert (f ≤ 1)%Z
      by (rewrite Zle_Qle; change (inject_Z 1) with 1%Q; lra).
    lia. }
  - rewrite Hf in *. change (inject_Z 0) with 0%Q in *.
    destruct (Qcompare_spec (q - 0) (1 # 2)) as [He|Hl|Hg].
    + cbn [Z.even]. assert (Qle_bool q (1 # 2) = true) as ->; [|done].
      apply Qle_bool_iff. lra.
    + assert (Qle_bool q (1 # 2) = true) as ->; [|done].
      apply Qle_bool_iff. lra.
    + destruct (Qle_bool q (1 # 2)) eqn:Hb; [|done].
      apply Qle_bool_iff in Hb. lra.
  - rewrite Hf in *. change (inject_Z 1) with 1%Q in *.
    destruct (Qcompare_spec (q - 1) (1 # 2)) as [He|Hl|Hg]; try lra.
    destruct (Qle_bool q (1 # 2)) eqn:Hb; [|done].
    apply Qle_bool_iff in Hb. lra.
Qed.

Section LoopFacts.
Context {float : Type}.
Variable predict : list float → result json.
Variable X_test : list (list float).
Variable y_test : list Z.

Local Notation "'compare_label'" :=
  (EndpointTest.compare_label predict X_test y_test).
Local Notation "'prediction_loop'" :=
  (EndpointTest.prediction_loop predict X_test y_test).

Lemma compare_label_in_range i :
  answers_all predict X_test → length X_test = length y_test →
  i < length X_test → ∃ b, compare_label i = Ok b.
Proof.
  intros Hans Hlen Hi. unfold EndpointTest.compare_label.
  destruct (lookup_lt_is_Some_2 X_test i Hi) as [xi Hxi].
  destruct (lookup_lt_is_Some_2 y_test i ltac:(lia)) as [yi Hyi].
  destruct (Hans xi) as (r & rest & q & more & Hr & Hp).
  { by eapply list_elem_of_lookup_2. }
  unfold getitem at 1. rewrite Hxi. cbn [rbind]. rewrite Hr. cbn [rbind].
  rewrite Hp. cbn. unfold getitem. rewrite Hyi. cbn. eauto.
Qed.

Lemma compare_label_out_of_range i :
  length X_test ≤ i → compare_label i = Raise IndexError.
Proof.
  intros Hi. unfold EndpointTest.compare_label, getitem at 1.
  by rewrite (lookup_ge_None_2 X_test i Hi).
Qed.

(** The loop over indices that all lie in range. *)
Lemma loop_in_range n : ∀ k (σ : testing),
  answers_all predict X_test → length X_test = length y_test →
  k + n ≤ length X_test →
  ∃ σ' : testing,
    for_each (seq k n) (λ i,
      (is_accurate ←! io_lift (compare_label i) ;
       if is_accurate then io_modify pass else io_modify fail)%io) σ
    = (Ok tt, σ') ∧
    length (lines σ') = length (lines σ) + n ∧
    num_accurate σ ≤ num_accurate σ' ≤ num_accurate σ + n ∧
    (num_accurate σ = length (List.filter id (lines σ)) →
     num_accurate σ' = length (List.filter id (lines σ'))).
Proof.
  induction n as [|n IH]; intros k σ Hans Hlen Hk.
  - exists σ. split; [done|]. split; [lia|]. split; [lia|done].
  - destruct (compare_label_in_range k Hans Hlen ltac:(lia)) as [b Hb].
    destruct (IH (S k) (if b then pass σ else fail σ) Hans Hlen ltac:(lia))
      as (σ' & Hrun & Hl & Hn & Hc).
    exists σ'. split; [|split; [|split]].
    + cbn [seq for_each]. unfold io_bind at 1. unfold io_bind at 1, io_lift at 1.
      rewrite Hb. by destruct b.
    + destruct b; cbn in Hl; rewrite length_app in Hl; cbn in Hl; lia.
    + destruct b; cbn in Hn; lia.
    + intros H0. apply Hc.
      destruct b; cbn; rewrite List.filter_app, length_app; cbn; lia.
Qed.

(** X14: the loop always asks for [total_to_test] predictions: when the
    test set has fewer samples (and the endpoint answers each of them), it
    stops with [IndexError] after one prediction per sample, and the
    accuracy line is never printed. *)
Theorem prediction_loop_short_test_set (total_to_test : Z) :
  answers_all predict X_test → length X_test = length y_test →
  (Z.of_nat (length X_test) < total_to_test)%Z →
  ∃ σ' : testing,
    prediction_loop total_to_test start = (Raise IndexError, σ') ∧
    length (lines σ') = length X_test ∧
    num_accurate σ' ≤ length X_test.
Proof.
  intros Hans Hlen Hshort. unfold EndpointTest.prediction_loop, range.
  replace (Z.to_nat total_to_test)
    with (length X_test + S (Z.to_nat total_to_test - length X_test - 1))
    by lia.
  rewrite seq_app, PipeModeMore.for_each_app.
  destruct (loop_in_range (length X_test) 0 start Hans Hlen ltac:(lia))
    as (σ' & -> & Hl & Hn & _).
  exists σ'. split; [|cbn in Hl, Hn; lia].
  cbn [seq for_each]. unfold io_bind at 1. unfold io_bind at 1, io_lift at 1.
  by rewrite compare_label_out_of_range by lia.
Qed.

(** X15: with at least [total_to_test] samples and an endpoint that
    answers, the loop prints one PASS or FAIL line per prediction, counts at
    most [total_to_test] accurate ones, and the accuracy it prints lies in
    [0, 1]. *)
Theorem prediction_loop_accuracy (total_to_test : Z) :
  answers_all predict X_test → length X_test = length y_test →
  (0 < total_to_test ≤ Z.of_nat (length X_test))%Z →
  ∃ (σ' : testing) (acc : Q),
    prediction_loop total_to_test start = (Ok tt, σ') ∧
    length (lines σ') = Z.to_nat total_to_test ∧
    num_accurate σ' = length (List.filter id (lines σ')) ∧
    Acc total_to_test σ' = Ok acc ∧ (0 <= acc)%Q ∧ (acc <= 1)%Q.
Proof.
  intros Hans Hlen [Hpos Hle]. unfold EndpointTest.prediction_loop, range.
  destruct (loop_in_range (Z.to_nat total_to_test) 0 start Hans Hlen
              ltac:(lia)) as (σ' & Hrun & Hl & Hn & Hc).
  exists σ', (inject_Z (Z.of_nat (num_accurate σ')) / inject_Z total_to_test)%Q.
  cbn in Hl, Hn. split; [done|]. split; [done|]. split; [by apply Hc|].
  unfold Acc. destruct (Z.eqb_spec total_to_test 0) as [?|_]; [lia|].
  split; [done|].
  assert (0 < inject_Z total_to_test)%Q as Ht
    by (rewrite <- (Zlt_Qlt 0); lia).
  split.
  - apply Qle_shift_div_l; [done|]. rewrite Qmult_0_l.
    rewrite <- (Zle_Qle 0). lia.
  - apply Qle_shift_div_r; [done|]. rewrite Qmult_1_l.
    rewrite <- Zle_Qle. lia.
Qed.

End LoopFacts.

(** The theorems at an endpoint that answers 0.9 to everything, with two
    test samples. *)
Lemma constant_endpoint_answers :
  answers_all
    (λ _ : list Z,
       Ok (JObject [("predictions", JArray [JArray [JNumber (9 # 10)]])]))
    [[1%Z]; [2%Z]].
Proof. intros xi _. by eexists _, _, _, _. Qed.

Lemma round_is_strict_threshold_witness :
  (0 <= 1 # 2)%Q ∧ (1 # 2 <= 1)%Q ∧ round (JNumber (1 # 2)) = Ok 0%Z.
Proof.
  split; [discriminate|]. split; [discriminate|].
  exact (round_is_strict_threshold (1 # 2) ltac:(discriminate)
           ltac:(discriminate)).
Defined.

Lemma prediction_loop_short_test_set_witness :
  answers_all
    (λ _ : list Z,
       Ok (JObject [("predictions", JArray [JArray [JNumber (9 # 10)]])]))
    [[1%Z]; [2%Z]] ∧
  length [[1%Z]; [2%Z]] = length [1%Z; 0%Z] ∧
  (Z.of_nat (length [[1%Z]; [2%Z]]) < 3)%Z ∧
  ∃ σ' : testing,
    prediction_loop
      (λ _ : list Z,
         Ok (JObject [("predictions", JArray [JArray [JNumber (9 # 10)]])]))
      [[1%Z]; [2%Z]] [1%Z; 0%Z] 3 start = (Raise IndexError, σ').
Proof.
  split; [exact constant_endpoint_answers|]. split; [reflexivity|].
  split; [cbn; lia|].
  destruct (prediction_loop_short_test_set
              (λ _ : list Z,
                 Ok (JObject
                       [("predictions", JArray [JArray [JNumber (9 # 10)]])]))
              [[1%Z]; [2%Z]] [1%Z; 0%Z] 3 constant_endpoint_answers eq_refl
              ltac:(cbn; lia))
    as (σ' & Hrun & _).
  exists σ'. exact Hrun.
Defined.

Lemma prediction_loop_accuracy_witness :
  answers_all
    (λ _ : list Z,
       Ok (JObject [("predictions", JArray [JArray [JNumber (9 # 10)]])]))
    [[1%Z]; [2%Z]] ∧
  length [[1%Z]; [2%Z]] = length [1%Z; 0%Z] ∧
  (0 < 2 ≤ Z.of_nat (length [[1%Z]; [2%Z]]))%Z ∧
  ∃ (σ' : testing) (acc : Q),
    prediction_loop
      (λ _ : list Z,
         Ok (JObject [("predictions", JArray [JArray [JNumber (9 # 10)]])]))
      [[1%Z]; [2%Z]] [1%Z; 0%Z] 2 start = (Ok tt, σ') ∧
    Acc 2 σ' = Ok acc.
Proof.
  split; [exact constant_endpoint_answers|]. split; [reflexivity|].
  split; [cbn; lia|].
  destruct (prediction_loop_accuracy
              (λ _ : list Z,
                 Ok (JObject
                       [("predictions", JArray [JArray [JNumber (9 # 10)]])]))
              [[1%Z]; [2%Z]] [1%Z; 0%Z] 2 constant_endpoint_answers eq_refl
              ltac:(cbn; lia))
    as (σ' & acc & Hrun & _ & _ & Hacc & _).
  exists σ', acc. exact (conj Hrun Hacc).
Defined.

End EndpointTestFacts.

(** ** The path of the GPU model artifacts *)

Module ArtifactsFacts.
Import Artifacts.

Lemma prefix_nil (s : string) : String.prefix "" s = true.
Proof. by destruct s. Qed.

Lemma prefix_app_l (sub a t : string) :
  String.prefix sub a = true → String.prefix sub (a +:+ t) = true.
Proof.
  rewrite !StringFacts.prefix_starts_with. intros [r ->].
  exists (r +:+ t). apply StringFacts.app_assoc.
Qed.

(** An occurrence cannot reach over a character the word does not hold. *)
Lemma prefix_no_straddle (sub : string) : ∀ (a : string) c b,
  c ∉ list_ascii_of_string sub →
  String.prefix sub (a +:+ String c b) = true → String.prefix sub a = true.
Proof.
  induction sub as [|x sub IH]; intros a c b Hc H; [apply prefix_nil|].
  cbn in Hc. apply not_elem_of_cons in Hc as [Hx Hc].
  destruct a as [|y a].
  - change (String.prefix (String x sub) (String c b) = true) in H.
    cbn [String.prefix] in H. destruct (ascii_dec x c); [congruence|done].
  - change (String.prefix (String x sub) (String y (a +:+ String c b)) = true)
      in H.
    cbn [String.prefix] in H |- *.
    destruct (ascii_dec x y); [|done]. by eapply IH.
Qed.

Lemma str_index_app_sep (sub : string) (c : ascii) (b : string) :
  c ∉ list_ascii_of_string sub → sub ≠ "" → ∀ a,
  str_index sub (a +:+ String c b) =
  match str_index sub a with
  | Ok i => Ok i
  | Raise _ => rbind (str_index sub b) (λ i, Ok (String.length a + 1 + i))
  end.
Proof.
  intros Hc Hsub. induction a as [|y a IH].
  - change (str_index sub (String c b) = match str_index sub "" with
              | Ok i => Ok i
              | Raise _ => rbind (str_index sub b) (λ i, Ok (0 + 1 + i))
              end).
    cbn [str_index].
    assert (String.prefix sub "" = false) as -> by (by destruct sub).
    assert (String.prefix sub (String c b) = false) as ->.
    { destruct sub as [|x sub]; [done|]. cbn [String.prefix].
      cbn in Hc. apply not_elem_of_cons in Hc as [Hx _].
      destruct (ascii_dec x c); [congruence|done]. }
    done.
  - change (str_index sub (String y (a +:+ String c b)) =
            match str_index sub (String y a) with
            | Ok i => Ok i
            | Raise _ =>
                rbind (str_index sub b)
                  (λ i, Ok (S (String.length a) + 1 + i))
            end).
    cbn [str_index].
    destruct (String.prefix sub (String y a)) eqn:Hp.
    + pose proof (prefix_app_l sub (String y a) (String c b) Hp) as Hp2.
      change (String y a +:+ String c b)
        with (String y (a +:+ String c b)) in Hp2.
      by rewrite Hp2.
    + destruct (String.prefix sub (String y (a +:+ String c b))) eqn:Hp'.
      * change (String y (a +:+ String c b))
          with (String y a +:+ String c b) in Hp'.
        apply (prefix_no_straddle sub (String y a) c b Hc) in Hp'. congruence.
      * rewrite IH. destruct (str_index sub a) as [i|e]; [done|].
        cbn [rbind]. by destruct (str_index sub b).
Qed.

Lemma string_take_app (p r : string) :
  string_take (String.length p) (p +:+ r) = p.
Proof.
  induction p as [|c p IH]; [by destruct r|].
  change (String c (string_take (String.length p) (p +:+ r)) = String c p).
  by rewrite IH.
Qed.

Lemma length_app (s t : string) :
  String.length (s +:+ t) = String.length s + String.length t.
Proof.
  induction s as [|c s IH]; [done|].
  change (S (String.length (s +:+ t)) = S (String.length s) + String.length t).
  by rewrite IH.
Qed.

Lemma str_index_skip (sub : string) (c : ascii) (b a : string) (n : nat) :
  c ∉ list_ascii_of_string sub → sub ≠ "" →
  str_index sub a = Raise ValueError → str_index sub b = Ok n →
  str_index sub (a +:+ String c b) = Ok (String.length a + 1 + n).
Proof.
  intros Hc Hsub Ha Hb. rewrite (str_index_app_sep sub c b Hc Hsub a).
  by rewrite Ha, Hb.
Qed.

Lemma reassoc5 (a b c d e t : string) :
  (a +:+ b +:+ c +:+ d +:+ e) +:+ t = a +:+ b +:+ c +:+ d +:+ (e +:+ t).
Proof.
  rewrite (StringFacts.app_assoc a), (StringFacts.app_assoc b),
    (StringFacts.app_assoc c), (StringFacts.app_assoc d). done.
Qed.

(** X17: for a bucket and a training job whose names do not contain
    ['model.tar.gz'], the GPU branch finds the folder of the artifacts and
    names [model_gpu.tar.gz] in it:
    [s3://<bucket>/<job>/output/model_gpu.tar.gz]. *)
Theorem gpu_model_artifacts_in_output_folder (bucket training_job_name : string) :
  str_index "model.tar.gz" bucket = Raise ValueError →
  str_index "model.tar.gz" training_job_name = Raise ValueError →
  model_artifacts_base (model_artifacts bucket training_job_name)
  = Ok ("s3://" +:+ bucket +:+ "/" +:+ training_job_name +:+ "/output") ∧
  gpu_model_artifacts bucket training_job_name
  = Ok ("s3://" +:+ bucket +:+ "/" +:+ training_job_name
        +:+ "/output/model_gpu.tar.gz").
Proof.
  intros Hbucket Hjob.
  assert ("/"%char ∉ list_ascii_of_string "model.tar.gz") as Hslash.
  { cbn. rewrite !not_elem_of_cons. repeat split; try discriminate.
    apply not_elem_of_nil. }
  assert ("model.tar.gz" ≠ "") as Hne by discriminate.
  set (folder := "s3://" +:+ bucket +:+ "/" +:+ training_job_name +:+ "/output").
  assert (model_artifacts bucket training_job_name
          = folder +:+ String "/" "model.tar.gz") as Hsplit.
  { exact (eq_sym (reassoc5 "s3://" bucket "/" training_job_name "/output"
                     (String "/" "model.tar.gz"))). }
  assert (str_index "model.tar.gz" (model_artifacts bucket training_job_name)
          = Ok (String.length folder + 1)) as Hindex.
  { pose proof (str_index_skip "model.tar.gz" "/" "model.tar.gz" "output" 0
                  Hslash Hne eq_refl eq_refl) as H5.
    pose proof (str_index_skip "model.tar.gz" "/" _ training_job_name _
                  Hslash Hne Hjob H5) as H4.
    pose proof (str_index_skip "model.tar.gz" "/" _ bucket _
                  Hslash Hne Hbucket H4) as H3.
    pose proof (str_index_skip "model.tar.gz" "/" _ "" _
                  Hslash Hne eq_refl H3) as H2.
    pose proof (str_index_skip "model.tar.gz" "/" _ "s3:" _
                  Hslash Hne eq_refl H2) as H1.
    etrans; [exact H1|]. f_equal. unfold folder.
    rewrite (length_app "s3://"), (length_app bucket), (length_app "/"),
      (length_app training_job_name).
    cbn [String.length]. lia. }
  assert (model_artifacts_base (model_artifacts bucket training_job_name)
          = Ok folder) as Hbase.
  { unfold model_artifacts_base. rewrite Hindex. cbn [rbind]. f_equal.
    unfold slice_to.
    destruct (Z.ltb_spec (Z.of_nat (String.length folder + 1) - 1) 0);
      [lia|].
    replace (Z.to_nat (Z.of_nat (String.length folder + 1) - 1))
      with (String.length folder) by lia.
    rewrite Hsplit. apply string_take_app. }
  split; [exact Hbase|].
  unfold gpu_model_artifacts. rewrite Hbase. cbn [rbind]. f_equal.
  exact (reassoc5 "s3://" bucket "/" training_job_name "/output"
           "/model_gpu.tar.gz").
Qed.

Lemma gpu_model_artifacts_in_output_folder_witness :
  str_index "model.tar.gz" "sagemaker-us-east-1-111122223333"
  = Raise ValueError ∧
  str_index "model.tar.gz" "birds-2019-11-04" = Raise ValueError ∧
  gpu_model_artifacts "sagemaker-us-east-1-111122223333" "birds-2019-11-04"
  = Ok ("s3://" +:+ "sagemaker-us-east-1-111122223333" +:+ "/"
        +:+ "birds-2019-11-04" +:+ "/output/model_gpu.tar.gz").
Proof.
  exact (conj eq_refl (conj eq_refl
    (proj2 (gpu_model_artifacts_in_output_folder
       "sagemaker-us-east-1-111122223333" "birds-2019-11-04"
       eq_refl eq_refl)))).
Defined.

End ArtifactsFacts.

(** ** Testing the endpoint on a dataframe *)

Module HostingTestFacts.
Import BatchScoring EndpointTest HostingTest.

Lemma mismatches_snoc preds acts pred act :
  length preds = length acts →
  mismatches (preds ++ [pred]) (acts ++ [act])
  = mismatches preds acts + (if (Z.of_nat pred =? act)%Z then 0 else 1).
Proof.
  intros Hlen. unfold mismatches.
  rewrite zip_with_app by done. rewrite List.filter_app, length_app.
  cbn. by destruct (Z.of_nat pred =? act)%Z.
Qed.

Lemma mismatches_le preds acts : mismatches preds acts ≤ length acts.
Proof.
  unfold mismatches.
  etrans; [apply List.filter_length_le|].
  rewrite length_zip_with. lia.
Qed.

Lemma getitem_int_Ok {A} (l : list A) (i : Z) :
  (- Z.of_nat (length l) ≤ i < Z.of_nat (length l))%Z →
  ∃ a, getitem_int l i = Ok a.
Proof.
  intros Hi. unfold getitem_int, getitem.
  destruct (Z.leb_spec 0 i).
  - destruct (lookup_lt_is_Some_2 l (Z.to_nat i) ltac:(lia)) as [a ->].
    by eexists.
  - destruct (Z.leb_spec (- Z.of_nat (length l)) i); [|lia].
    destruct (lookup_lt_is_Some_2 l (Z.to_nat (Z.of_nat (length l) + i))
                ltac:(lia)) as [a ->].
    by eexists.
Qed.

Lemma getitem_int_beyond {A} (l : list A) (i : Z) :
  (Z.of_nat (length l) ≤ i)%Z → getitem_int l i = Raise IndexError.
Proof.
  intros Hi. unfold getitem_int, getitem.
  destruct (Z.leb_spec 0 i); [|lia].
  by rewrite lookup_ge_None_2 by lia.
Qed.

Section DataframeFacts.
Context {bytes : Type}.
Variable class_name_list : list string.
Variable IMAGES_DIR : string.
Variable read : string → result bytes.
Variable predict : bytes → result json.
Variable argmax : json → result nat.

Local Notation "'predict_bird_from_file'" :=
  (HostingTest.predict_bird_from_file class_name_list read predict argmax).
Local Notation "'test_image'" :=
  (HostingTest.test_image class_name_list IMAGES_DIR read predict argmax).
Local Notation "'test_image_df'" :=
  (HostingTest.test_image_df class_name_list IMAGES_DIR read predict argmax).
Local Notation "'returned'" :=
  (HostingTest.returned class_name_list IMAGES_DIR read predict argmax).
Local Notation "'accuracy_cell'" :=
  (HostingTest.accuracy_cell class_name_list IMAGES_DIR read predict argmax).
Local Notation "'answered'" :=
  (HostingTest.answered class_name_list IMAGES_DIR read predict argmax).
Local Notation "'labelled'" := (HostingTest.labelled class_name_list).

(** The index [predict_bird_from_file] returns has a name. *)
Lemma predicted_index_named fn pred conf :
  predict_bird_from_file fn = Ok (pred, conf) →
  ∃ name, getitem class_name_list pred = Ok name.
Proof.
  unfold HostingTest.predict_bird_from_file.
  destruct (read fn) as [x|]; cbn [rbind]; [|done].
  destruct (predict x) as [response|]; cbn [rbind]; [|done].
  destruct (subscript response "predictions") as [results|]; cbn [rbind];
    [|done].
  destruct (argmax results) as [idx|]; cbn [rbind]; [|done].
  destruct (getitem class_name_list idx) as [name|] eqn:Hname; cbn [rbind];
    [|done].
  destruct (item results 0) as [first|]; cbn [rbind]; [|done].
  destruct (item first idx) as [confidence|]; cbn [rbind]; [|done].
  intros [= <- <-]. by eexists.
Qed.

(** One turn of the loop on a row that is answered and labelled. *)
Lemma test_image_good df i r σ :
  df !! i = Some r → answered r → labelled r →
  ∃ pred σ',
    test_image df i σ = (Ok tt, σ') ∧
    pred < length class_name_list ∧
    preds σ' = preds σ ++ [pred] ∧
    acts σ' = acts σ ++ [(class_id r - 1)%Z] ∧
    num_errors σ'
    = num_errors σ + (if (Z.of_nat pred =? class_id r - 1)%Z then 0 else 1) ∧
    length (output σ')
    = length (output σ)
      + (if (Z.of_nat pred =? class_id r - 1)%Z then 0 else 1).
Proof.
  intros Hr (pred & q & Hp) Hact.
  destruct (predicted_index_named _ _ _ Hp) as [name Hname].
  destruct (getitem_int_Ok class_name_list (class_id r - 1) Hact)
    as [aname Haname].
  assert (pred < length class_name_list) as Hlt.
  { apply BatchScoringFacts.getitem_Ok in Hname. by eapply lookup_lt_Some. }
  unfold HostingTest.test_image, io_bind, io_lift, io_modify, getitem at 1.
  rewrite Hr, Hp. cbn [fst snd].
  destruct (Z.of_nat pred =? class_id r - 1)%Z eqn:E; cbn [negb].
  - eexists pred, _. split; [done|]. rewrite E. cbn.
    split; [done|]. split; [done|]. split; [done|]. split; lia.
  - rewrite Hname, Haname. cbn [format_2f].
    eexists pred, _. split; [done|]. rewrite E. cbn. rewrite length_app. cbn.
    split; [done|]. split; [done|]. split; [done|]. split; lia.
Qed.

(** The loop over rows that are all answered and labelled. *)
Lemma loop_good df n : ∀ k σ,
  k + n ≤ length df →
  (∀ i r, k ≤ i < k + n → df !! i = Some r → answered r ∧ labelled r) →
  ∃ σ',
    for_each (seq k n) (test_image df) σ = (Ok tt, σ') ∧
    acts σ' = acts σ ++ map (λ r, (class_id r - 1)%Z) (take n (drop k df)) ∧
    length (preds σ') = length (preds σ) + n ∧
    (Forall (λ pred, pred < length class_name_list) (preds σ) →
     Forall (λ pred, pred < length class_name_list) (preds σ')) ∧
    (length (preds σ) = length (acts σ) →
     num_errors σ = mismatches (preds σ) (acts σ) →
     num_errors σ' = mismatches (preds σ') (acts σ')) ∧
    (length (output σ) = num_errors σ →
     length (output σ') = num_errors σ').
Proof.
  induction n as [|n IH]; intros k σ Hk Hrows.
  - exists σ. cbn. rewrite app_nil_r. by repeat split.
  - destruct (lookup_lt_is_Some_2 df k ltac:(lia)) as [r Hr].
    destruct (Hrows k r ltac:(lia) Hr) as [Hans Hlab].
    destruct (test_image_good df k r σ Hr Hans Hlab)
      as (pred & σ1 & Hrun1 & Hlt & Hp1 & Ha1 & Hn1 & Ho1).
    destruct (IH (S k) σ1 ltac:(lia)) as (σ' & Hrun & Ha & Hp & Hv & Hm & Ho).
    { intros i r' Hi. apply Hrows. lia. }
    exists σ'. split; [|split; [|split; [|split; [|split]]]].
    + cbn [seq for_each]. unfold io_bind. by rewrite Hrun1.
    + rewrite Ha, Ha1, <- app_assoc. f_equal.
      rewrite (drop_S df r k Hr). done.
    + rewrite Hp, Hp1, length_app. cbn. lia.
    + intros Hσ. apply Hv. rewrite Hp1. apply Forall_app. split; [done|].
      by apply Forall_singleton.
    + intros Hlen Hσ. apply Hm.
      * rewrite Hp1, Ha1, !length_app. cbn. lia.
      * rewrite Hp1, Ha1, mismatches_snoc by done. lia.
    + intros Hσ. apply Ho. lia.
Qed.

(** X22: when the endpoint answers for every image and every [class_id - 1]
    is an index of [class_name_list], [test_image_df] returns: [acts] are
    the labels in dataframe order, [preds] has one valid index per row, and
    [num_errors] is the number of rows at which the two differ, each
    reported by one ERROR line. *)
Theorem test_image_df_returns df :
  Forall (λ r, answered r ∧ labelled r) df →
  ∃ σ' : image_test,
    test_image_df df enter = (Ok tt, σ') ∧
    returned df = Ok (num_errors σ', preds σ', acts σ') ∧
    acts σ' = map (λ r, (class_id r - 1)%Z) df ∧
    length (preds σ') = length df ∧
    Forall (λ pred, pred < length class_name_list) (preds σ') ∧
    num_errors σ' = mismatches (preds σ') (acts σ') ∧
    length (output σ') = num_errors σ'.
Proof.
  intros Hdf.
  destruct (loop_good df (length df) 0 enter ltac:(lia))
    as (σ' & Hrun & Ha & Hp & Hv & Hm & Ho).
  { intros i r _ Hr. rewrite Forall_forall in Hdf. apply Hdf.
    by eapply list_elem_of_lookup_2. }
  exists σ'. unfold HostingTest.returned, HostingTest.test_image_df, range.
  rewrite Nat2Z.id, Hrun. split; [done|]. split; [done|].
  rewrite drop_0, take_ge in Ha by lia. cbn in Ha, Hp.
  split; [done|]. split; [done|]. split; [by apply Hv|].
  split; [by apply Hm|by apply Ho].
Qed.

(** The loop up to a row, when the rows before it are answered and
    labelled. *)
Lemma loop_until before r after :
  Forall (λ r, answered r ∧ labelled r) before →
  ∃ σ : image_test,
    length (preds σ) = length before ∧ length (acts σ) = length before ∧
    test_image_df (before ++ r :: after) enter
    = match test_image (before ++ r :: after) (length before) σ with
      | (Ok _, σ1) =>
          for_each (seq (S (length before)) (length after))
                   (test_image (before ++ r :: after)) σ1
      | (Raise e, σ1) => (Raise e, σ1)
      end.
Proof.
  intros Hbefore. set (df := before ++ r :: after).
  assert (length df = length before + S (length after)) as Hlen
    by (unfold df; rewrite length_app; done).
  destruct (loop_good df (length before) 0 enter ltac:(lia))
    as (σ & Hrun & Ha & Hp & _).
  { intros i r' Hi Hr. rewrite Forall_forall in Hbefore. apply Hbefore.
    unfold df in Hr. rewrite lookup_app_l in Hr by lia.
    by eapply list_elem_of_lookup_2. }
  exists σ. split; [done|]. split.
  { rewrite Ha, length_app, length_map, length_take, length_drop. cbn. lia. }
  unfold HostingTest.test_image_df, range. rewrite Nat2Z.id, Hlen.
  rewrite seq_app, PipeModeMore.for_each_app, Hrun.
  cbn [seq for_each Nat.add]. unfold io_bind at 1.
  by destruct (test_image df (length before) σ) as [[[]|e] σ1].
Qed.

(** X23: the test has no [try]: the first image for which
    [predict_bird_from_file] raises ends [test_image_df] with that
    exception, whatever rows follow, and nothing is returned (unlike the
    batch scoring loop, which prints the exception and goes on). *)
Theorem test_image_df_stops_at_first_failure before r after e :
  Forall (λ r, answered r ∧ labelled r) before →
  predict_bird_from_file (IMAGES_DIR +:+ "/" +:+ image_file_name r) = Raise e →
  ∃ σ' : image_test,
    test_image_df (before ++ r :: after) enter = (Raise e, σ') ∧
    length (preds σ') = length before ∧
    length (acts σ') = S (length before) ∧
    returned (before ++ r :: after) = Raise e.
Proof.
  intros Hbefore He.
  destruct (loop_until before r after Hbefore) as (σ & Hp & Ha & Hrun).
  assert (test_image (before ++ r :: after) (length before) σ
          = (Raise e, acts_append (class_id r - 1) σ)) as Hstep.
  { unfold HostingTest.test_image, io_bind, io_lift, io_modify, getitem.
    rewrite list_lookup_middle by done. by rewrite He. }
  unfold HostingTest.returned. rewrite Hrun, Hstep.
  eexists. split; [done|]. cbn. rewrite length_app. cbn.
  split; [done|]. split; [lia|done].
Qed.

(** X24: a label that is not an index of [class_name_list] breaks the
    error report: when [class_id - 1] is [len(class_name_list)] or more,
    the prediction is counted as an error and the ERROR line raises
    [IndexError], although the endpoint answered. *)
Theorem test_image_df_class_id_beyond_names before r after pred conf :
  Forall (λ r, answered r ∧ labelled r) before →
  predict_bird_from_file (IMAGES_DIR +:+ "/" +:+ image_file_name r)
  = Ok (pred, conf) →
  (Z.of_nat (length class_name_list) < class_id r)%Z →
  ∃ σ' : image_test,
    test_image_df (before ++ r :: after) enter = (Raise IndexError, σ') ∧
    length (preds σ') = S (length before) ∧
    returned (before ++ r :: after) = Raise IndexError.
Proof.
  intros Hbefore Hp Hid.
  destruct (predicted_index_named _ _ _ Hp) as [name Hname].
  assert (pred < length class_name_list) as Hlt.
  { apply BatchScoringFacts.getitem_Ok in Hname. by eapply lookup_lt_Some. }
  destruct (loop_until before r after Hbefore) as (σ & Hlp & _ & Hrun).
  assert (test_image (before ++ r :: after) (length before) σ
          = (Raise IndexError,
             num_errors_incr
               (preds_append pred (acts_append (class_id r - 1) σ))))
    as Hstep.
  { unfold HostingTest.test_image, io_bind, io_lift, io_modify, getitem at 1.
    rewrite list_lookup_middle by done. rewrite Hp. cbn [fst snd].
    destruct (Z.eqb_spec (Z.of_nat pred) (class_id r - 1)) as [?|_]; [lia|].
    cbn [negb]. rewrite Hname.
    by rewrite getitem_int_beyond by lia. }
  unfold HostingTest.returned. rewrite Hrun, Hstep.
  eexists. split; [done|]. split; [|done]. cbn. rewrite length_app. cbn. lia.
Qed.

(** X25: the accuracy cell after a test that returns: on an empty
    dataframe the division raises [ZeroDivisionError] (after the test
    itself returned); otherwise the cell prints, next to the accuracy,
    the number of rows predicted right, [num_images - num_errors]: the
    rows at which prediction and label agree, between 0 and
    [num_images]. *)
Theorem accuracy_cell_result df :
  Forall (λ r, answered r ∧ labelled r) df →
  (df = [] → accuracy_cell df = Raise ZeroDivisionError) ∧
  (df ≠ [] →
   ∃ (acc : PrimFloat.float) (right : Z) (num_errors : nat)
     (preds : list nat) (acts : list Z),
     returned df = Ok (num_errors, preds, acts) ∧
     accuracy_cell df = Ok (acc, right, length df) ∧
     right = (Z.of_nat (length df) - Z.of_nat (mismatches preds acts))%Z ∧
     (0 ≤ right ≤ Z.of_nat (length df))%Z).
Proof.
  intros Hdf.
  destruct (loop_good df (length df) 0 enter ltac:(lia))
    as (σ' & Hrun & Ha & Hp & _ & Hm & _).
  { intros i r _ Hr. rewrite Forall_forall in Hdf. apply Hdf.
    by eapply list_elem_of_lookup_2. }
  rewrite drop_0, take_ge in Ha by lia. cbn in Ha, Hp.
  specialize (Hm eq_refl eq_refl).
  assert (num_errors σ' ≤ length df) as Hle.
  { rewrite Hm. etrans; [apply mismatches_le|]. by rewrite Ha, length_map. }
  assert (returned df = Ok (num_errors σ', preds σ', acts σ')) as Hret.
  { unfold HostingTest.returned, HostingTest.test_image_df, range.
    by rewrite Nat2Z.id, Hrun. }
  unfold HostingTest.accuracy_cell. fold returned. rewrite Hret.
  cbn [rbind]. split.
  - intros ->. done.
  - intros Hne.
    destruct (Nat.eqb_spec (length df) 0) as [H0|Hpos].
    { by destruct df. }
    eexists _, _, _, _, _. split; [done|]. split; [done|].
    split; [by rewrite Hm|lia].
Qed.

End DataframeFacts.

(** The theorems at the two classes of the notebook, an endpoint that
    answers [[0.1, 0.9]] for every image, and dataframes of one or two
    rows. *)
Lemma cardinal_rows_testable :
  Forall (λ r,
            answered ["013.Bobolink"; "017.Cardinal"] "CUB_MINI/images/"
              (λ fn : string, Ok fn)
              (λ _ : string,
                 Ok (JObject [("predictions",
                               JArray [JArray [JNumber (1 # 10);
                                               JNumber (9 # 10)]])]))
              (λ _ : json, Ok 1) r ∧
            labelled ["013.Bobolink"; "017.Cardinal"] r)
         [ {| image_file_name := "017.Cardinal/a.jpg"; class_id := 2 |};
           {| image_file_name := "013.Bobolink/b.jpg"; class_id := 1 |} ].
Proof.
  repeat apply Forall_cons_2; try apply Forall_nil_2;
    (split; [by eexists 1, _|unfold labelled; cbn; lia]).
Qed.

Lemma test_image_df_returns_witness :
  Forall (λ r,
            answered ["013.Bobolink"; "017.Cardinal"] "CUB_MINI/images/"
              (λ fn : string, Ok fn)
              (λ _ : string,
                 Ok (JObject [("predictions",
                               JArray [JArray [JNumber (1 # 10);
                                               JNumber (9 # 10)]])]))
              (λ _ : json, Ok 1) r ∧
            labelled ["013.Bobolink"; "017.Cardinal"] r)
         [ {| image_file_name := "017.Cardinal/a.jpg"; class_id := 2 |};
           {| image_file_name := "013.Bobolink/b.jpg"; class_id := 1 |} ] ∧
  ∃ σ' : image_test,
    test_image_df ["013.Bobolink"; "017.Cardinal"] "CUB_MINI/images/"
      (λ fn : string, Ok fn)
      (λ _ : string,
         Ok (JObject [("predictions",
                       JArray [JArray [JNumber (1 # 10); JNumber (9 # 10)]])]))
      (λ _ : json, Ok 1)
      [ {| image_file_name := "017.Cardinal/a.jpg"; class_id := 2 |};
        {| image_file_name := "013.Bobolink/b.jpg"; class_id := 1 |} ]
      enter = (Ok tt, σ') ∧
    length (output σ') = num_errors σ'.
Proof.
  split; [exact cardinal_rows_testable|].
  destruct (test_image_df_returns ["013.Bobolink"; "017.Cardinal"]
              "CUB_MINI/images/" (λ fn : string, Ok fn)
              (λ _ : string,
                 Ok (JObject [("predictions",
                               JArray [JArray [JNumber (1 # 10);
                                               JNumber (9 # 10)]])]))
              (λ _ : json, Ok 1)
              [ {| image_file_name := "017.Cardinal/a.jpg"; class_id := 2 |};
                {| image_file_name := "013.Bobolink/b.jpg"; class_id := 1 |} ]
              cardinal_rows_testable)
    as (σ' & Hrun & _ & _ & _ & _ & _ & Hout).
  exists σ'. exact (conj Hrun Hout).
Defined.

Lemma test_image_df_stops_at_first_failure_witness :
  Forall (λ r,
            answered ["013.Bobolink"; "017.Cardinal"] "CUB_MINI/images/"
              (λ fn : string, Raise OSError) (λ _ : string, Ok JNull)
              (λ _ : json, Ok 1) r ∧
            labelled ["013.Bobolink"; "017.Cardinal"] r) [] ∧
  predict_bird_from_file ["013.Bobolink"; "017.Cardinal"]
    (λ fn : string, Raise OSError) (λ _ : string, Ok JNull)
    (λ _ : json, Ok 1)
    ("CUB_MINI/images/" +:+ "/" +:+
     image_file_name
       {| image_file_name := "017.Cardinal/a.jpg"; class_id := 2 |})
  = Raise OSError ∧
  returned ["013.Bobolink"; "017.Cardinal"] "CUB_MINI/images/"
    (λ fn : string, Raise OSError) (λ _ : string, Ok JNull)
    (λ _ : json, Ok 1)
    ([] ++ {| image_file_name := "017.Cardinal/a.jpg"; class_id := 2 |}
        :: [ {| image_file_name := "013.Bobolink/b.jpg"; class_id := 1 |} ])
  = Raise OSError.
Proof.
  split; [exact (Forall_nil_2 _)|]. split; [reflexivity|].
  destruct (test_image_df_stops_at_first_failure
              ["013.Bobolink"; "017.Cardinal"] "CUB_MINI/images/"
              (λ fn : string, Raise OSError) (λ _ : string, Ok JNull)
              (λ _ : json, Ok 1) []
              {| image_file_name := "017.Cardinal/a.jpg"; class_id := 2 |}
              [ {| image_file_name := "013.Bobolink/b.jpg"; class_id := 1 |} ]
              OSError (Forall_nil_2 _) eq_refl)
    as (σ' & _ & _ & _ & Hret).
  exact Hret.
Defined.

Lemma test_image_df_class_id_beyond_names_witness :
  Forall (λ r,
            answered ["013.Bobolink"; "017.Cardinal"] "CUB_MINI/images/"
              (λ fn : string, Ok fn)
              (λ _ : string,
                 Ok (JObject [("predictions",
                               JArray [JArray [JNumber (1 # 10);
                                               JNumber (9 # 10)]])]))
              (λ _ : json, Ok 1) r ∧
            labelled ["013.Bobolink"; "017.Cardinal"] r) [] ∧
  predict_bird_from_file ["013.Bobolink"; "017.Cardinal"]
    (λ fn : string, Ok fn)
    (λ _ : string,
       Ok (JObject [("predictions",
                     JArray [JArray [JNumber (1 # 10); JNumber (9 # 10)]])]))
    (λ _ : json, Ok 1)
    ("CUB_MINI/images/" +:+ "/" +:+
     image_file_name
       {| image_file_name := "017.Cardinal/a.jpg"; class_id := 17 |})
  = Ok (1, JNumber (9 # 10)) ∧
  (Z.of_nat (length ["013.Bobolink"; "017.Cardinal"])
   < class_id {| image_file_name := "017.Cardinal/a.jpg"; class_id := 17 |})%Z ∧
  returned ["013.Bobolink"; "017.Cardinal"] "CUB_MINI/images/"
    (λ fn : string, Ok fn)
    (λ _ : string,
       Ok (JObject [("predictions",
                     JArray [JArray [JNumber (1 # 10); JNumber (9 # 10)]])]))
    (λ _ : json, Ok 1)
    ([] ++ {| image_file_name := "017.Cardinal/a.jpg"; class_id := 17 |} :: [])
  = Raise IndexError.
Proof.
  split; [exact (Forall_nil_2 _)|]. split; [reflexivity|].
  split; [cbn; lia|].
  destruct (test_image_df_class_id_beyond_names
              ["013.Bobolink"; "017.Cardinal"] "CUB_MINI/images/"
              (λ fn : string, Ok fn)
              (λ _ : string,
                 Ok (JObject [("predictions",
                               JArray [JArray [JNumber (1 # 10);
                                               JNumber (9 # 10)]])]))
              (λ _ : json, Ok 1) []
              {| image_file_name := "017.Cardinal/a.jpg"; class_id := 17 |}
              [] 1 (JNumber (9 # 10)) (Forall_nil_2 _) eq_refl
              ltac:(cbn; lia))
    as (σ' & _ & _ & Hret).
  exact Hret.
Defined.

Lemma accuracy_cell_result_witness :
  Forall (λ r,
            answered ["013.Bobolink"; "017.Cardinal"] "CUB_MINI/images/"
              (λ fn : string, Ok fn)
              (λ _ : string,
                 Ok (JObject [("predictions",
                               JArray [JArray [JNumber (1 # 10);
                                               JNumber (9 # 10)]])]))
              (λ _ : json, Ok 1) r ∧
            labelled ["013.Bobolink"; "017.Cardinal"] r)
         [ {| image_file_name := "017.Cardinal/a.jpg"; class_id := 2 |};
           {| image_file_name := "013.Bobolink/b.jpg"; class_id := 1 |} ] ∧
  ∃ (acc : PrimFloat.float) (right : Z),
    accuracy_cell ["013.Bobolink"; "017.Cardinal"] "CUB_MINI/images/"
      (λ fn : string, Ok fn)
      (λ _ : string,
         Ok (JObject [("predictions",
                       JArray [JArray [JNumber (1 # 10); JNumber (9 # 10)]])]))
      (λ _ : json, Ok 1)
      [ {| image_file_name := "017.Cardinal/a.jpg"; class_id := 2 |};
        {| image_file_name := "013.Bobolink/b.jpg"; class_id := 1 |} ]
    = Ok (acc, right, 2).
Proof.
  split; [exact cardinal_rows_testable|].
  destruct (proj2 (accuracy_cell_result ["013.Bobolink"; "017.Cardinal"]
              "CUB_MINI/images/" (λ fn : string, Ok fn)
              (λ _ : string,
                 Ok (JObject [("predictions",
                               JArray [JArray [JNumber (1 # 10);
                                               JNumber (9 # 10)]])]))
              (λ _ : json, Ok 1)
              [ {| image_file_name := "017.Cardinal/a.jpg"; class_id := 2 |};
                {| image_file_name := "013.Bobolink/b.jpg"; class_id := 1 |} ]
              cardinal_rows_testable) ltac:(discriminate))
    as (acc & right & num_errors & preds & acts & _ & Hcell & _).
  exists acc, right. exact Hcell.
Defined.

End HostingTestFacts.
